(** * Verification of the I2C SD-card bridge protocol engine
    (ATTINY1614_i2cSDCard_v14.ino).

    The sketch is an interrupt-driven I2C client.  All of its state lives in
    global variables; the TWI interrupt service routine dispatches to five
    handlers (AddressHostRead, AddressHostWrite, DataHostRead, DataHostWrite,
    Stop).  The embedding below threads one explicit [State] record through
    those handlers.  The Arduino SD library is an external collaborator: it is
    represented by an interface ([SdGateway]) over an abstract disk, plus a
    log of the calls the sketch makes into it. *)

From Stdlib Require Import ZArith Lia Bool.
From stdpp Require Import base list.

Local Open Scope Z_scope.

(** ** Machine integers and C strings *)

(** Conversions to the unsigned types of the sketch. *)
Definition u8 (x : Z) : Z := x mod 256.
Definition u32 (x : Z) : Z := x mod 4294967296.

(** [(uint8_t)(v >> (8 * i))] *)
Definition shr_byte (v i : Z) : Z := u8 (Z.shiftr v (8 * i)).

Arguments u8 : simpl never.
Arguments u32 : simpl never.
Arguments shr_byte : simpl never.

(** Character codes used by the protocol. *)
Definition chr_A : Z := 65.
Definition chr_C : Z := 67.
Definition chr_D : Z := 68.
Definition chr_E : Z := 69.
Definition chr_F : Z := 70.
Definition chr_K : Z := 75.
Definition chr_L : Z := 76.
Definition chr_M : Z := 77.
Definition chr_Q : Z := 81.
Definition chr_R : Z := 82.
Definition chr_S : Z := 83.
Definition chr_V : Z := 86.
Definition chr_W : Z := 87.
Definition chr_X : Z := 88.
Definition chr_slash : Z := 47.

(** [strlen]: number of characters before the first NUL. *)
Fixpoint strlen (s : list Z) : nat :=
  match s with
  | [] => O
  | c :: r => if c =? 0 then O else S (strlen r)
  end.

(** The C string held in a character array. *)
Definition c_str (s : list Z) : list Z := take (strlen s) s.

(** [strrchr s c], as the text that follows the last occurrence of [c]
    ([None] when [c] does not occur). *)
Fixpoint strrchr_after (c : Z) (s : list Z) : option (list Z) :=
  match s with
  | [] => None
  | x :: r =>
      match strrchr_after c r with
      | Some t => Some t
      | None => if x =? c then Some r else None
      end
  end.

(** [baseName = strrchr(name,'/'); baseName = baseName ? baseName + 1 : name] *)
Definition baseName (name : list Z) : list Z :=
  match strrchr_after chr_slash (c_str name) with
  | Some t => t
  | None => c_str name
  end.

(** [memset(buf, 0, n); strncpy(buf, src, n - 1)] for an [n]-byte buffer. *)
Definition strncpy_zeroed (n : nat) (src : list Z) : list Z :=
  let body := take (n - 1) src in
  body ++ replicate (n - length body) 0.

Arguments strncpy_zeroed : simpl never.
Arguments baseName : simpl never.

(** ** The SD library, as seen by the sketch *)

(** What an open [File] object stands for: a file (with its unread bytes) or a
    directory (with the entries [openNextFile] has not yet returned). *)
#[local] Unset Elimination Schemes.
Inductive Node : Type :=
  MkNode (isDir : bool) (name : list Z) (size : Z)
         (unread : list Z) (pending : list Node).

#[local] Set Elimination Schemes.

Definition n_isDir (n : Node) : bool := let (d, _, _, _, _) := n in d.
Definition n_name (n : Node) : list Z := let (_, m, _, _, _) := n in m.
Definition n_size (n : Node) : Z := let (_, _, z, _, _) := n in z.
Definition n_unread (n : Node) : list Z := let (_, _, _, u, _) := n in u.
Definition n_pending (n : Node) : list Node := let (_, _, _, _, p) := n in p.

(** A [File] object converts to [true] exactly when it is open. *)
Definition File : Type := option Node.
Definition isOpen (f : File) : bool := match f with Some _ => true | None => false end.

Inductive OpenMode : Type :=
| O_READ_mode        (* FILE_READ / O_READ *)
| O_TRUNC_mode       (* O_RDWR | O_CREAT | O_TRUNC *)
| O_APPEND_mode.     (* O_RDWR | O_CREAT | O_APPEND *)

(** Calls into the SD library, in the order the sketch makes them. *)
Inductive Call : Type :=
| SD_open (path : list Z) (mode : OpenMode)
| SD_exists (path : list Z)
| SD_mkdir (path : list Z)
| SD_rmdir (path : list Z)
| SD_remove (path : list Z)
| File_read | File_write (b : Z) | File_size | File_close
| File_isDirectory | File_name | File_openNextFile
| Card_init | Card_type
| Volume_init | Volume_fatType | Volume_blocksPerCluster | Volume_clusterCount.

(** The path-, card- and volume-level operations of the library act on a disk
    the sketch never inspects. *)
Class SdGateway (Disk : Type) : Type := {
  sd_open : Disk -> list Z -> OpenMode -> Disk * File;
  sd_exists : Disk -> list Z -> Disk * bool;
  sd_mkdir : Disk -> list Z -> Disk * bool;
  sd_rmdir : Disk -> list Z -> Disk * bool;
  sd_remove : Disk -> list Z -> Disk * bool;
  file_write : Disk -> Node -> Z -> Disk * Node;
  file_close : Disk -> Node -> Disk;
  card_init : Disk -> Disk * bool;
  card_type : Disk -> Z;
  volume_init : Disk -> Disk * bool;
  volume_fatType : Disk -> Z;
  volume_blocksPerCluster : Disk -> Z;
  volume_clusterCount : Disk -> Z
}.

(** [File::read]: the next unread byte, or -1. *)
Definition file_read (n : Node) : Node * Z :=
  match n with
  | MkNode d m z [] p => (n, -1)
  | MkNode d m z (b :: u) p => (MkNode d m z u p, b)
  end.

(** [File::openNextFile]: the next entry of a directory, if any. *)
Definition file_openNextFile (n : Node) : Node * File :=
  match n with
  | MkNode d m z u [] => (n, None)
  | MkNode d m z u (e :: p) => (MkNode d m z u p, Some e)
  end.

(** ** Global variables of the sketch *)

Definition Namelength : Z := 64.

Inductive DirStream : Type :=
| DIR_STREAM_IDLE
| DIR_STREAM_SEND_NAME
| DIR_STREAM_SEND_SIZE
| DIR_STREAM_SEND_TYPE_NEXT
| DIR_STREAM_SEND_END.

Definition DirStream_eqb (a b : DirStream) : bool :=
  match a, b with
  | DIR_STREAM_IDLE, DIR_STREAM_IDLE
  | DIR_STREAM_SEND_NAME, DIR_STREAM_SEND_NAME
  | DIR_STREAM_SEND_SIZE, DIR_STREAM_SEND_SIZE
  | DIR_STREAM_SEND_TYPE_NEXT, DIR_STREAM_SEND_TYPE_NEXT
  | DIR_STREAM_SEND_END, DIR_STREAM_SEND_END => true
  | _, _ => false
  end.

(** The process-wide clock ([currentYear] ... [currentSecond]). *)
Record Clock : Type := MkClock {
  currentYear : Z; currentMonth : Z; currentDay : Z;
  currentHour : Z; currentMinute : Z; currentSecond : Z
}.

Section Engine.

Context {Disk : Type} {gw : SdGateway Disk}.

(** All globals, the data register and the two LED pins of the sketch,
    together with the disk and the log of library calls.  [Filename_oob]
    records the stores to [Filename] whose index lies outside the array.

    [command], [ch] and [ptr] are [int] (16 bits on the AVR): [command]
    holds 0 or a received byte, [ch] stays within 0..64 and [ptr] within
    -1..10, so their arithmetic never wraps.  The [uint8_t] and [uint32_t]
    variables are wrapped where they are assigned. *)
Record State : Type := MkState {
  command : Z;
  ch : Z;
  ptr : Z;
  checknack : bool;
  Filename : list Z;
  Filename_oob : list (Z * Z);
  Filesize : Z;
  volBlocks : Z;
  volClusters : Z;
  volFatType : Z;
  clock : Clock;
  rtc_buffer : list Z;
  rtc_buffer_ptr : Z;
  myFile : File;
  dirList_currentDir : File;
  dirList_currentEntry : File;
  dirList_state : DirStream;
  dirList_byteCounter : Z;
  dirList_filenameBuffer : list Z;
  dirList_entrySize : Z;
  dirList_dirOpen : bool;
  SDATA : Z;
  PB2 : Z;
  PB3 : Z;
  disk : Disk;
  calls : list Call
}.

(** Assignment to one global. *)
Definition set_command (v : Z) (s : State) : State :=
  MkState
    v (ch s) (ptr s) (checknack s) (Filename s) (Filename_oob s) (Filesize s)
    (volBlocks s) (volClusters s) (volFatType s) (clock s) (rtc_buffer s)
    (rtc_buffer_ptr s) (myFile s) (dirList_currentDir s)
    (dirList_currentEntry s) (dirList_state s) (dirList_byteCounter s)
    (dirList_filenameBuffer s) (dirList_entrySize s) (dirList_dirOpen s)
    (SDATA s) (PB2 s) (PB3 s) (disk s) (calls s).
Definition set_ch (v : Z) (s : State) : State :=
  MkState
    (command s) v (ptr s) (checknack s) (Filename s) (Filename_oob s)
    (Filesize s) (volBlocks s) (volClusters s) (volFatType s) (clock s)
    (rtc_buffer s) (rtc_buffer_ptr s) (myFile s) (dirList_currentDir s)
    (dirList_currentEntry s) (dirList_state s) (dirList_byteCounter s)
    (dirList_filenameBuffer s) (dirList_entrySize s) (dirList_dirOpen s)
    (SDATA s) (PB2 s) (PB3 s) (disk s) (calls s).
Definition set_ptr (v : Z) (s : State) : State :=
  MkState
    (command s) (ch s) v (checknack s) (Filename s) (Filename_oob s)
    (Filesize s) (volBlocks s) (volClusters s) (volFatType s) (clock s)
    (rtc_buffer s) (rtc_buffer_ptr s) (myFile s) (dirList_currentDir s)
    (dirList_currentEntry s) (dirList_state s) (dirList_byteCounter s)
    (dirList_filenameBuffer s) (dirList_entrySize s) (dirList_dirOpen s)
    (SDATA s) (PB2 s) (PB3 s) (disk s) (calls s).
Definition set_checknack (v : bool) (s : State) : State :=
  MkState
    (command s) (ch s) (ptr s) v (Filename s) (Filename_oob s) (Filesize s)
    (volBlocks s) (volClusters s) (volFatType s) (clock s) (rtc_buffer s)
    (rtc_buffer_ptr s) (myFile s) (dirList_currentDir s)
    (dirList_currentEntry s) (dirList_state s) (dirList_byteCounter s)
    (dirList_filenameBuffer s) (dirList_entrySize s) (dirList_dirOpen s)
    (SDATA s) (PB2 s) (PB3 s) (disk s) (calls s).
Definition set_Filename (v : list Z) (s : State) : State :=
  MkState
    (command s) (ch s) (ptr s) (checknack s) v (Filename_oob s) (Filesize s)
    (volBlocks s) (volClusters s) (volFatType s) (clock s) (rtc_buffer s)
    (rtc_buffer_ptr s) (myFile s) (dirList_currentDir s)
    (dirList_currentEntry s) (dirList_state s) (dirList_byteCounter s)
    (dirList_filenameBuffer s) (dirList_entrySize s) (dirList_dirOpen s)
    (SDATA s) (PB2 s) (PB3 s) (disk s) (calls s).
Definition set_Filename_oob (v : list (Z * Z)) (s : State) : State :=
  MkState
    (command s) (ch s) (ptr s) (checknack s) (Filename s) v (Filesize s)
    (volBlocks s) (volClusters s) (volFatType s) (clock s) (rtc_buffer s)
    (rtc_buffer_ptr s) (myFile s) (dirList_currentDir s)
    (dirList_currentEntry s) (dirList_state s) (dirList_byteCounter s)
    (dirList_filenameBuffer s) (dirList_entrySize s) (dirList_dirOpen s)
    (SDATA s) (PB2 s) (PB3 s) (disk s) (calls s).
Definition set_Filesize (v : Z) (s : State) : State :=
  MkState
    (command s) (ch s) (ptr s) (checknack s) (Filename s) (Filename_oob s) v
    (volBlocks s) (volClusters s) (volFatType s) (clock s) (rtc_buffer s)
    (rtc_buffer_ptr s) (myFile s) (dirList_currentDir s)
    (dirList_currentEntry s) (dirList_state s) (dirList_byteCounter s)
    (dirList_filenameBuffer s) (dirList_entrySize s) (dirList_dirOpen s)
    (SDATA s) (PB2 s) (PB3 s) (disk s) (calls s).
Definition set_volBlocks (v : Z) (s : State) : State :=
  MkState
    (command s) (ch s) (ptr s) (checknack s) (Filename s) (Filename_oob s)
    (Filesize s) v (volClusters s) (volFatType s) (clock s) (rtc_buffer s)
    (rtc_buffer_ptr s) (myFile s) (dirList_currentDir s)
    (dirList_currentEntry s) (dirList_state s) (dirList_byteCounter s)
    (dirList_filenameBuffer s) (dirList_entrySize s) (dirList_dirOpen s)
    (SDATA s) (PB2 s) (PB3 s) (disk s) (calls s).
Definition set_volClusters (v : Z) (s : State) : State :=
  MkState
    (command s) (ch s) (ptr s) (checknack s) (Filename s) (Filename_oob s)
    (Filesize s) (volBlocks s) v (volFatType s) (clock s) (rtc_buffer s)
    (rtc_buffer_ptr s) (myFile s) (dirList_currentDir s)
    (dirList_currentEntry s) (dirList_state s) (dirList_byteCounter s)
    (dirList_filenameBuffer s) (dirList_entrySize s) (dirList_dirOpen s)
    (SDATA s) (PB2 s) (PB3 s) (disk s) (calls s).
Definition set_volFatType (v : Z) (s : State) : State :=
  MkState
    (command s) (ch s) (ptr s) (checknack s) (Filename s) (Filename_oob s)
    (Filesize s) (volBlocks s) (volClusters s) v (clock s) (rtc_buffer s)
    (rtc_buffer_ptr s) (myFile s) (dirList_currentDir s)
    (dirList_currentEntry s) (dirList_state s) (dirList_byteCounter s)
    (dirList_filenameBuffer s) (dirList_entrySize s) (dirList_dirOpen s)
    (SDATA s) (PB2 s) (PB3 s) (disk s) (calls s).
Definition set_clock (v : Clock) (s : State) : State :=
  MkState
    (command s) (ch s) (ptr s) (checknack s) (Filename s) (Filename_oob s)
    (Filesize s) (volBlocks s) (volClusters s) (volFatType s) v
    (rtc_buffer s) (rtc_buffer_ptr s) (myFile s) (dirList_currentDir s)
    (dirList_currentEntry s) (dirList_state s) (dirList_byteCounter s)
    (dirList_filenameBuffer s) (dirList_entrySize s) (dirList_dirOpen s)
    (SDATA s) (PB2 s) (PB3 s) (disk s) (calls s).
Definition set_rtc_buffer (v : list Z) (s : State) : State :=
  MkState
    (command s) (ch s) (ptr s) (checknack s) (Filename s) (Filename_oob s)
    (Filesize s) (volBlocks s) (volClusters s) (volFatType s) (clock s) v
    (rtc_buffer_ptr s) (myFile s) (dirList_currentDir s)
    (dirList_currentEntry s) (dirList_state s) (dirList_byteCounter s)
    (dirList_filenameBuffer s) (dirList_entrySize s) (dirList_dirOpen s)
    (SDATA s) (PB2 s) (PB3 s) (disk s) (calls s).
Definition set_rtc_buffer_ptr (v : Z) (s : State) : State :=
  MkState
    (command s) (ch s) (ptr s) (checknack s) (Filename s) (Filename_oob s)
    (Filesize s) (volBlocks s) (volClusters s) (volFatType s) (clock s)
    (rtc_buffer s) v (myFile s) (dirList_currentDir s)
    (dirList_currentEntry s) (dirList_state s) (dirList_byteCounter s)
    (dirList_filenameBuffer s) (dirList_entrySize s) (dirList_dirOpen s)
    (SDATA s) (PB2 s) (PB3 s) (disk s) (calls s).
Definition set_myFile (v : File) (s : State) : State :=
  MkState
    (command s) (ch s) (ptr s) (checknack s) (Filename s) (Filename_oob s)
    (Filesize s) (volBlocks s) (volClusters s) (volFatType s) (clock s)
    (rtc_buffer s) (rtc_buffer_ptr s) v (dirList_currentDir s)
    (dirList_currentEntry s) (dirList_state s) (dirList_byteCounter s)
    (dirList_filenameBuffer s) (dirList_entrySize s) (dirList_dirOpen s)
    (SDATA s) (PB2 s) (PB3 s) (disk s) (calls s).
Definition set_dirList_currentDir (v : File) (s : State) : State :=
  MkState
    (command s) (ch s) (ptr s) (checknack s) (Filename s) (Filename_oob s)
    (Filesize s) (volBlocks s) (volClusters s) (volFatType s) (clock s)
    (rtc_buffer s) (rtc_buffer_ptr s) (myFile s) v (dirList_currentEntry s)
    (dirList_state s) (dirList_byteCounter s) (dirList_filenameBuffer s)
    (dirList_entrySize s) (dirList_dirOpen s) (SDATA s) (PB2 s) (PB3 s)
    (disk s) (calls s).
Definition set_dirList_currentEntry (v : File) (s : State) : State :=
  MkState
    (command s) (ch s) (ptr s) (checknack s) (Filename s) (Filename_oob s)
    (Filesize s) (volBlocks s) (volClusters s) (volFatType s) (clock s)
    (rtc_buffer s) (rtc_buffer_ptr s) (myFile s) (dirList_currentDir s) v
    (dirList_state s) (dirList_byteCounter s) (dirList_filenameBuffer s)
    (dirList_entrySize s) (dirList_dirOpen s) (SDATA s) (PB2 s) (PB3 s)
    (disk s) (calls s).
Definition set_dirList_state (v : DirStream) (s : State) : State :=
  MkState
    (command s) (ch s) (ptr s) (checknack s) (Filename s) (Filename_oob s)
    (Filesize s) (volBlocks s) (volClusters s) (volFatType s) (clock s)
    (rtc_buffer s) (rtc_buffer_ptr s) (myFile s) (dirList_currentDir s)
    (dirList_currentEntry s) v (dirList_byteCounter s)
    (dirList_filenameBuffer s) (dirList_entrySize s) (dirList_dirOpen s)
    (SDATA s) (PB2 s) (PB3 s) (disk s) (calls s).
Definition set_dirList_byteCounter (v : Z) (s : State) : State :=
  MkState
    (command s) (ch s) (ptr s) (checknack s) (Filename s) (Filename_oob s)
    (Filesize s) (volBlocks s) (volClusters s) (volFatType s) (clock s)
    (rtc_buffer s) (rtc_buffer_ptr s) (myFile s) (dirList_currentDir s)
    (dirList_currentEntry s) (dirList_state s) v (dirList_filenameBuffer s)
    (dirList_entrySize s) (dirList_dirOpen s) (SDATA s) (PB2 s) (PB3 s)
    (disk s) (calls s).
Definition set_dirList_filenameBuffer (v : list Z) (s : State) : State :=
  MkState
    (command s) (ch s) (ptr s) (checknack s) (Filename s) (Filename_oob s)
    (Filesize s) (volBlocks s) (volClusters s) (volFatType s) (clock s)
    (rtc_buffer s) (rtc_buffer_ptr s) (myFile s) (dirList_currentDir s)
    (dirList_currentEntry s) (dirList_state s) (dirList_byteCounter s) v
    (dirList_entrySize s) (dirList_dirOpen s) (SDATA s) (PB2 s) (PB3 s)
    (disk s) (calls s).
Definition set_dirList_entrySize (v : Z) (s : State) : State :=
  MkState
    (command s) (ch s) (ptr s) (checknack s) (Filename s) (Filename_oob s)
    (Filesize s) (volBlocks s) (volClusters s) (volFatType s) (clock s)
    (rtc_buffer s) (rtc_buffer_ptr s) (myFile s) (dirList_currentDir s)
    (dirList_currentEntry s) (dirList_state s) (dirList_byteCounter s)
    (dirList_filenameBuffer s) v (dirList_dirOpen s) (SDATA s) (PB2 s)
    (PB3 s) (disk s) (calls s).
Definition set_dirList_dirOpen (v : bool) (s : State) : State :=
  MkState
    (command s) (ch s) (ptr s) (checknack s) (Filename s) (Filename_oob s)
    (Filesize s) (volBlocks s) (volClusters s) (volFatType s) (clock s)
    (rtc_buffer s) (rtc_buffer_ptr s) (myFile s) (dirList_currentDir s)
    (dirList_currentEntry s) (dirList_state s) (dirList_byteCounter s)
    (dirList_filenameBuffer s) (dirList_entrySize s) v (SDATA s) (PB2 s)
    (PB3 s) (disk s) (calls s).
Definition set_SDATA (v : Z) (s : State) : State :=
  MkState
    (command s) (ch s) (ptr s) (checknack s) (Filename s) (Filename_oob s)
    (Filesize s) (volBlocks s) (volClusters s) (volFatType s) (clock s)
    (rtc_buffer s) (rtc_buffer_ptr s) (myFile s) (dirList_currentDir s)
    (dirList_currentEntry s) (dirList_state s) (dirList_byteCounter s)
    (dirList_filenameBuffer s) (dirList_entrySize s) (dirList_dirOpen s) v
    (PB2 s) (PB3 s) (disk s) (calls s).
Definition set_PB2 (v : Z) (s : State) : State :=
  MkState
    (command s) (ch s) (ptr s) (checknack s) (Filename s) (Filename_oob s)
    (Filesize s) (volBlocks s) (volClusters s) (volFatType s) (clock s)
    (rtc_buffer s) (rtc_buffer_ptr s) (myFile s) (dirList_currentDir s)
    (dirList_currentEntry s) (dirList_state s) (dirList_byteCounter s)
    (dirList_filenameBuffer s) (dirList_entrySize s) (dirList_dirOpen s)
    (SDATA s) v (PB3 s) (disk s) (calls s).
Definition set_PB3 (v : Z) (s : State) : State :=
  MkState
    (command s) (ch s) (ptr s) (checknack s) (Filename s) (Filename_oob s)
    (Filesize s) (volBlocks s) (volClusters s) (volFatType s) (clock s)
    (rtc_buffer s) (rtc_buffer_ptr s) (myFile s) (dirList_currentDir s)
    (dirList_currentEntry s) (dirList_state s) (dirList_byteCounter s)
    (dirList_filenameBuffer s) (dirList_entrySize s) (dirList_dirOpen s)
    (SDATA s) (PB2 s) v (disk s) (calls s).
Definition set_disk (v : Disk) (s : State) : State :=
  MkState
    (command s) (ch s) (ptr s) (checknack s) (Filename s) (Filename_oob s)
    (Filesize s) (volBlocks s) (volClusters s) (volFatType s) (clock s)
    (rtc_buffer s) (rtc_buffer_ptr s) (myFile s) (dirList_currentDir s)
    (dirList_currentEntry s) (dirList_state s) (dirList_byteCounter s)
    (dirList_filenameBuffer s) (dirList_entrySize s) (dirList_dirOpen s)
    (SDATA s) (PB2 s) (PB3 s) v (calls s).
Definition set_calls (v : list Call) (s : State) : State :=
  MkState
    (command s) (ch s) (ptr s) (checknack s) (Filename s) (Filename_oob s)
    (Filesize s) (volBlocks s) (volClusters s) (volFatType s) (clock s)
    (rtc_buffer s) (rtc_buffer_ptr s) (myFile s) (dirList_currentDir s)
    (dirList_currentEntry s) (dirList_state s) (dirList_byteCounter s)
    (dirList_filenameBuffer s) (dirList_entrySize s) (dirList_dirOpen s)
    (SDATA s) (PB2 s) (PB3 s) (disk s) v.

(** ** Helpers for the C idioms of the handlers *)

(** Read of an array element (indices are never negative in the sketch). *)
Definition arr_get (a : list Z) (i : Z) : Z := default 0 (a !! Z.to_nat i).

Arguments arr_get : simpl never.

(** [Filename[i] = v].  The array has [Namelength] elements; a store past its
    end does not change the array and is recorded in [Filename_oob]. *)
Definition Filename_store (i v : Z) (s : State) : State :=
  if (0 <=? i) && (i <? Namelength)
  then set_Filename (<[Z.to_nat i := v]> (Filename s)) s
  else set_Filename_oob (Filename_oob s ++ [(i, v)]) s.

(** [Filebytes[i]]: the union overlays [Filesize] with four bytes, and the AVR
    stores the least significant byte first.  The sketch reads it at
    [3 - ptr] under [ptr < 4] only, and [ptr] is never negative while the
    command is ['S']. *)
Definition Filebytes (s : State) (i : Z) : Z := shr_byte (Filesize s) i.

Definition log (c : Call) (s : State) : State := set_calls (calls s ++ [c]) s.

(** [TWI0.SDATA = v] (an 8-bit register). *)
Definition write_SDATA (v : Z) (s : State) : State := set_SDATA (u8 v) s.

Definition Z_of_bool (b : bool) : Z := if b then 1 else 0.

(** [f.close()] on a [File] object holding [f]; the caller's variable is
    closed afterwards. *)
Definition close_handle (f : File) (s : State) : State :=
  let s := log File_close s in
  set_disk (match f with
            | Some n => file_close (disk s) n
            | None => disk s
            end) s.

(** [SD.open(Filename, mode)] *)
Definition do_open (mode : OpenMode) (s : State) : State * File :=
  let path := c_str (Filename s) in
  let s := log (SD_open path mode) s in
  let (d, f) := sd_open (disk s) path mode in
  (set_disk d s, f).

(** A path operation [SD.op(Filename)] returning a [bool]. *)
Definition do_path_op (c : list Z -> Call) (op : Disk -> list Z -> Disk * bool)
    (s : State) : State * bool :=
  let path := c_str (Filename s) in
  let s := log (c path) s in
  let (d, r) := op (disk s) path in
  (set_disk d s, r).

(** [f.isDirectory()] *)
Definition do_isDirectory (f : File) (s : State) : State * bool :=
  (log File_isDirectory s, match f with Some n => n_isDir n | None => false end).

(** [f.size()] *)
Definition do_size (f : File) (s : State) : State * Z :=
  (log File_size s, match f with Some n => u32 (n_size n) | None => 0 end).

(** [f.name()] *)
Definition do_name (f : File) (s : State) : State * list Z :=
  (log File_name s, match f with Some n => n_name n | None => [] end).

(** [dirList_currentEntry = dirList_currentDir.openNextFile()] *)
Definition do_openNextFile (s : State) : State :=
  let s := log File_openNextFile s in
  let next := option_map file_openNextFile (dirList_currentDir s) in
  let s := set_dirList_currentDir (option_map fst next) s in
  set_dirList_currentEntry (match next with Some (_, e) => e | None => None end) s.

(** ** LEDs *)

Definition LEDoff : Z := 0.
Definition LEDgreen : Z := 1.
Definition LEDred : Z := 2.

Definition LightLED (colour : Z) (s : State) : State :=
  let s := set_PB2 (Z.land colour 1) s in
  set_PB3 (Z.land (Z.shiftr colour 1) 1) s.

(** ** Handlers *)

Definition AddressHostRead (s : State) : State * bool :=
  let s := if (command s =? chr_V) || (command s =? chr_S) then set_ptr 0 s else s in
  (s, true).

(** The clean-up of the directory listing shared by [AddressHostWrite] and
    [Stop]:
    [if (dirList_dirOpen) { if (entry) entry.close(); dir.close(); dirOpen = false; }] *)
Definition dirList_cleanup (s : State) : State :=
  if dirList_dirOpen s then
    let s := if isOpen (dirList_currentEntry s)
             then set_dirList_currentEntry None
                    (close_handle (dirList_currentEntry s) s)
             else s in
    let s := set_dirList_currentDir None (close_handle (dirList_currentDir s) s) in
    set_dirList_dirOpen false s
  else s.

Definition AddressHostWrite (s : State) : State * bool :=
  let s := set_command 0 s in
  let s := set_ch 0 s in
  let s := set_ptr 0 s in
  let s := set_rtc_buffer_ptr 0 s in
  let s := LightLED LEDoff s in
  let s := dirList_cleanup s in
  let s := set_dirList_state DIR_STREAM_IDLE s in
  let s := set_dirList_byteCounter 0 s in
  (s, true).

(** The part of the listing shared by the first and the following entries:
    send the type of [dirList_currentEntry] and capture its base name. *)
Definition dirList_send_type (s : State) : State * Z :=
  let (s, d) := do_isDirectory (dirList_currentEntry s) s in
  let dataToSend := if d then chr_D else chr_F in
  let (s, name) := do_name (dirList_currentEntry s) s in
  let s := set_dirList_filenameBuffer (strncpy_zeroed 13 (baseName name)) s in
  let s := set_dirList_state DIR_STREAM_SEND_NAME s in
  let s := set_dirList_byteCounter 0 s in
  (s, dataToSend).

(** The [switch (dirList_state)] of the ['L'] command: new state and
    [dataToSend]. *)
Definition dirList_switch (s : State) : State * Z :=
  match dirList_state s with
  | DIR_STREAM_IDLE =>
      let (s, f) := do_open O_READ_mode s in
      let s := set_dirList_currentDir f s in
      let (s, usable) :=
        if isOpen (dirList_currentDir s)
        then do_isDirectory (dirList_currentDir s) s
        else (s, false) in
      if negb usable then
        let s := if isOpen (dirList_currentDir s)
                 then set_dirList_currentDir None
                        (close_handle (dirList_currentDir s) s)
                 else s in
        let s := set_dirList_dirOpen false s in
        (s, 255)
      else
        let s := set_dirList_dirOpen true s in
        let s := do_openNextFile s in
        if negb (isOpen (dirList_currentEntry s)) then
          let s := set_dirList_currentDir None
                     (close_handle (dirList_currentDir s) s) in
          let s := set_dirList_dirOpen false s in
          (s, 255)
        else dirList_send_type s
  | DIR_STREAM_SEND_NAME =>
      if dirList_byteCounter s <? Z.of_nat (strlen (dirList_filenameBuffer s)) then
        let dataToSend := arr_get (dirList_filenameBuffer s) (dirList_byteCounter s) in
        let s := set_dirList_byteCounter (u8 (dirList_byteCounter s + 1)) s in
        (s, dataToSend)
      else
        let (s, d) := do_isDirectory (dirList_currentEntry s) s in
        let (s, sz) := if d then (s, 0) else do_size (dirList_currentEntry s) s in
        let s := set_dirList_entrySize sz s in
        let s := set_dirList_state DIR_STREAM_SEND_SIZE s in
        let s := set_dirList_byteCounter 0 s in
        (s, 0)
  | DIR_STREAM_SEND_SIZE =>
      let dataToSend := shr_byte (dirList_entrySize s) (dirList_byteCounter s) in
      let s := set_dirList_byteCounter (u8 (dirList_byteCounter s + 1)) s in
      if 4 <=? dirList_byteCounter s then
        let s := set_dirList_currentEntry None
                   (close_handle (dirList_currentEntry s) s) in
        let s := do_openNextFile s in
        if isOpen (dirList_currentEntry s) then
          (set_dirList_state DIR_STREAM_SEND_TYPE_NEXT s, dataToSend)
        else
          let s := set_dirList_currentDir None
                     (close_handle (dirList_currentDir s) s) in
          let s := set_dirList_dirOpen false s in
          (set_dirList_state DIR_STREAM_SEND_END s, dataToSend)
      else (s, dataToSend)
  | DIR_STREAM_SEND_TYPE_NEXT => dirList_send_type s
  | DIR_STREAM_SEND_END => (set_dirList_state DIR_STREAM_IDLE s, 255)
  end.

Definition DataHostRead (s : State) : State :=
  if command s =? chr_R then
    let s := log File_read s in
    match myFile s with
    | Some n => let (n', b) := file_read n in write_SDATA b (set_myFile (Some n') s)
    | None => write_SDATA (-1) s
    end
  else if command s =? chr_E then
    let (s, r) := do_path_op SD_exists sd_exists s in
    write_SDATA (Z_of_bool r) s
  else if command s =? chr_K then
    let (s, checkFile) := do_open O_READ_mode s in
    let (s, isdir) := if isOpen checkFile then do_isDirectory checkFile s
                      else (s, false) in
    let s := if isdir then LightLED LEDgreen (write_SDATA 1 s)
             else LightLED LEDred (write_SDATA 0 s) in
    if isOpen checkFile then close_handle checkFile s else s
  else if command s =? chr_L then
    let (s, dataToSend) := dirList_switch s in
    let s := write_SDATA dataToSend s in
    let s := if negb (DirStream_eqb (dirList_state s) DIR_STREAM_IDLE)
             then LightLED LEDgreen s else LightLED LEDoff s in
    set_ptr (Z_of_bool (negb (DirStream_eqb (dirList_state s) DIR_STREAM_IDLE))) s
  else if command s =? chr_M then
    let (s, r) := do_path_op SD_mkdir sd_mkdir s in
    write_SDATA (Z_of_bool r) s
  else if command s =? chr_Q then
    let s := log Card_init s in
    let (d, ok) := card_init (disk s) in
    let s := set_disk d s in
    if ok then write_SDATA (card_type (disk s)) (log Card_type s) else s
  else if command s =? chr_V then
    if ptr s =? 0 then
      let s := log Volume_init s in
      let (d, ok) := volume_init (disk s) in
      let s := set_disk d s in
      if ok then
        let s := set_volFatType (u8 (volume_fatType (disk s))) (log Volume_fatType s) in
        let s := set_volBlocks (u32 (volume_blocksPerCluster (disk s)))
                   (log Volume_blocksPerCluster s) in
        let s := set_volClusters (u32 (volume_clusterCount (disk s)))
                   (log Volume_clusterCount s) in
        set_ptr 1 (write_SDATA 1 s)
      else set_ptr (-1) (write_SDATA 255 s)
    else if ptr s =? 1 then
      set_ptr (ptr s + 1) (write_SDATA (volFatType s) s)
    else if (2 <=? ptr s) && (ptr s <=? 5) then
      set_ptr (ptr s + 1) (write_SDATA (shr_byte (volBlocks s) (ptr s - 2)) s)
    else if (6 <=? ptr s) && (ptr s <=? 9) then
      set_ptr (ptr s + 1) (write_SDATA (shr_byte (volClusters s) (ptr s - 6)) s)
    else write_SDATA 0 s
  else if command s =? chr_D then
    let (s, r) := do_path_op SD_rmdir sd_rmdir s in
    write_SDATA (Z_of_bool r) s
  else if command s =? chr_X then
    let (s, r) := do_path_op SD_remove sd_remove s in
    write_SDATA (Z_of_bool r) s
  else if command s =? chr_S then
    if ptr s <? 4 then
      let s := if ptr s =? 0
               then let (s, z) := do_size (myFile s) s in set_Filesize z s
               else s in
      set_ptr (ptr s + 1) (write_SDATA (Filebytes s (3 - ptr s)) s)
    else write_SDATA 0 s
  else write_SDATA 0 s.

(** [myFile = SD.open(Filename, mode)]: the previous value of [myFile] is
    overwritten, not closed. *)
Definition open_myFile (mode : OpenMode) (s : State) : State :=
  let (s, f) := do_open mode s in set_myFile f s.

Definition no_file_command (c : Z) : bool :=
  (c =? chr_Q) || (c =? chr_V) || (c =? chr_K) || (c =? chr_M) || (c =? chr_D)
  || (c =? chr_X) || (c =? chr_L) || (c =? chr_E) || (c =? chr_C) || (c =? chr_F).

Definition DataHostWrite (s : State) : State * bool :=
  let received_data := SDATA s in
  if command s =? 0 then
    let s := set_command received_data s in
    let s := set_ptr 0 s in
    let s := set_ch 0 s in
    let s := set_rtc_buffer_ptr 0 s in
    if no_file_command (command s) then (s, true)
    else
      let opened :=
        if command s =? chr_W then Some (open_myFile O_TRUNC_mode s)
        else if (command s =? chr_R) || (command s =? chr_S)
             then Some (open_myFile O_READ_mode s)
        else if command s =? chr_A then Some (open_myFile O_APPEND_mode s)
        else None in
      match opened with
      | None => (set_command 0 s, false)
      | Some s =>
          if isOpen (myFile s) then (LightLED LEDgreen s, true)
          else (set_command 0 (LightLED LEDred s), false)
      end
  else if command s =? chr_F then
    if ch s <? Namelength then
      let s := Filename_store (ch s) received_data s in
      let s := set_ch (ch s + 1) s in
      let s := Filename_store (ch s) 0 s in
      (s, true)
    else (s, false)
  else if (command s =? chr_W) || (command s =? chr_A) then
    match myFile s with
    | Some n =>
        let s := log (File_write received_data) s in
        let (d, n') := file_write (disk s) n received_data in
        (set_myFile (Some n') (set_disk d s), true)
    | None => (LightLED LEDred s, false)
    end
  else if command s =? chr_C then
    if rtc_buffer_ptr s <? 6 then
      let s := set_rtc_buffer
                 (<[Z.to_nat (rtc_buffer_ptr s) := received_data]> (rtc_buffer s)) s in
      let s := set_rtc_buffer_ptr (u8 (rtc_buffer_ptr s + 1)) s in
      (s, true)
    else (s, false)
  else (s, false).

(** The range checks of [Stop] on the received clock bytes. *)
Definition rtc_year (yy : Z) : Z := if yy <? 80 then 2000 + yy else 1900 + yy.

Definition rtc_valid (buf : list Z) : bool :=
  (1 <=? arr_get buf 1) && (arr_get buf 1 <=? 12)
  && (1 <=? arr_get buf 2) && (arr_get buf 2 <=? 31)
  && (arr_get buf 3 <=? 23) && (arr_get buf 4 <=? 59) && (arr_get buf 5 <=? 59)
  && (1980 <=? rtc_year (arr_get buf 0)).

Definition Stop (s : State) : State :=
  let s := set_checknack false s in
  let s :=
    if (command s =? chr_C) && (rtc_buffer_ptr s =? 6) then
      if rtc_valid (rtc_buffer s) then
        let buf := rtc_buffer s in
        let s := set_clock (MkClock (rtc_year (arr_get buf 0)) (arr_get buf 1)
                              (arr_get buf 2) (arr_get buf 3) (arr_get buf 4)
                              (arr_get buf 5)) s in
        LightLED LEDoff (LightLED LEDgreen s)
      else LightLED LEDoff (LightLED LEDred s)
    else s in
  let s :=
    if isOpen (myFile s)
       && ((command s =? chr_W) || (command s =? chr_R)
           || (command s =? chr_A) || (command s =? chr_S))
    then LightLED LEDoff (set_myFile None (close_handle (myFile s) s))
    else s in
  let s := dirList_cleanup s in
  let s := set_dirList_state DIR_STREAM_IDLE s in
  let s := set_dirList_byteCounter 0 s in
  let s := set_command 0 s in
  let s := set_ch 0 s in
  let s := set_ptr 0 s in
  set_rtc_buffer_ptr 0 s.

(** ** The TWI interrupt service routine *)

(** The flags of [TWI0.SSTATUS] that the routine tests. *)
Record SStatus : Type := MkSStatus {
  TWI_APIF : bool; TWI_AP : bool; TWI_DIR : bool; TWI_DIF : bool; TWI_RXACK : bool
}.

(** The value written to [TWI0.SCTRLB]. *)
Inductive Ctrl : Type :=
| ACK_RESPONSE       (* TWI_ACKACT_ACK_gc | TWI_SCMD_RESPONSE_gc *)
| NACK_RESPONSE      (* TWI_ACKACT_NACK_gc | TWI_SCMD_RESPONSE_gc *)
| RESPONSE           (* TWI_SCMD_RESPONSE_gc *)
| COMPTRANS.         (* TWI_SCMD_COMPTRANS_gc *)

Definition SendResponse (succeed : bool) : Ctrl :=
  if succeed then ACK_RESPONSE else NACK_RESPONSE.

Definition ISR (st : SStatus) (s : State) : State * option Ctrl :=
  if TWI_APIF st && TWI_AP st then
    let (s, succeed) := if TWI_DIR st then AddressHostRead s else AddressHostWrite s in
    (s, Some (SendResponse succeed))
  else if TWI_DIF st then
    if TWI_DIR st then
      let s := if TWI_RXACK st && checknack s then set_checknack false s
               else set_checknack true (DataHostRead s) in
      (s, Some RESPONSE)
    else
      let (s, succeed) := DataHostWrite s in
      (s, Some (SendResponse succeed))
  else if TWI_APIF st && negb (TWI_AP st) then (Stop s, Some COMPTRANS)
  else (s, None).

(** ** Bus events *)

(** The five notifications the peripheral raises.  A read-requested
    notification carries the RXACK flag (set when the host answered the
    previous byte with a NACK); a byte-written notification carries the byte
    the peripheral has placed in the data register. *)
Inductive Event : Type :=
| EvAddrWrite
| EvAddrRead
| EvDataWrite (b : Z)
| EvDataRead (rxack : bool)
| EvStop.

Definition status_of (e : Event) : SStatus :=
  match e with
  | EvAddrWrite => MkSStatus true true false false false
  | EvAddrRead => MkSStatus true true true false false
  | EvDataWrite _ => MkSStatus false false false true false
  | EvDataRead rx => MkSStatus false false true true rx
  | EvStop => MkSStatus true false false false false
  end.

(** What the interrupt lets the host observe. *)
Inductive Reply : Type :=
| Acked | Nacked
| Sent (b : Z)       (* a response byte was produced *)
| Absorbed           (* read-requested notification consumed, nothing produced *)
| Completed.

Definition on_event (e : Event) (s : State) : State * Reply :=
  let s := match e with EvDataWrite b => set_SDATA (u8 b) s | _ => s end in
  let absorbed := match e with
                  | EvDataRead rx => rx && checknack s
                  | _ => false
                  end in
  let (s', c) := ISR (status_of e) s in
  (s', match c with
       | Some ACK_RESPONSE => Acked
       | Some NACK_RESPONSE => Nacked
       | Some RESPONSE => if absorbed then Absorbed else Sent (SDATA s')
       | Some COMPTRANS | None => Completed
       end).

(** A sequence of events, with the replies in order. *)
Fixpoint run (es : list Event) (s : State) : State * list Reply :=
  match es with
  | [] => (s, [])
  | e :: es =>
      let (s1, r) := on_event e s in
      let (s2, rs) := run es s1 in
      (s2, r :: rs)
  end.

(** The state right after power-up and [setup]: no command, empty buffers,
    the default date, and the volume data [setup] has cached. *)
Definition boot (d : Disk) (fat blocks clusters : Z) : State :=
  MkState 0 0 0 false (replicate 64 0) [] 0 blocks clusters fat
    (MkClock 2025 1 1 0 0 0) (replicate 6 0) 0
    None None None DIR_STREAM_IDLE 0 (replicate 13 0) 0 false
    0 0 0 d [].

End Engine.

Arguments State Disk : clear implicits.

(** * Vocabulary of the statements

    The definitions below are not part of the sketch: they name the
    expected response streams, the conditions of the protocol description
    and the invariants used in the proofs. *)

Section Vocabulary.
Context {Disk : Type} {gw : SdGateway Disk}.
Implicit Types s : State Disk.

(** The validation, in the words of the protocol description. *)
Definition expand_year (yy : Z) : Z :=
  if Z_lt_dec yy 80 then 2000 + yy else 1900 + yy.

Definition clock_bytes_in_range (buf : list Z) : Prop :=
  1 <= arr_get buf 1 <= 12 /\ 1 <= arr_get buf 2 <= 31
  /\ arr_get buf 3 <= 23 /\ arr_get buf 4 <= 59 /\ arr_get buf 5 <= 59
  /\ 1980 <= expand_year (arr_get buf 0).

Definition clock_commit_condition s : Prop :=
  command s = chr_C /\ rtc_buffer_ptr s = 6 /\ clock_bytes_in_range (rtc_buffer s).

(** Two states that differ at most in the data register. *)
Definition same_but_SDATA s1 s2 : Prop := set_SDATA 0 s1 = set_SDATA 0 s2.

(** A clock-set transaction up to (not including) its stop. *)
Definition clock_set (bs : list Z) : list Event :=
  EvAddrWrite :: EvDataWrite chr_C :: map EvDataWrite bs.

(** The library call of each one-shot command. *)
Definition one_shot_call (c : Z) : option (list Z -> Call) :=
  if c =? chr_M then Some SD_mkdir
  else if c =? chr_D then Some SD_rmdir
  else if c =? chr_X then Some SD_remove
  else None.

Definition one_shot_op (c : Z) : Disk -> list Z -> Disk * bool :=
  if c =? chr_M then sd_mkdir else if c =? chr_D then sd_rmdir else sd_remove.

(** The replies to [n] read requests of a host that acknowledges every byte,
    when the engine answers from the byte sequence [bytes] and with 0 once
    the sequence is exhausted. *)
Definition stream_from (bytes : list Z) (k n : nat) : list Reply :=
  map (fun i => Sent (nth i bytes 0)) (seq k n).

(** Most significant byte first. *)
Definition be32 (z : Z) : list Z :=
  [shr_byte z 3; shr_byte z 2; shr_byte z 1; shr_byte z 0].

(** Least significant byte first. *)
Definition le32 (z : Z) : list Z :=
  [shr_byte z 0; shr_byte z 1; shr_byte z 2; shr_byte z 3].

Definition le_value (bs : list Z) : Z := foldr (fun b acc => b + 256 * acc) 0 bs.
Definition be_value (bs : list Z) : Z := le_value (reverse bs).

(** [myFile.size()] as the sketch would obtain it. *)
Definition myFile_size s : Z :=
  match myFile s with Some nd => u32 (n_size nd) | None => 0 end.

(** State of the file-size cursor after [k] bytes. *)
Definition size_cursor (z : Z) (log0 : list Call) (k : nat) s : Prop :=
  command s = chr_S
  /\ ptr s = Z.min (Z.of_nat k) 4
  /\ match k with
     | O => myFile_size s = z /\ calls s = log0
     | S _ => Filesize s = z /\ calls s = log0 ++ [File_size]
     end.

(** The ten bytes of a successful volume-information response, for the
    volume data read from disk [d]. *)
Definition volume_bytes (d : Disk) : list Z :=
  [1; u8 (volume_fatType d)]
  ++ le32 (u32 (volume_blocksPerCluster d))
  ++ le32 (u32 (volume_clusterCount d)).

(** State of the volume cursor after [k] bytes of a successful response. *)
Definition volume_cursor (d : Disk) (k : nat) s : Prop :=
  command s = chr_V
  /\ ptr s = Z.min (Z.of_nat k) 10
  /\ match k with
     | O => volume_init (disk s) = (d, true)
     | S _ => volFatType s = u8 (volume_fatType d)
              /\ volBlocks s = u32 (volume_blocksPerCluster d)
              /\ volClusters s = u32 (volume_clusterCount d)
     end.

(** After a failed [volume.init] the cursor is parked at -1. *)
Definition volume_error_cursor (k : nat) s : Prop :=
  command s = chr_V
  /\ match k with
     | O => ptr s = 0 /\ snd (volume_init (disk s)) = false
     | S _ => ptr s = -1
     end.

(** The name sent for an entry: its base name, cut to 12 characters. *)
Definition short_name (nm : list Z) : list Z := take 12 (baseName nm).

(** Names made of bytes. *)
Definition byte_string (l : list Z) : Prop := Forall (fun c => 0 <= c < 256) l.

(** [emits s bytes s']: answering [length bytes] read requests from [s]
    sends [bytes] and leaves the engine in [s']. *)
Definition emits s (bytes : list Z) s' : Prop :=
  run (replicate (length bytes) (EvDataRead false)) s = (s', map Sent bytes).

Definition entry_type (e : Node) : Z := if n_isDir e then chr_D else chr_F.
Definition entry_size (e : Node) : Z := if n_isDir e then 0 else u32 (n_size e).

(** The bytes of one entry: type, name, NUL, size (least significant byte
    first). *)
Definition entry_bytes (e : Node) : list Z :=
  entry_type e :: short_name (n_name e) ++ 0 :: le32 (entry_size e).

(** The whole response: every entry in the order of iteration, then 0xFF. *)
Definition listing (es : list Node) : list Z :=
  concat (map entry_bytes es) ++ [255].

(** The directory is open on [dir], the current entry is [e]. *)
Definition streaming (st : DirStream) (e dir : Node) s : Prop :=
  command s = chr_L
  /\ dirList_state s = st
  /\ dirList_currentDir s = Some dir
  /\ dirList_currentEntry s = Some e
  /\ dirList_dirOpen s = true.

Definition at_name (e dir : Node) (k : nat) s : Prop :=
  streaming DIR_STREAM_SEND_NAME e dir s
  /\ dirList_filenameBuffer s = strncpy_zeroed 13 (baseName (n_name e))
  /\ dirList_byteCounter s = Z.of_nat k.

Definition at_size (e dir : Node) (j : nat) s : Prop :=
  streaming DIR_STREAM_SEND_SIZE e dir s
  /\ dirList_entrySize s = entry_size e
  /\ dirList_byteCounter s = Z.of_nat j.

(** No handle is open. *)
Definition released (st : DirStream) s : Prop :=
  command s = chr_L
  /\ dirList_state s = st
  /\ dirList_currentDir s = None
  /\ dirList_currentEntry s = None
  /\ dirList_dirOpen s = false.

(** The directory handle once [openNextFile] has returned its next entry. *)
Definition advance (dir : Node) : Node := fst (file_openNextFile dir).

(** What follows the last size byte of an entry. *)
Definition after_entry (dir : Node) s : Prop :=
  match n_pending dir with
  | e' :: _ => streaming DIR_STREAM_SEND_TYPE_NEXT e' (advance dir) s
  | [] => released DIR_STREAM_SEND_END s
  end.


(** The entries a listing of the opened object goes through: those of a
    directory, none when the path cannot be opened or is not a directory. *)
Definition entries_of (f : File) : list Node :=
  match f with
  | Some d => if n_isDir d then n_pending d else []
  | None => []
  end.

(** The listing handles and the two variables guarding them. *)
Definition cursor s : File * File * DirStream * bool :=
  (dirList_currentDir s, dirList_currentEntry s, dirList_state s, dirList_dirOpen s).

(** When [dirList_dirOpen] is clear no listing handle is open, and it is
    clear whenever the listing is idle or about to send the end marker. *)
Definition cursor_ok (c : File * File * DirStream * bool) : Prop :=
  let '(dir, entry, st, opened) := c in
  (opened = false -> dir = None /\ entry = None)
  /\ (st = DIR_STREAM_IDLE \/ st = DIR_STREAM_SEND_END -> opened = false).

Definition handles_inv s : Prop := cursor_ok (cursor s).

(** The listing is idle and holds no handle. *)
Definition no_listing_handle s : Prop :=
  cursor s = (None, None, DIR_STREAM_IDLE, false).

(** The two handlers, split at their call of the shared clean-up. *)
Definition before_cleanup_AddressHostWrite s : State Disk :=
  LightLED LEDoff (set_rtc_buffer_ptr 0 (set_ptr 0 (set_ch 0 (set_command 0 s)))).

Definition before_cleanup_Stop s : State Disk :=
  let s := set_checknack false s in
  let s :=
    if (command s =? chr_C) && (rtc_buffer_ptr s =? 6) then
      if rtc_valid (rtc_buffer s) then
        let buf := rtc_buffer s in
        let s := set_clock (MkClock (rtc_year (arr_get buf 0)) (arr_get buf 1)
                              (arr_get buf 2) (arr_get buf 3) (arr_get buf 4)
                              (arr_get buf 5)) s in
        LightLED LEDoff (LightLED LEDgreen s)
      else LightLED LEDoff (LightLED LEDred s)
    else s in
  if isOpen (myFile s)
     && ((command s =? chr_W) || (command s =? chr_R)
         || (command s =? chr_A) || (command s =? chr_S))
  then LightLED LEDoff (set_myFile None (close_handle (myFile s) s))
  else s.

End Vocabulary.

(** ** A small simulated card

    A concrete instance of the library interface, used to run the engine on
    explicit inputs: a flat table of paths, a card that may fail to
    initialise, and a volume that may fail to mount. *)
Module Sim.

Record SimDisk : Type := MkSimDisk {
  sim_nodes : list (list Z * Node);
  sim_card : option Z;                 (* card type when [card.init] succeeds *)
  sim_volume : option (Z * Z * Z)      (* fatType, blocksPerCluster, clusterCount *)
}.

Fixpoint find_node (path : list Z) (t : list (list Z * Node)) : File :=
  match t with
  | [] => None
  | (p, n) :: t => if bool_decide (p = path) then Some n else find_node path t
  end.

Fixpoint drop_node (path : list Z) (t : list (list Z * Node)) : list (list Z * Node) :=
  match t with
  | [] => []
  | (p, n) :: t =>
      if bool_decide (p = path) then drop_node path t else (p, n) :: drop_node path t
  end.

Definition with_nodes (t : list (list Z * Node)) (d : SimDisk) : SimDisk :=
  MkSimDisk t (sim_card d) (sim_volume d).

Definition sim_open (d : SimDisk) (path : list Z) (mode : OpenMode) : SimDisk * File :=
  match find_node path (sim_nodes d), mode with
  | Some n, O_TRUNC_mode =>
      let n' := MkNode false (n_name n) 0 [] [] in
      if n_isDir n then (d, None)
      else (with_nodes ((path, n') :: drop_node path (sim_nodes d)) d, Some n')
  | Some n, _ => (d, Some n)
  | None, O_READ_mode => (d, None)
  | None, _ =>
      let n' := MkNode false path 0 [] [] in
      (with_nodes ((path, n') :: sim_nodes d) d, Some n')
  end.

Definition sim_mkdir (d : SimDisk) (path : list Z) : SimDisk * bool :=
  match find_node path (sim_nodes d) with
  | Some _ => (d, false)
  | None => (with_nodes ((path, MkNode true path 0 [] []) :: sim_nodes d) d, true)
  end.

Definition sim_unlink (dir : bool) (d : SimDisk) (path : list Z) : SimDisk * bool :=
  match find_node path (sim_nodes d) with
  | Some n =>
      if bool_decide (n_isDir n = dir) && bool_decide (n_pending n = [])
      then (with_nodes (drop_node path (sim_nodes d)) d, true)
      else (d, false)
  | None => (d, false)
  end.

Definition sim_write (d : SimDisk) (n : Node) (b : Z) : SimDisk * Node :=
  (d, MkNode (n_isDir n) (n_name n) (n_size n + 1) (n_unread n) (n_pending n)).

#[export] Instance sim_gateway : SdGateway SimDisk := {
  sd_open := sim_open;
  sd_exists := fun d p => (d, isOpen (find_node p (sim_nodes d)));
  sd_mkdir := sim_mkdir;
  sd_rmdir := sim_unlink true;
  sd_remove := sim_unlink false;
  file_write := sim_write;
  file_close := fun d _ => d;
  card_init := fun d => (d, bool_decide (is_Some (sim_card d)));
  card_type := fun d => default 0 (sim_card d);
  volume_init := fun d => (d, bool_decide (is_Some (sim_volume d)));
  volume_fatType := fun d => match sim_volume d with Some (f, _, _) => f | None => 0 end;
  volume_blocksPerCluster :=
    fun d => match sim_volume d with Some (_, b, _) => b | None => 0 end;
  volume_clusterCount :=
    fun d => match sim_volume d with Some (_, _, c) => c | None => 0 end
}.

(** The 263-byte file "A.TXT". *)
Definition file_A_TXT : Node :=
  MkNode false [65; 46; 84; 88; 84] 263 (replicate 263 85) [].

(** The directory "/", holding the sub-directory "LOGS" and "A.TXT". *)
Definition root_dir : Node :=
  MkNode true [47] 0 [] [ MkNode true [76; 79; 71; 83] 0 [] []; file_A_TXT ].

(** An SDHC card with a FAT16 volume: "/", the empty directory "E" and
    "A.TXT". *)
Definition card_ok : SimDisk :=
  MkSimDisk [ ([47], root_dir);
              ([69], MkNode true [69] 0 [] []);
              ([65; 46; 84; 88; 84], file_A_TXT) ]
            (Some 3) (Some (16, 64, 70000)).

(** The same card when neither the card nor the volume can be initialised. *)
Definition card_failing : SimDisk := MkSimDisk (sim_nodes card_ok) None None.

(** The engine after [setup] on that card. *)
Definition boot_ok : State SimDisk := boot card_ok 16 64 70000.
Definition boot_failing : State SimDisk := boot card_failing 16 64 70000.

(** [F name] followed by a stop. *)
Definition set_filename (name : list Z) : list Event :=
  EvAddrWrite :: EvDataWrite chr_F :: map EvDataWrite name ++ [EvStop].

End Sim.

Import Sim.

Definition name_A_TXT : list Z := [65; 46; 84; 88; 84].   (* "A.TXT" *)
Definition name_root : list Z := [47].                     (* "/" *)
Definition name_NEW : list Z := [78; 69; 87].              (* "NEW" *)

(** Number of logged calls of one kind. *)
Definition count_calls (p : Call -> bool) (l : list Call) : nat :=
  length (List.filter p l).

Definition is_close (c : Call) : bool :=
  match c with File_close => true | _ => false end.

Definition is_mkdir (c : Call) : bool :=
  match c with SD_mkdir _ => true | _ => false end.

(** A write command that is superseded by a new write address match before
    any stop. *)
Definition superseded_write : list Event :=
  set_filename name_A_TXT ++ [EvAddrWrite; EvDataWrite chr_W; EvAddrWrite].

(** A mkdir transaction in which the host acknowledges the first response
    byte and asks for a second one. *)
Definition mkdir_two_reads : list Event :=
  set_filename name_NEW
  ++ [EvAddrWrite; EvDataWrite chr_M; EvAddrRead; EvDataRead false; EvDataRead false].

Definition volume_query (n : nat) : list Event :=
  [EvAddrWrite; EvDataWrite chr_V; EvAddrRead] ++ replicate n (EvDataRead false).

(** A valid clock setting about to be stopped, and one cut short. *)
Definition clock_ready : State SimDisk :=
  fst (run (clock_set [24; 7; 26; 10; 30; 0]) boot_ok).
Definition clock_short : State SimDisk :=
  fst (run (clock_set [24; 7; 26]) boot_ok).

(** An exists query, after the read address match. *)
Definition exists_probe : State SimDisk :=
  fst (run (set_filename name_A_TXT ++ [EvAddrWrite; EvDataWrite chr_E; EvAddrRead])
         boot_ok).

(** A mkdir query, after the read address match. *)
Definition mkdir_probe : State SimDisk :=
  fst (run (set_filename name_NEW ++ [EvAddrWrite; EvDataWrite chr_M; EvAddrRead])
         boot_ok).

(** A file-size query on the 263-byte file, before the read address match. *)
Definition size_probe : State SimDisk :=
  fst (run (set_filename name_A_TXT ++ [EvAddrWrite; EvDataWrite chr_S]) boot_ok).

(** A volume query, before the read address match. *)
Definition volume_probe : State SimDisk :=
  fst (run [EvAddrWrite; EvDataWrite chr_V] boot_ok).

(** A listing of "/", after the read address match. *)
Definition listing_probe : State SimDisk :=
  fst (run (set_filename name_root ++ [EvAddrWrite; EvDataWrite chr_L; EvAddrRead])
         boot_ok).


(** * Further vocabulary

    Invariants of the engine, the host-side helpers of the demo program and
    the earlier bridge sketch. *)

Section EngineInvariants.
Context {Disk : Type} {gw : SdGateway Disk}.
Implicit Types s : State Disk.




(** The fields the invariants speak about. *)
Definition bounded_fields s :=
  (Filename s, rtc_buffer s, dirList_filenameBuffer s, command s, ch s, ptr s,
   rtc_buffer_ptr s, SDATA s, dirList_byteCounter s, clock s, Filename_oob s).

(** The filename array and the stores that missed it. *)
Definition name_fields s := (Filename s, Filename_oob s).


End EngineInvariants.

Section EngineTransactions.
Context {Disk : Type} {gw : SdGateway Disk}.
Implicit Types s : State Disk.

(** The commands that keep [myFile] open: ['W'], ['R'], ['A'] and ['S']. *)
Definition file_command (c : Z) : bool :=
  (c =? chr_W) || (c =? chr_R) || (c =? chr_A) || (c =? chr_S).

(** Under a file command [myFile] is open. *)
Definition file_command_has_file s : Prop :=
  file_command (command s) = true -> isOpen (myFile s) = true.





(** A host that reads [n] bytes one request at a time: read address match,
    one byte, NACK, and the read-requested notification that follows it. *)
Definition poll : list Event := [EvAddrRead; EvDataRead false; EvDataRead true].
Definition polls (n : nat) : list Event := concat (replicate n poll).

(** What the host sees of one polled byte. *)
Definition polled (b : Z) : list Reply := [Acked; Sent b; Absorbed].

(** The log entries of the probe of the ['K'] command. *)
Definition probe_calls (path : list Z) (f : File) : list Call :=
  SD_open path O_READ_mode
  :: (if isOpen f then [File_isDirectory; File_close] else []).

Definition is_directory (f : File) : bool :=
  match f with Some n => n_isDir n | None => false end.

End EngineTransactions.

(** * The demo host

    The host program drives the bridge through the Wire library.  Its
    functions are run here against the engine itself: a Wire call is the
    sequence of bus events it puts on the engine, and what the host reads
    are the engine's replies.  Serial output is dropped; a function that
    only prints returns what it would print. *)
Module Host.
Section Host.
Context {Disk : Type} {gw : SdGateway Disk}.
Implicit Types s : State Disk.

Definition I2C_BUFFER_LIMIT : Z := 32.

(** ** The bus *)

(** The buffered bytes go out one by one until one is not acknowledged. *)
Fixpoint write_bytes (buffer : list Z) s : State Disk * bool :=
  match buffer with
  | [] => (s, true)
  | b :: buffer =>
      let (s, r) := on_event (EvDataWrite b) s in
      match r with
      | Acked => write_bytes buffer s
      | _ => (s, false)
      end
  end.

(** [Wire.beginTransmission(addr)], the [Wire.write]s that fill [buffer] and
    [Wire.endTransmission(sendStop)]: start, address, data, and a stop when
    asked for.  The result is the error code of [endTransmission]: 0 for
    success, 2 for an address and 3 for a data byte not acknowledged.
    Called without [beginTransmission] the buffer is empty. *)
Definition endTransmission (buffer : list Z) (sendStop : bool) s : State Disk * Z :=
  let (s, r) := on_event EvAddrWrite s in
  let (s, error) :=
    match r with
    | Acked => let (s, ok) := write_bytes buffer s in (s, if ok then 0 else 3)
    | _ => (s, 2)
    end in
  (if sendStop then fst (on_event EvStop s) else s, error).

(** The bytes among the replies. *)
Definition received (rs : list Reply) : list Z :=
  omap (fun r => match r with Sent b => Some b | _ => None end) rs.

(** [Wire.requestFrom(addr, quantity, sendStop)]: start, address, [quantity]
    bytes of which the host acknowledges all but the last, and a stop when
    asked for.  The NACK of the last byte raises one more read-requested
    notification on the engine. *)
Definition requestFrom (quantity : nat) (sendStop : bool) s : State Disk * list Z :=
  let (s, _) := on_event EvAddrRead s in
  let (s, rs) := run (replicate quantity (EvDataRead false)) s in
  let (s, _) := on_event (EvDataRead true) s in
  (if sendStop then fst (on_event EvStop s) else s, received rs).

(** ** The functions of the demo *)

Definition sendFilename (filename : list Z) s : State Disk * bool :=
  let (s, error) := endTransmission (chr_F :: filename) true s in
  (s, error =? 0).


(** [v |= ((uint32_t)Wire.read() << (8 * i))] for [i] from 0 to 3. *)
Definition read_le32 (bs : list Z) : Z :=
  fold_left (fun v ib => Z.lor v (u32 (Z.shiftl (snd ib) (8 * Z.of_nat (fst ib)))))
            (imap (fun i b => (i, b)) bs) 0.

(** Prints the FAT type, the blocks per cluster and the cluster count of a
    successful response. *)
Definition getVolumeInfo s : State Disk * option (Z * Z * Z) :=
  let (s, error) := endTransmission [chr_V] false s in
  if negb (error =? 0) then (s, None)
  else
    let (s, bs) := requestFrom 10 true s in
    match bs with
    | [status; fatType; b0; b1; b2; b3; c0; c1; c2; c3] =>
        if status =? 1
        then (s, Some (fatType, read_le32 [b0; b1; b2; b3], read_le32 [c0; c1; c2; c3]))
        else (s, None)
    | _ => (s, None)
    end.

Definition checkExists (path : list Z) (isDirectory : bool) s : State Disk * bool :=
  let (s, sent) := sendFilename path s in
  if negb sent then (s, false)
  else
    let (s, error) := endTransmission [if isDirectory then chr_K else chr_E] false s in
    if negb (error =? 0) then (fst (endTransmission [] true s), false)
    else
      let (s, bs) := requestFrom 1 true s in
      match bs with
      | [result] => (fst (endTransmission [] true s), result =? 1)
      | _ => (fst (endTransmission [] true s), false)
      end.

(** [makeDirectory] and [removeFile]: the command, one byte read back,
    closed by a stop. *)
Definition one_byte_query (c : Z) (name : list Z) s : State Disk * bool :=
  let (s, sent) := sendFilename name s in
  if negb sent then (s, false)
  else
    let (s, error) := endTransmission [c] false s in
    if negb (error =? 0) then (s, false)
    else
      let (s, bs) := requestFrom 1 true s in
      match bs with
      | [result] => (s, result =? 1)
      | _ => (s, false)
      end.

Definition makeDirectory (dirname : list Z) := one_byte_query chr_M dirname.
Definition removeFile (filename : list Z) := one_byte_query chr_X filename.

(** [removeDirectory] reads without a stop and ends the transaction only
    when the bridge reports success. *)
Definition removeDirectory (dirname : list Z) s : State Disk * bool :=
  let (s, sent) := sendFilename dirname s in
  if negb sent then (s, false)
  else
    let (s, error) := endTransmission [chr_D] false s in
    if negb (error =? 0) then (s, false)
    else
      let (s, bs) := requestFrom 1 false s in
      match bs with
      | [result] =>
          if result =? 1 then (fst (endTransmission [] true s), true) else (s, false)
      | _ => (s, false)
      end.

(** The loop of [writeFile1]: every byte in a transaction of its own. *)
Fixpoint writeFile1_bytes (data : list Z) (command : Z) s : State Disk * bool :=
  match data with
  | [] => (s, true)
  | b :: data =>
      let (s, error) := endTransmission [command; b] true s in
      if negb (error =? 0) then (s, false) else writeFile1_bytes data command s
  end.

Definition writeFile1 (filename data : list Z) (command : Z) s : State Disk * bool :=
  let (s, sent) := sendFilename filename s in
  if negb sent then (s, false)
  else if (length data =? 0)%nat && (command =? chr_W) then
    let (s, error) := endTransmission [command] true s in
    (s, error =? 0)
  else if (length data =? 0)%nat && (command =? chr_A) then (s, true)
  else writeFile1_bytes data command s.

(** The loop of [writeFile] over what is left of the message, in chunks of
    [bufferSize] bytes, each under ['A']. *)
Definition bufferSize : nat := 31.

Fixpoint writeFile_rest (fuel : nat) (rest : list Z) s : option (State Disk * bool) :=
  match rest with
  | [] => Some (s, true)
  | _ =>
      match fuel with
      | O => None
      | S fuel =>
          let bytesToWrite := min bufferSize (length rest) in
          let (s, error) := endTransmission (chr_A :: take bytesToWrite rest) true s in
          if negb (error =? 0) then Some (s, false)
          else writeFile_rest fuel (drop bytesToWrite rest) s
      end
  end.

Definition writeFile (filename msg : list Z) (command : Z) s
    : option (State Disk * bool) :=
  let (s, error) := endTransmission (chr_F :: filename) true s in
  if negb (error =? 0) then Some (s, false)
  else if (length msg =? 0)%nat then Some (s, false)
  else
    let bytesToWrite := min bufferSize (length msg) in
    let (s, error) := endTransmission (command :: take bytesToWrite msg) true s in
    if negb (error =? 0) then Some (s, false)
    else writeFile_rest (length msg) (drop bytesToWrite msg) s.

(** [((uint32_t)b3 << 24) | ((uint32_t)b2 << 16) | ((uint32_t)b1 << 8) | b0] *)
Definition read_be32 (b3 b2 b1 b0 : Z) : Z :=
  Z.lor (Z.lor (Z.lor (u32 (Z.shiftl b3 24)) (u32 (Z.shiftl b2 16)))
               (u32 (Z.shiftl b1 8))) b0.

Definition no_size : Z := 4294967295.   (* 0xFFFFFFFF *)

Definition getFileSize (filename : list Z) s : State Disk * Z :=
  let (s, sent) := sendFilename filename s in
  if negb sent then (s, no_size)
  else
    let (s, error) := endTransmission [chr_S] false s in
    if negb (error =? 0) then (s, no_size)
    else
      let (s, bs) := requestFrom 4 false s in
      match bs with
      | [b3; b2; b1; b0] => (s, read_be32 b3 b2 b1 b0)
      | _ => (fst (endTransmission [] true s), no_size)
      end.

(** The read loop of [readFileContent]: requests of at most
    [I2C_BUFFER_LIMIT] bytes until [fileSize] bytes have been read. *)
Fixpoint readFileContent_loop (fuel : nat) (fileSize bytesRead : Z) (content : list Z) s
    : option (State Disk * list Z) :=
  if bytesRead <? fileSize then
    match fuel with
    | O => None
    | S fuel =>
        let bytesToRequest := Z.min (fileSize - bytesRead) I2C_BUFFER_LIMIT in
        if bytesToRequest =? 0 then Some (s, content)
        else
          let (s, bs) := requestFrom (Z.to_nat bytesToRequest) false s in
          if (length bs =? 0)%nat then Some (fst (endTransmission [] true s), content)
          else readFileContent_loop fuel fileSize (bytesRead + Z.of_nat (length bs))
                 (content ++ bs) s
    end
  else Some (s, content).

(** Prints the content of the file, if its size can be read. *)
Definition readFileContent (fuel : nat) (filename : list Z) s
    : option (State Disk * option (list Z)) :=
  let (s, fileSize) := getFileSize filename s in
  if fileSize =? no_size then Some (s, None)
  else if fileSize =? 0 then Some (s, None)
  else
    let (s, sent) := sendFilename filename s in
    if negb sent then Some (s, None)
    else
      let (s, error) := endTransmission [chr_R] false s in
      if negb (error =? 0) then Some (s, None)
      else
        match readFileContent_loop fuel fileSize 0 [] s with
        | Some (s, content) => Some (fst (endTransmission [] true s), Some content)
        | None => None
        end.

(** The name loop of [listDirectory]: single bytes up to the terminator. *)
Fixpoint read_name (fuel : nat) (entryName : list Z) s
    : option (State Disk * option (list Z)) :=
  match fuel with
  | O => None
  | S fuel =>
      let (s, bs) := requestFrom 1 false s in
      match bs with
      | [c] => if c =? 0 then Some (s, Some entryName)
               else read_name fuel (entryName ++ [c]) s
      | _ => Some (fst (endTransmission [] true s), None)
      end
  end.

(** The rows [listDirectory] prints: type, size and name of every entry.
    The function stops at the end marker 0xFF, or with [None] as soon as a
    request does not return what was asked for. *)
Fixpoint listDirectory_loop (fuel : nat) (rows : list (Z * Z * list Z)) s
    : option (State Disk * option (list (Z * Z * list Z))) :=
  match fuel with
  | O => None
  | S fuel =>
      let (s, bs) := requestFrom 1 false s in
      match bs with
      | [entryType] =>
          if entryType =? 255
          then Some (fst (endTransmission [] true (fst (endTransmission [] true s))),
                     Some rows)
          else
            match read_name fuel [] s with
            | Some (s, Some entryName) =>
                let (s, bs) := requestFrom 4 false s in
                match bs with
                | [_; _; _; _] =>
                    listDirectory_loop fuel (rows ++ [(entryType, read_le32 bs, entryName)]) s
                | _ => Some (fst (endTransmission [] true s), None)
                end
            | Some (s, None) => Some (s, None)
            | None => None
            end
      | _ => Some (fst (endTransmission [] true s), None)
      end
  end.

Definition listDirectory (fuel : nat) (dirname : list Z) s
    : option (State Disk * option (list (Z * Z * list Z))) :=
  let (s, sent) := sendFilename dirname s in
  if negb sent then Some (s, None)
  else
    let (s, error) := endTransmission [chr_L] false s in
    if negb (error =? 0) then Some (s, None)
    else listDirectory_loop fuel [] s.

(** [uint8_t yy = year % 100] and the six bytes after ['C']. *)
Definition setBridgeTime (year month day hour minute second : Z) s : State Disk * bool :=
  let yy := u8 (year mod 100) in
  let (s, error) :=
    endTransmission [chr_C; yy; month; day; hour; minute; second] true s in
  (s, error =? 0).

End Host.
End Host.

Section HostVocabulary.
Context {Disk : Type} {gw : SdGateway Disk}.
Implicit Types s : State Disk.

(** What a transaction that involves neither the card nor a handle leaves
    alone. *)
Definition card_fields s := (disk s, calls s, myFile s, clock s, cursor s).

(** What no transaction of a quiet engine changes unless it reaches the
    card. *)
Definition kept s s' : Prop :=
  disk s' = disk s /\ calls s' = calls s /\ myFile s' = myFile s
  /\ clock s' = clock s /\ Filename s' = Filename s
  /\ Filename_oob s' = Filename_oob s
  /\ dirList_currentDir s' = dirList_currentDir s
  /\ dirList_currentEntry s' = dirList_currentEntry s
  /\ dirList_dirOpen s' = dirList_dirOpen s.

(** Between two calls of the host: the filename array is in place and no
    listing is under way. *)
Definition quiet s : Prop :=
  length (Filename s) = 64%nat /\ no_listing_handle s.

(** A path the host can send in one transaction. *)
Definition sendable (name : list Z) : Prop :=
  name <> [] /\ (length name <= 31)%nat /\ Forall (fun c => 0 < c < 256) name.

(** The mode in which a file command opens [Filename]. *)
Definition open_mode (c : Z) : OpenMode :=
  if c =? chr_W then O_TRUNC_mode
  else if c =? chr_A then O_APPEND_mode
  else O_READ_mode.

(** A write transaction in which every byte is acknowledged. *)
Definition transmission (buffer : list Z) (sendStop : bool) : list Event :=
  EvAddrWrite :: map EvDataWrite buffer ++ (if sendStop then [EvStop] else []).

(** The byte a logged call writes, and the calls that open. *)
Definition written (c : Call) : option Z :=
  match c with File_write b => Some b | _ => None end.

Definition is_open (c : Call) : bool :=
  match c with SD_open _ _ => true | _ => false end.

(** What one write transaction on [filename] logs: the open in the mode of
    the command, the bytes, the close at the stop. *)
Definition write_calls (filename : list Z) (c : Z) (bytes : list Z) : list Call :=
  SD_open filename (open_mode c) :: map File_write bytes ++ [File_close].

(** The card stays in a condition [I] that makes every open of [filename]
    for writing succeed. *)
Definition writable (I : Disk -> Prop) (filename : list Z) : Prop :=
  (forall d m, I d -> m <> O_READ_mode ->
     isOpen (snd (sd_open d filename m)) = true /\ I (fst (sd_open d filename m)))
  /\ (forall d nd b, I d -> I (fst (file_write d nd b)))
  /\ (forall d nd, I d -> I (file_close d nd)).

(** The row of a directory entry. *)
Definition row (e : Node) : Z * Z * list Z :=
  (entry_type e, entry_size e, short_name (n_name e)).

End HostVocabulary.

(** * The earlier sketch (address 0x6E)

    The sketch that answers at address 0x6E buffers the bytes of a command
    up to a zero byte and executes the command inside the interrupt
    routine.  It is modelled on its own state; open files are the [File]
    objects of the engine above. *)
Module Slave6E.

Definition BUFFER_SIZE : Z := 64.

Definition STATUS_OK : Z := 0.
Definition STATUS_ERROR : Z := 255.
Definition STATUS_BUSY : Z := 1.
Definition STATUS_DONE : Z := 2.

Definition CMD_NONE : Z := 0.
Definition CMD_INIT : Z := 16.
Definition CMD_READ : Z := 32.
Definition CMD_STATUS : Z := 128.
Definition CMD_FILE_CREATE : Z := 49.
Definition CMD_FILE_APPEND : Z := 50.
Definition CMD_FILE_OVERWRITE : Z := 51.
Definition CMD_FILE_DELETE : Z := 52.
Definition CMD_FILE_WRITE : Z := 53.
Definition CMD_FILE_EXISTS : Z := 64.
Definition CMD_IS_DIRECTORY : Z := 65.
Definition DIR_CREATE : Z := 96.
Definition DIR_DELETE : Z := 97.
Definition DIR_LIST : Z := 82.
Definition DIR_LIST_REC : Z := 83.

(** Calls into the SD library, in the order the sketch makes them. *)
Inductive LibCall : Type :=
| Lib_begin
| Lib_open (path : list Z) (mode : OpenMode)
| Lib_close | Lib_available | Lib_read
| Lib_write (buf : list Z) | Lib_flush
| Lib_openNextFile | Lib_name.

(** The library operations this sketch uses beyond those of the engine. *)
Class SdBuffered (Disk : Type) : Type := {
  sd_begin : Disk -> Disk * bool;
  (* [File::write(buf, size)]: the new disk and file, and the count written *)
  file_write_buffer : Disk -> Node -> list Z -> Disk * Node * Z;
  file_flush : Disk -> Node -> Disk
}.

Section Sketch.
Context {Disk : Type} {gw : SdGateway Disk} {bw : SdBuffered Disk}.

Record Bridge : Type := MkBridge {
  currentFile : File;
  dir : File;
  currentEntry : File;
  cmdState : Z;                    (* uint8_t *)
  dataBuffer : list Z;             (* uint8_t[64] *)
  dataBuffer_oob : list (Z * Z);   (* stores outside the array: index, value *)
  bufferPos : Z;                   (* uint8_t *)
  ptr : Z;                         (* uint8_t *)
  LED_GREEN : Z;
  LED_RED : Z;
  disk : Disk;
  calls : list LibCall
}.

Implicit Types s : Bridge.

Definition set_currentFile v s :=
  MkBridge v (dir s) (currentEntry s) (cmdState s) (dataBuffer s) (dataBuffer_oob s)
    (bufferPos s) (ptr s) (LED_GREEN s) (LED_RED s) (disk s) (calls s).
Definition set_dir v s :=
  MkBridge (currentFile s) v (currentEntry s) (cmdState s) (dataBuffer s)
    (dataBuffer_oob s) (bufferPos s) (ptr s) (LED_GREEN s) (LED_RED s) (disk s) (calls s).
Definition set_currentEntry v s :=
  MkBridge (currentFile s) (dir s) v (cmdState s) (dataBuffer s) (dataBuffer_oob s)
    (bufferPos s) (ptr s) (LED_GREEN s) (LED_RED s) (disk s) (calls s).
Definition set_cmdState v s :=
  MkBridge (currentFile s) (dir s) (currentEntry s) v (dataBuffer s) (dataBuffer_oob s)
    (bufferPos s) (ptr s) (LED_GREEN s) (LED_RED s) (disk s) (calls s).
Definition set_dataBuffer v s :=
  MkBridge (currentFile s) (dir s) (currentEntry s) (cmdState s) v (dataBuffer_oob s)
    (bufferPos s) (ptr s) (LED_GREEN s) (LED_RED s) (disk s) (calls s).
Definition set_dataBuffer_oob v s :=
  MkBridge (currentFile s) (dir s) (currentEntry s) (cmdState s) (dataBuffer s) v
    (bufferPos s) (ptr s) (LED_GREEN s) (LED_RED s) (disk s) (calls s).
Definition set_bufferPos v s :=
  MkBridge (currentFile s) (dir s) (currentEntry s) (cmdState s) (dataBuffer s)
    (dataBuffer_oob s) v (ptr s) (LED_GREEN s) (LED_RED s) (disk s) (calls s).
Definition set_ptr v s :=
  MkBridge (currentFile s) (dir s) (currentEntry s) (cmdState s) (dataBuffer s)
    (dataBuffer_oob s) (bufferPos s) v (LED_GREEN s) (LED_RED s) (disk s) (calls s).
Definition set_LEDs g r s :=
  MkBridge (currentFile s) (dir s) (currentEntry s) (cmdState s) (dataBuffer s)
    (dataBuffer_oob s) (bufferPos s) (ptr s) g r (disk s) (calls s).
Definition set_disk v s :=
  MkBridge (currentFile s) (dir s) (currentEntry s) (cmdState s) (dataBuffer s)
    (dataBuffer_oob s) (bufferPos s) (ptr s) (LED_GREEN s) (LED_RED s) v (calls s).
Definition set_calls v s :=
  MkBridge (currentFile s) (dir s) (currentEntry s) (cmdState s) (dataBuffer s)
    (dataBuffer_oob s) (bufferPos s) (ptr s) (LED_GREEN s) (LED_RED s) (disk s) v.

Definition log (c : LibCall) s := set_calls (calls s ++ [c]) s.

(** [dataBuffer[i] = v] *)
Definition dataBuffer_store (i v : Z) s :=
  if (0 <=? i) && (i <? BUFFER_SIZE)
  then set_dataBuffer (<[Z.to_nat i := v]> (dataBuffer s)) s
  else set_dataBuffer_oob (dataBuffer_oob s ++ [(i, v)]) s.

(** [digitalWrite(LED_GREEN, color & 1); digitalWrite(LED_RED, (color >> 1) & 1)] *)
Definition LightLED (color : Z) s :=
  set_LEDs (Z.land color 1) (Z.land (Z.shiftr color 1) 1) s.

(** [f.close()] on an open file. *)
Definition do_close (f : File) s :=
  let s := log Lib_close s in
  set_disk (match f with Some n => file_close (disk s) n | None => disk s end) s.

(** [SD.open(path, mode)] *)
Definition do_open (path : list Z) (mode : OpenMode) s : Bridge * File :=
  let s := log (Lib_open path mode) s in
  let (d, f) := sd_open (disk s) path mode in
  (set_disk d s, f).

(** [f.available()] *)
Definition available (f : File) : bool :=
  match f with
  | Some n => match n_unread n with [] => false | _ => true end
  | None => false
  end.

Definition handleReading s : Bridge * Z :=
  if negb (isOpen (currentFile s)) then (s, STATUS_ERROR)
  else
    let s := log Lib_available s in
    if available (currentFile s) then
      let s := log Lib_read s in
      match currentFile s with
      | Some n => let (n', b) := file_read n in (set_currentFile (Some n') s, u8 b)
      | None => (s, u8 (-1))
      end
    else (set_currentFile None (do_close (currentFile s) s), STATUS_DONE).

(** [dir.openNextFile()] *)
Definition do_openNextFile s : Bridge * File :=
  let s := log Lib_openNextFile s in
  match dir s with
  | Some d => let (d', e) := file_openNextFile d in (set_dir (Some d') s, e)
  | None => (s, None)
  end.

(** [name[i]] for the C string [name]. *)
Definition name_at (name : list Z) (i : Z) : Z := nth (Z.to_nat i) name 0.

Definition handleListing s : Bridge * Z :=
  if negb (isOpen (dir s)) then (s, STATUS_ERROR)
  else
    let first :=
      if negb (isOpen (currentEntry s)) then
        let (s, e) := do_openNextFile s in
        let s := set_currentEntry e s in
        if negb (isOpen (currentEntry s))
        then inl (set_dir None (do_close (dir s) s), STATUS_DONE)
        else inr (set_ptr 0 s)
      else inr s in
    match first with
    | inl r => r
    | inr s =>
        let s := log Lib_name s in
        let name := match currentEntry s with Some n => n_name n | None => [] end in
        if name_at name (ptr s) =? 0 then
          let (s, nextFile) := do_openNextFile s in
          let s := set_currentEntry None (do_close (currentEntry s) s) in
          if negb (isOpen nextFile)
          then (set_dir None (do_close (dir s) s), STATUS_DONE)
          else (set_ptr 0 (set_currentEntry nextFile s), 0)
        else (set_ptr (u8 (ptr s + 1)) s, u8 (name_at name (ptr s)))
    end.

(** [strcpy(simplePath, dataBuffer)] and the removal of a leading slash. *)
Definition simplePath (buffer : list Z) : list Z :=
  match c_str buffer with
  | 47 :: rest => rest
  | path => path
  end.

Definition FILE_WRITE : OpenMode := O_APPEND_mode.

Definition executeCommand s : Bridge :=
  let s := dataBuffer_store (bufferPos s) 0 s in
  let s :=
    if cmdState s =? CMD_INIT then
      let s := LightLED 3 s in
      let s := if isOpen (currentFile s) then do_close (currentFile s) s else s in
      let s := set_currentFile None s in
      let s := log Lib_begin s in
      let (d, ok) := sd_begin (disk s) in
      let s := set_disk d s in
      if ok then set_cmdState STATUS_OK (LightLED 1 s)
      else set_cmdState STATUS_ERROR (LightLED 2 s)
    else if cmdState s =? CMD_FILE_CREATE then
      let s := if isOpen (currentFile s) then do_close (currentFile s) s else s in
      let s := set_currentFile None s in
      let path := simplePath (dataBuffer s) in
      let s := LightLED 3 s in
      let (s, f) := do_open path FILE_WRITE s in
      let s := set_currentFile f s in
      if isOpen (currentFile s) then set_cmdState STATUS_OK (LightLED 1 s)
      else set_cmdState STATUS_ERROR (LightLED 2 s)
    else if cmdState s =? CMD_FILE_WRITE then
      match currentFile s with
      | None => set_cmdState STATUS_ERROR (LightLED 2 s)
      | Some n =>
          if 0 <? bufferPos s then
            let s := LightLED 3 s in
            let buf := take (Z.to_nat (bufferPos s)) (dataBuffer s) in
            let s := log (Lib_write buf) s in
            let '(d, n', bytesWritten) := file_write_buffer (disk s) n buf in
            let s := set_currentFile (Some n') (set_disk d s) in
            let s := set_disk (file_flush (disk s) n') (log Lib_flush s) in
            if bytesWritten =? bufferPos s then set_cmdState STATUS_OK (LightLED 1 s)
            else set_cmdState STATUS_ERROR (LightLED 2 s)
          else
            let s := set_currentFile None (do_close (currentFile s) s) in
            set_cmdState STATUS_OK (LightLED 1 s)
      end
    else if cmdState s =? CMD_READ then
      let s := if isOpen (currentFile s) then do_close (currentFile s) s else s in
      let (s, f) := do_open (c_str (dataBuffer s)) O_READ_mode s in
      let s := set_currentFile f s in
      if isOpen (currentFile s) then set_cmdState CMD_READ (LightLED 1 s)
      else set_cmdState STATUS_ERROR (LightLED 2 s)
    else s in
  set_bufferPos 0 s.

Definition processData (data : Z) s : Bridge :=
  if cmdState s =? CMD_NONE then set_bufferPos 0 (set_cmdState data s)
  else
    let s :=
      if bufferPos s <? BUFFER_SIZE - 1
      then set_bufferPos (u8 (bufferPos s + 1)) (dataBuffer_store (bufferPos s) data s)
      else s in
    if data =? 0 then executeCommand (dataBuffer_store (bufferPos s) 0 s) else s.

(** The interrupt routine: [sdata] is what [TWI0.SDATA] holds on entry, the
    result what the routine stores there for the host to read. *)
Definition ISR (st : SStatus) (sdata : Z) s : Bridge * option Z :=
  if TWI_DIF st then
    if TWI_DIR st then
      let (s, response) :=
        if cmdState s =? CMD_NONE then (s, STATUS_OK)
        else if (cmdState s =? STATUS_OK) || (cmdState s =? STATUS_ERROR)
             then (set_cmdState CMD_NONE s, cmdState s)
        else if cmdState s =? CMD_READ then handleReading s
        else if cmdState s =? DIR_LIST then handleListing s
        else (s, cmdState s) in
      (s, Some response)
    else (processData (u8 sdata) s, None)
  else (s, None).

(** The interrupts of a bus history, with the bytes offered to the host. *)
Fixpoint run (h : list (SStatus * Z)) s : Bridge * list Z :=
  match h with
  | [] => (s, [])
  | (st, sdata) :: h =>
      let (s, r) := ISR st sdata s in
      let (s, rs) := run h s in
      (s, match r with Some b => b :: rs | None => rs end)
  end.

(** The globals as [setup] leaves them. *)
Definition boot (d : Disk) (green red : Z) : Bridge :=
  MkBridge None None None CMD_NONE (replicate 64 0) [] 0 0 green red d [].

(** The buffer is never left, and no listing is ever open. *)
Definition buffer_inv s : Prop :=
  length (dataBuffer s) = 64%nat /\ 0 <= bufferPos s <= 63 /\ dataBuffer_oob s = []
  /\ dir s = None.

(** The codes the sketch gives a meaning when written or read. *)
Definition implemented (c : Z) : bool :=
  (c =? CMD_NONE) || (c =? STATUS_ERROR) || (c =? CMD_INIT) || (c =? CMD_FILE_CREATE)
  || (c =? CMD_FILE_WRITE) || (c =? CMD_READ).

End Sketch.

Arguments Bridge Disk : clear implicits.

End Slave6E.

(** The earlier sketch on the simulated card: [SD.begin] succeeds exactly
    when the card can be initialised, a buffer is written whole. *)
#[export] Instance sim_buffered : Slave6E.SdBuffered SimDisk := {
  Slave6E.sd_begin := fun d => (d, bool_decide (is_Some (sim_card d)));
  Slave6E.file_write_buffer := fun d n buf =>
    (d, MkNode (n_isDir n) (n_name n) (n_size n + Z.of_nat (length buf))
           (n_unread n) (n_pending n), Z.of_nat (length buf));
  Slave6E.file_flush := fun d _ => d
}.

Section Slave6EVocabulary.
Context {Disk : Type} {gw : SdGateway Disk} {bw : Slave6E.SdBuffered Disk}.

(** The host writes the bytes [bs], one data interrupt each. *)
Definition master_writes (bs : list Z) : list (SStatus * Z) :=
  map (fun b => (MkSStatus false false false true false, b)) bs.

(** The host reads [n] bytes. *)
Definition master_reads (n : nat) : list (SStatus * Z) :=
  replicate n (MkSStatus false false true true false, 0).

(** What the sketch answers under a code it gives no meaning. *)
Definition stuck_answer (c : Z) : Z :=
  if c =? Slave6E.DIR_LIST then Slave6E.STATUS_ERROR else c.

(** A code under which a terminated buffer executes nothing. *)
Definition inert (c : Z) : Prop :=
  (c =? Slave6E.CMD_NONE) = false /\ (c =? Slave6E.CMD_INIT) = false
  /\ (c =? Slave6E.CMD_FILE_CREATE) = false /\ (c =? Slave6E.CMD_FILE_WRITE) = false
  /\ (c =? Slave6E.CMD_READ) = false.

End Slave6EVocabulary.

(** ** Further runs on the simulated card *)

(** A write and a read command on "A.TXT", accepted and not yet stopped. *)
Definition write_probe : State SimDisk :=
  fst (run (set_filename name_A_TXT ++ [EvAddrWrite; EvDataWrite chr_W]) boot_ok).
Definition read_probe : State SimDisk :=
  fst (run (set_filename name_A_TXT ++ [EvAddrWrite; EvDataWrite chr_R]) boot_ok).

(** An is-directory query on "/", before its read request. *)
Definition isdir_probe : State SimDisk :=
  fst (run (set_filename name_root ++ [EvAddrWrite; EvDataWrite chr_K; EvAddrRead])
         boot_ok).


(** A message of 40 bytes. *)
Definition message_40 : list Z := replicate 40 120.

(** The path names a file of the card. *)
Definition holds_file (path : list Z) (d : SimDisk) : Prop :=
  exists n, find_node path (sim_nodes d) = Some n /\ n_isDir n = false.

(** The earlier sketch after creating "A.TXT", after a code it gives no
    meaning, after a failed read command and after a successful one. *)
Definition created_6E : Slave6E.Bridge SimDisk :=
  fst (Slave6E.run (master_writes (Slave6E.CMD_FILE_CREATE :: name_A_TXT ++ [0]))
         (Slave6E.boot card_ok 1 0)).
Definition deleting_6E : Slave6E.Bridge SimDisk :=
  fst (Slave6E.run (master_writes [Slave6E.CMD_FILE_DELETE]) (Slave6E.boot card_ok 1 0)).
Definition failed_6E : Slave6E.Bridge SimDisk :=
  fst (Slave6E.run (master_writes (Slave6E.CMD_READ :: name_NEW ++ [0]))
         (Slave6E.boot card_ok 1 0)).
Definition reading_6E : Slave6E.Bridge SimDisk :=
  fst (Slave6E.run (master_writes (Slave6E.CMD_READ :: name_A_TXT ++ [0]))
         (Slave6E.boot card_ok 1 0)).

(** * Properties *)

Section Properties.
Context {Disk : Type} {gw : SdGateway Disk}.
Implicit Types s : State Disk.

(** Case analysis on a state, field by field. *)
Ltac destruct_state s :=
  destruct s as [cmd chv ptrv cnk fname oob fsz vblk vclu vfat clk rbuf rptr
                 mf dcd dce dst dbc dfb des ddo sdata pb2 pb3 dsk cls].

(** ** The phantom read request (flag [checknack]) *)

Lemma ISR_data_read s rx :
  fst (ISR (status_of (EvDataRead rx)) s)
  = if rx && checknack s then set_checknack false s
    else set_checknack true (DataHostRead s).
Proof. reflexivity. Qed.

Lemma on_event_read_absorbed s :
  checknack s = true ->
  on_event (EvDataRead true) s = (set_checknack false s, Absorbed).
Proof. intros H. unfold on_event, ISR. cbn. rewrite H. reflexivity. Qed.

Lemma on_event_read_dispatched s rx :
  rx && checknack s = false ->
  on_event (EvDataRead rx) s
  = (set_checknack true (DataHostRead s), Sent (SDATA (DataHostRead s))).
Proof.
  intros H. unfold on_event, ISR. cbn. rewrite H.
  destruct (DataHostRead s); reflexivity.
Qed.

Lemma Stop_checknack s : checknack (Stop s) = false.
Proof.
  unfold Stop, dirList_cleanup. cbn.
  destruct ((command s =? chr_C) && (rtc_buffer_ptr s =? 6)), (rtc_valid (rtc_buffer s));
    cbn; repeat (case_match; cbn); reflexivity.
Qed.

(** C5. Once a response byte has been produced the flag is set; if the host
    answered that byte with a NACK, the next read-requested notification is
    absorbed: the state is unchanged except that the flag is cleared, so no
    byte is produced, no cursor moves and the library is not called.  Only
    one notification is absorbed: the one after it is dispatched again.  A
    stop clears the flag. *)
Theorem phantom_read_absorbed_once s rx0 s1 b :
  on_event (EvDataRead rx0) s = (s1, Sent b) ->
  checknack s1 = true
  /\ on_event (EvDataRead true) s1 = (set_checknack false s1, Absorbed)
  /\ SDATA (set_checknack false s1) = SDATA s1
  /\ ptr (set_checknack false s1) = ptr s1
  /\ dirList_state (set_checknack false s1) = dirList_state s1
  /\ dirList_byteCounter (set_checknack false s1) = dirList_byteCounter s1
  /\ calls (set_checknack false s1) = calls s1
  /\ disk (set_checknack false s1) = disk s1
  /\ checknack (set_checknack false s1) = false
  /\ (forall rx, exists b',
        on_event (EvDataRead rx) (set_checknack false s1)
        = (set_checknack true (DataHostRead (set_checknack false s1)), Sent b'))
  /\ checknack (fst (on_event EvStop s1)) = false.
Proof.
  intros H.
  assert (Hc : checknack s1 = true).
  { destruct (rx0 && checknack s) eqn:E.
    - destruct rx0; [|discriminate]. cbn in E.
      rewrite on_event_read_absorbed in H by exact E. discriminate.
    - rewrite on_event_read_dispatched in H by exact E.
      injection H as <- _. reflexivity. }
  split; [exact Hc|].
  split; [apply on_event_read_absorbed; exact Hc|].
  repeat (split; [reflexivity|]).
  split.
  - intros rx. eexists. apply on_event_read_dispatched.
    cbn. apply andb_false_r.
  - apply Stop_checknack.
Qed.



(** ** The clock-set command *)

Lemma Stop_clock s :
  clock (Stop s)
  = if (command s =? chr_C) && (rtc_buffer_ptr s =? 6) && rtc_valid (rtc_buffer s)
    then MkClock (rtc_year (arr_get (rtc_buffer s) 0)) (arr_get (rtc_buffer s) 1)
           (arr_get (rtc_buffer s) 2) (arr_get (rtc_buffer s) 3)
           (arr_get (rtc_buffer s) 4) (arr_get (rtc_buffer s) 5)
    else clock s.
Proof.
  unfold Stop, dirList_cleanup, LightLED, close_handle, log. cbn.
  destruct (command s =? chr_C), (rtc_buffer_ptr s =? 6), (rtc_valid (rtc_buffer s));
    cbn; repeat (case_match; cbn); reflexivity.
Qed.

Lemma rtc_year_expand yy : rtc_year yy = expand_year yy.
Proof.
  unfold rtc_year, expand_year.
  destruct (Z.ltb_spec yy 80), (Z_lt_dec yy 80); lia.
Qed.

Lemma rtc_valid_spec buf : rtc_valid buf = true <-> clock_bytes_in_range buf.
Proof.
  unfold rtc_valid, clock_bytes_in_range. rewrite rtc_year_expand.
  rewrite !andb_true_iff, !Z.leb_le. tauto.
Qed.

(** C2. At a stop the clock takes the six received values exactly when the
    active command is ['C'], six bytes were accepted and the values are in
    range; in every other case all six fields keep their values. *)
Theorem Stop_commits_clock_iff s :
  (clock_commit_condition s ->
   clock (Stop s)
   = MkClock (expand_year (arr_get (rtc_buffer s) 0)) (arr_get (rtc_buffer s) 1)
       (arr_get (rtc_buffer s) 2) (arr_get (rtc_buffer s) 3)
       (arr_get (rtc_buffer s) 4) (arr_get (rtc_buffer s) 5))
  /\ (~ clock_commit_condition s -> clock (Stop s) = clock s).
Proof.
  rewrite Stop_clock, rtc_year_expand. unfold clock_commit_condition.
  destruct (rtc_valid (rtc_buffer s)) eqn:Hv.
  - apply rtc_valid_spec in Hv.
    destruct (Z.eqb_spec (command s) chr_C) as [Hc|Hc],
             (Z.eqb_spec (rtc_buffer_ptr s) 6) as [Hp|Hp]; cbn;
      split; intros H; try reflexivity; tauto.
  - assert (~ clock_bytes_in_range (rtc_buffer s)) as Hn.
    { rewrite <- rtc_valid_spec, Hv. discriminate. }
    rewrite andb_false_r. split; intros H; [tauto | reflexivity].
Qed.

(** The year check can never fail: a received byte is at most 255. *)
Lemma expand_year_ge_1980 yy : 0 <= yy -> 1980 <= expand_year yy.
Proof. unfold expand_year. destruct (Z_lt_dec yy 80); lia. Qed.

Lemma run_app (es1 es2 : list Event) s :
  run (es1 ++ es2) s
  = let (s1, r1) := run es1 s in
    let (s2, r2) := run es2 s1 in (s2, r1 ++ r2).
Proof.
  revert s. induction es1 as [|e es1 IH]; intros s; cbn.
  - destruct (run es2 s); reflexivity.
  - destruct (on_event e s) as [s1 r]. rewrite IH.
    destruct (run es1 s1) as [s2 r1]. destruct (run es2 s2). reflexivity.
Qed.

Lemma AddressHostWrite_command s : command (fst (AddressHostWrite s)) = 0.
Proof.
  unfold AddressHostWrite, dirList_cleanup. cbn.
  repeat (case_match; cbn); reflexivity.
Qed.

Lemma on_event_AddrWrite s :
  on_event EvAddrWrite s = (fst (AddressHostWrite s), Acked).
Proof. reflexivity. Qed.

(** The command byte of a command that opens no file. *)
Lemma on_event_command_byte s c :
  command s = 0 -> 0 <= c < 256 -> no_file_command c = true ->
  on_event (EvDataWrite c) s
  = (set_rtc_buffer_ptr 0 (set_ch 0 (set_ptr 0 (set_command c (set_SDATA c s)))), Acked).
Proof.
  intros H0 Hc Hn. unfold on_event, ISR, DataHostWrite.
  assert (u8 c = c) as Hu by (apply Z.mod_small; lia).
  destruct_state s; cbn in *. subst. rewrite Hu. cbn. rewrite Hn. reflexivity.
Qed.

Lemma clock_byte_accepted s b :
  command s = chr_C -> 0 <= rtc_buffer_ptr s < 6 ->
  on_event (EvDataWrite b) s
  = (set_rtc_buffer_ptr (rtc_buffer_ptr s + 1)
       (set_rtc_buffer (<[Z.to_nat (rtc_buffer_ptr s) := u8 b]> (rtc_buffer s))
          (set_SDATA (u8 b) s)), Acked).
Proof.
  intros Hc Hp. unfold on_event, ISR, DataHostWrite.
  destruct_state s; cbn in *. subst. cbn.
  destruct (Z.ltb_spec rptr 6); [|lia].
  assert (u8 (rptr + 1) = rptr + 1) as -> by (apply Z.mod_small; lia).
  reflexivity.
Qed.

Lemma clock_byte_rejected s b :
  command s = chr_C -> rtc_buffer_ptr s = 6 ->
  on_event (EvDataWrite b) s = (set_SDATA (u8 b) s, Nacked).
Proof.
  intros Hc Hp. unfold on_event, ISR, DataHostWrite.
  destruct_state s; cbn in *. subst. reflexivity.
Qed.



Lemma Stop_set_SDATA v s : Stop (set_SDATA v s) = set_SDATA v (Stop s).
Proof.
  unfold Stop, dirList_cleanup. cbn.
  destruct ((command s =? chr_C) && (rtc_buffer_ptr s =? 6)),
           (rtc_valid (rtc_buffer s)); cbn;
    repeat (case_match; cbn in * ); try congruence; reflexivity.
Qed.

Lemma same_but_SDATA_Stop s1 s2 :
  same_but_SDATA s1 s2 -> same_but_SDATA (Stop s1) (Stop s2).
Proof.
  unfold same_but_SDATA. intros H.
  rewrite <- !Stop_set_SDATA. congruence.
Qed.

Lemma same_but_SDATA_field {A} (f : State Disk -> A) s1 s2 :
  (forall s, f (set_SDATA 0 s) = f s) ->
  same_but_SDATA s1 s2 -> f s1 = f s2.
Proof. intros Hf H. rewrite <- (Hf s1), <- (Hf s2). congruence. Qed.

(** Clock bytes while there is room in [rtc_buffer]. *)
Lemma clock_bytes_accepted bs : forall s,
  command s = chr_C -> 0 <= rtc_buffer_ptr s ->
  rtc_buffer_ptr s + Z.of_nat (length bs) <= 6 ->
  let r := run (map EvDataWrite bs) s in
  command (fst r) = chr_C
  /\ rtc_buffer_ptr (fst r) = rtc_buffer_ptr s + Z.of_nat (length bs)
  /\ snd r = replicate (length bs) Acked.
Proof.
  induction bs as [|b bs IH]; intros s Hc H0 Hle; cbn [map run length] in *.
  - cbn. repeat split; lia.
  - rewrite clock_byte_accepted by (auto; lia).
    set (s1 := set_rtc_buffer_ptr _ _).
    destruct (IH s1) as (IH1 & IH2 & IH3); try (subst s1; cbn; auto; lia).
    destruct (run (map EvDataWrite bs) s1) as [s2 rs]. cbn in *.
    repeat split; [exact IH1 | rewrite IH2; subst s1; cbn; lia | congruence].
Qed.

(** Clock bytes once [rtc_buffer] is full. *)
Lemma clock_bytes_rejected extra : forall s,
  command s = chr_C -> rtc_buffer_ptr s = 6 ->
  let r := run (map EvDataWrite extra) s in
  same_but_SDATA (fst r) s /\ snd r = replicate (length extra) Nacked.
Proof.
  induction extra as [|b extra IH]; intros s Hc Hp; cbn [map run length].
  - split; reflexivity.
  - rewrite clock_byte_rejected by auto.
    destruct (IH (set_SDATA (u8 b) s)) as [IH1 IH2]; [exact Hc | exact Hp |].
    destruct (run (map EvDataWrite extra) (set_SDATA (u8 b) s)) as [s2 rs].
    cbn in *. split; [|congruence].
    unfold same_but_SDATA in *. rewrite IH1. reflexivity.
Qed.

Lemma clock_set_prefix s :
  let r := run [EvAddrWrite; EvDataWrite chr_C] s in
  command (fst r) = chr_C /\ rtc_buffer_ptr (fst r) = 0 /\ snd r = [Acked; Acked].
Proof.
  cbn [run]. rewrite on_event_AddrWrite.
  rewrite on_event_command_byte;
    [| apply AddressHostWrite_command | unfold chr_C; lia | reflexivity].
  cbn. auto.
Qed.

Lemma run_clock_set s bs :
  run (clock_set bs) s
  = let (s1, r1) := run [EvAddrWrite; EvDataWrite chr_C] s in
    let (s2, r2) := run (map EvDataWrite bs) s1 in (s2, r1 ++ r2).
Proof. exact (run_app [EvAddrWrite; EvDataWrite chr_C] (map EvDataWrite bs) s). Qed.

Lemma run_stop es s : fst (run (es ++ [EvStop]) s) = Stop (fst (run es s)).
Proof. rewrite run_app. destruct (run es s) as [s1 r1]. reflexivity. Qed.

(** C10. In a clock-set transaction every data byte after the sixth is
    NACKed and changes neither [rtc_buffer] nor the count, which stays 6;
    the stop then leaves the engine (its clock in particular) exactly as the
    stop of the transaction with just the first six bytes does. *)
Theorem clock_extra_bytes_rejected s bs extra :
  length bs = 6%nat ->
  let full := run (clock_set bs) s in
  let over := run (clock_set (bs ++ extra)) s in
  rtc_buffer_ptr (fst full) = 6
  /\ snd over = replicate 8 Acked ++ replicate (length extra) Nacked
  /\ rtc_buffer (fst over) = rtc_buffer (fst full)
  /\ rtc_buffer_ptr (fst over) = 6
  /\ same_but_SDATA (fst (run (clock_set (bs ++ extra) ++ [EvStop]) s))
                    (fst (run (clock_set bs ++ [EvStop]) s))
  /\ clock (fst (run (clock_set (bs ++ extra) ++ [EvStop]) s))
     = clock (fst (run (clock_set bs ++ [EvStop]) s)).
Proof.
  intros Hlen full over.
  assert (Hfull : command (fst full) = chr_C /\ rtc_buffer_ptr (fst full) = 6
                  /\ snd full = replicate 8 Acked).
  { subst full. rewrite run_clock_set.
    destruct (clock_set_prefix s) as (Hc & Hp & Hr).
    destruct (run [EvAddrWrite; EvDataWrite chr_C] s) as [s1 r1]. cbn in Hc, Hp, Hr.
    destruct (clock_bytes_accepted bs s1) as (Hc2 & Hp2 & Hr2);
      [exact Hc | lia | lia |].
    destruct (run (map EvDataWrite bs) s1) as [s2 r2]. cbn in *.
    rewrite Hp2, Hp, Hr, Hr2, Hlen. auto. }
  destruct Hfull as (Hc & Hp & Hr).
  assert (Hover : same_but_SDATA (fst over) (fst full)
                  /\ snd over = replicate 8 Acked ++ replicate (length extra) Nacked).
  { subst over. unfold clock_set. rewrite map_app.
    change (EvAddrWrite :: EvDataWrite chr_C
              :: map EvDataWrite bs ++ map EvDataWrite extra)
      with (clock_set bs ++ map EvDataWrite extra).
    rewrite run_app. fold full.
    destruct full as [sf rf]. cbn in Hc, Hp, Hr.
    destruct (clock_bytes_rejected extra sf Hc Hp) as [H1 H2].
    destruct (run (map EvDataWrite extra) sf) as [sx rx]. cbn in *.
    split; [exact H1 | subst; reflexivity]. }
  destruct Hover as [Hsame Hrep].
  assert (Hstop : same_but_SDATA (fst (run (clock_set (bs ++ extra) ++ [EvStop]) s))
                                 (fst (run (clock_set bs ++ [EvStop]) s))).
  { rewrite !run_stop. apply same_but_SDATA_Stop. exact Hsame. }
  split; [exact Hp|]. split; [exact Hrep|].
  split; [apply (same_but_SDATA_field rtc_buffer); auto|].
  split; [rewrite <- Hp; apply (same_but_SDATA_field rtc_buffer_ptr); auto|].
  split; [exact Hstop|].
  apply (same_but_SDATA_field clock); auto.
Qed.



(** ** Single-byte commands: mkdir, rmdir, remove, card type *)

Lemma u8_u8 x : u8 (u8 x) = u8 x.
Proof. unfold u8. apply Z.mod_mod. lia. Qed.

Lemma u8_shr_byte v i : u8 (shr_byte v i) = shr_byte v i.
Proof. apply u8_u8. Qed.

Lemma u8_small x : 0 <= x < 256 -> u8 x = x.
Proof. apply Z.mod_small. Qed.

Lemma u8_Z_of_bool b : u8 (Z_of_bool b) = Z_of_bool b.
Proof. destruct b; reflexivity. Qed.

Lemma one_shot_cases c f :
  one_shot_call c = Some f ->
  (c = chr_M /\ f = SD_mkdir) \/ (c = chr_D /\ f = SD_rmdir)
  \/ (c = chr_X /\ f = SD_remove).
Proof.
  unfold one_shot_call.
  destruct (Z.eqb_spec c chr_M); [intros [= <-]; auto|].
  destruct (Z.eqb_spec c chr_D); [intros [= <-]; auto|].
  destruct (Z.eqb_spec c chr_X); [intros [= <-]; auto|]. discriminate.
Qed.

(** Every dispatched read request of a one-shot command calls the library. *)
Lemma DataHostRead_one_shot s f :
  one_shot_call (command s) = Some f ->
  DataHostRead s
  = let r := one_shot_op (command s) (disk s) (c_str (Filename s)) in
    write_SDATA (Z_of_bool (snd r))
      (set_disk (fst r) (log (f (c_str (Filename s))) s)).
Proof.
  intros H. apply one_shot_cases in H.
  unfold DataHostRead, do_path_op, one_shot_op.
  destruct H as [[-> ->]|[[-> ->]|[-> ->]]]; cbn;
    match goal with |- context [?op (disk s) ?p] => destruct (op (disk s) p) end;
    reflexivity.
Qed.

Lemma one_shot_reads s f n :
  one_shot_call (command s) = Some f ->
  calls (fst (run (replicate n (EvDataRead false)) s))
  = calls s ++ replicate n (f (c_str (Filename s))).
Proof.
  revert s. induction n as [|n IH]; intros s H; cbn [replicate run].
  - cbn. rewrite app_nil_r. reflexivity.
  - rewrite on_event_read_dispatched by reflexivity.
    set (s1 := set_checknack true (DataHostRead s)).
    assert (H1 : command s1 = command s /\ Filename s1 = Filename s
                 /\ calls s1 = calls s ++ [f (c_str (Filename s))]).
    { subst s1. rewrite (DataHostRead_one_shot s f H). cbn. auto. }
    destruct H1 as (Hc & Hf & Hl).
    specialize (IH s1). rewrite Hc, Hf, Hl in IH. specialize (IH H).
    destruct (run (replicate n (EvDataRead false)) s1) as [s2 rs]. cbn in *.
    rewrite IH, <- app_assoc. reflexivity.
Qed.

(** C4 (as the code has it). For mkdir, rmdir and remove the library
    operation is called once per dispatched read request: [n] consecutive
    requests of a host that keeps acknowledging call it [n] times.  Only a
    host that NACKs the first byte obtains a single call, the request that
    follows the NACK being absorbed. *)
Theorem one_shot_called_per_read_request s f :
  one_shot_call (command s) = Some f ->
  (forall n,
     calls (fst (run (replicate n (EvDataRead false)) s))
     = calls s ++ replicate n (f (c_str (Filename s))))
  /\ calls (fst (run [EvDataRead false; EvDataRead true] s))
     = calls s ++ [f (c_str (Filename s))].
Proof.
  intros H. split.
  - intros n. apply one_shot_reads. exact H.
  - cbn [run]. rewrite on_event_read_dispatched by reflexivity.
    rewrite on_event_read_absorbed by reflexivity.
    rewrite (DataHostRead_one_shot s f H). reflexivity.
Qed.

(** The card-type command. *)
Lemma DataHostRead_Q s :
  command s = chr_Q ->
  DataHostRead s
  = let r := card_init (disk s) in
    let s1 := set_disk (fst r) (log Card_init s) in
    if snd r then write_SDATA (card_type (fst r)) (log Card_type s1) else s1.
Proof.
  intros H. unfold DataHostRead. rewrite H. cbn.
  destruct (card_init (disk s)) as [d []]; reflexivity.
Qed.

(** When the probe fails nothing is stored in the data register: the byte
    offered to the host is whatever the register held before. *)
Lemma card_probe_failure_keeps_SDATA s rx :
  command s = chr_Q -> snd (card_init (disk s)) = false ->
  rx && checknack s = false ->
  snd (on_event (EvDataRead rx) s) = Sent (SDATA s)
  /\ calls (fst (on_event (EvDataRead rx) s)) = calls s ++ [Card_init].
Proof.
  intros Hc Hf Hrx. rewrite on_event_read_dispatched by exact Hrx.
  rewrite (DataHostRead_Q s Hc). cbn. rewrite Hf. cbn. auto.
Qed.

(** When the probe succeeds the card is probed on every request and its type
    is sent. *)
Lemma card_probe_success_sends_type s rx :
  command s = chr_Q -> snd (card_init (disk s)) = true ->
  rx && checknack s = false ->
  snd (on_event (EvDataRead rx) s) = Sent (u8 (card_type (fst (card_init (disk s)))))
  /\ calls (fst (on_event (EvDataRead rx) s)) = calls s ++ [Card_init; Card_type].
Proof.
  intros Hc Hf Hrx. rewrite on_event_read_dispatched by exact Hrx.
  rewrite (DataHostRead_Q s Hc). cbn. rewrite Hf. cbn.
  rewrite <- app_assoc. auto.
Qed.



(** ** Fixed-length responses: file size and volume information *)

(** A response cursor described by an invariant indexed by the number of
    bytes already sent. *)
Lemma cursor_stream (Inv : nat -> State Disk -> Prop) (bytes : list Z) :
  (forall k s, Inv k s ->
     snd (on_event (EvDataRead false) s) = Sent (nth k bytes 0)
     /\ Inv (S k) (fst (on_event (EvDataRead false) s))) ->
  forall n k s, Inv k s ->
    snd (run (replicate n (EvDataRead false)) s) = stream_from bytes k n
    /\ Inv (k + n)%nat (fst (run (replicate n (EvDataRead false)) s)).
Proof.
  intros Hstep. induction n as [|n IH]; intros k s HI; cbn [replicate run].
  - cbn. rewrite Nat.add_0_r. auto.
  - destruct (Hstep k s HI) as [Hb HI1].
    destruct (on_event (EvDataRead false) s) as [s1 r]. cbn in Hb, HI1.
    destruct (IH (S k) s1 HI1) as [Hbs HI2].
    destruct (run (replicate n (EvDataRead false)) s1) as [s2 rs]. cbn in *.
    rewrite Hb, Hbs, <- Nat.add_succ_comm. auto.
Qed.

Lemma on_event_AddrRead s :
  on_event EvAddrRead s
  = (if (command s =? chr_V) || (command s =? chr_S) then set_ptr 0 s else s, Acked).
Proof. reflexivity. Qed.

Lemma le32_value z : 0 <= z < 4294967296 -> le_value (le32 z) = z.
Proof.
  intros Hz. unfold le_value, le32, shr_byte, u8. cbn [foldr].
  rewrite !Z.shiftr_div_pow2 by lia.
  change (2 ^ (8 * 0)) with 1. change (2 ^ (8 * 1)) with 256.
  change (2 ^ (8 * 2)) with (256 * 256). change (2 ^ (8 * 3)) with (256 * 256 * 256).
  rewrite Z.div_1_r, <- !Z.div_div by lia.
  pose proof (Z.div_mod z 256). pose proof (Z.div_mod (z / 256) 256).
  pose proof (Z.div_mod (z / 256 / 256) 256).
  assert (0 <= z / 256 / 256 / 256 < 256).
  { split; [repeat apply Z.div_pos; lia|].
    repeat (apply Z.div_lt_upper_bound; [lia|]). lia. }
  rewrite (Z.mod_small (z / 256 / 256 / 256)) by lia. lia.
Qed.

Lemma be32_value z : 0 <= z < 4294967296 -> be_value (be32 z) = z.
Proof. intros Hz. exact (le32_value z Hz). Qed.

Lemma u32_range x : 0 <= u32 x < 4294967296.
Proof. apply Z.mod_pos_bound. lia. Qed.

Lemma DataHostRead_S s :
  command s = chr_S ->
  DataHostRead s
  = if ptr s <? 4 then
      let s1 := if ptr s =? 0
                then set_Filesize (myFile_size s) (log File_size s) else s in
      set_ptr (ptr s1 + 1) (write_SDATA (Filebytes s1 (3 - ptr s1)) s1)
    else write_SDATA 0 s.
Proof. intros H. unfold DataHostRead. rewrite H. reflexivity. Qed.

Lemma size_cursor_step z log0 k s :
  size_cursor z log0 k s ->
  snd (on_event (EvDataRead false) s) = Sent (nth k (be32 z) 0)
  /\ size_cursor z log0 (S k) (fst (on_event (EvDataRead false) s)).
Proof.
  intros (Hc & Hp & Hk). rewrite on_event_read_dispatched by reflexivity.
  rewrite (DataHostRead_S s Hc). unfold size_cursor, Filebytes.
  assert (Hnext : Z.of_nat (S k) `min` 4 = if ptr s <? 4 then ptr s + 1 else ptr s).
  { destruct (Z.ltb_spec (ptr s) 4); lia. }
  rewrite Hnext. clear Hnext.
  destruct k as [|[|[|[|k]]]]; cbn [nth be32] in *; destruct Hk as [Hz Hl];
    [assert (ptr s = 0) as Hv by (rewrite Hp; reflexivity)
    |assert (ptr s = 1) as Hv by (rewrite Hp; reflexivity)
    |assert (ptr s = 2) as Hv by (rewrite Hp; reflexivity)
    |assert (ptr s = 3) as Hv by (rewrite Hp; reflexivity)
    |assert (ptr s = 4) as Hv by lia];
    rewrite Hv; cbn; rewrite ?Hv, ?Hz, ?Hl, ?u8_shr_byte;
    repeat split; try reflexivity; try assumption.
  destruct k; reflexivity.
Qed.

(** C7. After the read address match of a file-size command the size is
    obtained once, by the first read request; the first four requests
    return its bytes from the most significant to the least significant,
    and every later request returns 0. *)
Theorem file_size_response s n :
  command s = chr_S ->
  let r := run (EvAddrRead :: replicate (S n) (EvDataRead false)) s in
  snd r = Acked :: stream_from (be32 (myFile_size s)) 0 (S n)
  /\ calls (fst r) = calls s ++ [File_size]
  /\ be_value (be32 (myFile_size s)) = myFile_size s.
Proof.
  intros Hc. cbn zeta. cbn [run].
  rewrite on_event_AddrRead, Hc.
  change ((chr_S =? chr_V) || (chr_S =? chr_S)) with true. cbn iota.
  destruct (cursor_stream (size_cursor (myFile_size s) (calls s)) (be32 (myFile_size s))
              (size_cursor_step _ _) (S n) 0%nat (set_ptr 0 s)) as [Hs HI].
  { repeat split; assumption. }
  destruct (run (replicate (S n) (EvDataRead false)) (set_ptr 0 s)) as [s2 rs].
  cbn [fst snd app] in *. split; [congruence|].
  split; [apply HI|].
  apply be32_value. unfold myFile_size. destruct (myFile s); [apply u32_range | lia].
Qed.



Lemma DataHostRead_V s :
  command s = chr_V ->
  DataHostRead s
  = if ptr s =? 0 then
      let r := volume_init (disk s) in
      let s := set_disk (fst r) (log Volume_init s) in
      if snd r then
        let s := set_volFatType (u8 (volume_fatType (disk s))) (log Volume_fatType s) in
        let s := set_volBlocks (u32 (volume_blocksPerCluster (disk s)))
                   (log Volume_blocksPerCluster s) in
        let s := set_volClusters (u32 (volume_clusterCount (disk s)))
                   (log Volume_clusterCount s) in
        set_ptr 1 (write_SDATA 1 s)
      else set_ptr (-1) (write_SDATA 255 s)
    else if ptr s =? 1 then
      set_ptr (ptr s + 1) (write_SDATA (volFatType s) s)
    else if (2 <=? ptr s) && (ptr s <=? 5) then
      set_ptr (ptr s + 1) (write_SDATA (shr_byte (volBlocks s) (ptr s - 2)) s)
    else if (6 <=? ptr s) && (ptr s <=? 9) then
      set_ptr (ptr s + 1) (write_SDATA (shr_byte (volClusters s) (ptr s - 6)) s)
    else write_SDATA 0 s.
Proof.
  intros H. unfold DataHostRead. rewrite H. cbn.
  destruct (volume_init (disk s)) as [d ok]. reflexivity.
Qed.

Lemma volume_cursor_step d k s :
  volume_cursor d k s ->
  snd (on_event (EvDataRead false) s) = Sent (nth k (volume_bytes d) 0)
  /\ volume_cursor d (S k) (fst (on_event (EvDataRead false) s)).
Proof.
  intros (Hc & Hp & Hk). rewrite on_event_read_dispatched by reflexivity.
  rewrite (DataHostRead_V s Hc). unfold volume_cursor.
  assert (Hnext : Z.of_nat (S k) `min` 10
                  = if ptr s <? 10 then ptr s + 1 else ptr s).
  { destruct (Z.ltb_spec (ptr s) 10); lia. }
  rewrite Hnext. clear Hnext.
  do 10 (destruct k as [|k];
         [ match type of Hp with
           | _ = Z.of_nat ?n `min` 10 =>
               let v := eval vm_compute in (Z.of_nat n) in
               assert (ptr s = v) as Hv by (rewrite Hp; reflexivity)
           end;
           rewrite Hv; cbn [nth volume_bytes le32 app]; cbn;
           first [ rewrite Hk; cbn
                 | destruct Hk as (Hf & Hb & Hl); rewrite ?Hf, ?Hb, ?Hl ];
           rewrite ?Hv, ?u8_u8, ?u8_shr_byte;
           repeat split; first [reflexivity | assumption]
         | ]).
  assert (ptr s = 10) as Hv by lia. rewrite Hv. cbn. rewrite Hv.
  repeat split; try apply Hk; try assumption.
  destruct k; reflexivity.
Qed.

Lemma volume_error_cursor_step k s :
  volume_error_cursor k s ->
  snd (on_event (EvDataRead false) s) = Sent (nth k [255] 0)
  /\ volume_error_cursor (S k) (fst (on_event (EvDataRead false) s)).
Proof.
  intros (Hc & Hk). rewrite on_event_read_dispatched by reflexivity.
  rewrite (DataHostRead_V s Hc). unfold volume_error_cursor.
  destruct k as [|k].
  - destruct Hk as [Hp Hf]. rewrite Hp. cbn. rewrite Hf. cbn. auto.
  - rewrite Hk. cbn. rewrite Hk. repeat split; try assumption.
    destruct k; reflexivity.
Qed.

(** C8 (as the code has it). The status is computed by the first read
    request.  On success the ten bytes are 1, the FAT type, the blocks per
    cluster and the cluster count (four bytes each, least significant
    first), and any further request returns 0.  On failure the status byte
    is 0xFF and every further request returns 0, whatever values are
    cached. *)
Theorem volume_info_response s n :
  command s = chr_V ->
  snd (run (EvAddrRead :: replicate (S n) (EvDataRead false)) s)
  = Acked :: stream_from (if snd (volume_init (disk s))
                          then volume_bytes (fst (volume_init (disk s)))
                          else [255]) 0 (S n).
Proof.
  intros Hc. cbn [run]. rewrite on_event_AddrRead, Hc.
  change ((chr_V =? chr_V) || (chr_V =? chr_S)) with true. cbn iota.
  destruct (volume_init (disk s)) as [d ok] eqn:Hinit. cbn [fst snd].
  destruct ok.
  - destruct (cursor_stream (volume_cursor d) (volume_bytes d)
                (volume_cursor_step d) (S n) 0%nat (set_ptr 0 s)) as [Hs _].
    { repeat split; assumption. }
    destruct (run (replicate (S n) (EvDataRead false)) (set_ptr 0 s)).
    cbn in *. congruence.
  - destruct (cursor_stream volume_error_cursor [255]
                volume_error_cursor_step (S n) 0%nat (set_ptr 0 s)) as [Hs _].
    { repeat split; try assumption. cbn. rewrite Hinit. reflexivity. }
    destruct (run (replicate (S n) (EvDataRead false)) (set_ptr 0 s)).
    cbn in *. congruence.
Qed.



(** ** Directory listing *)

(** *** C strings *)

Lemma c_str_nonzero l : Forall (fun c => c <> 0) (c_str l).
Proof.
  unfold c_str. induction l as [|c l IH]; cbn; [constructor|].
  destruct (Z.eqb_spec c 0); cbn; [constructor|].
  constructor; assumption.
Qed.

Lemma c_str_Forall (P : Z -> Prop) l : Forall P l -> Forall P (c_str l).
Proof. apply Forall_take. Qed.

Lemma strrchr_after_Forall (P : Z -> Prop) c l t :
  strrchr_after c l = Some t -> Forall P l -> Forall P t.
Proof.
  revert t. induction l as [|x l IH]; intros t; cbn; [discriminate|].
  intros H Hl. apply Forall_cons in Hl as [_ Hl].
  destruct (strrchr_after c l) as [t'|].
  - injection H as <-. apply IH; auto.
  - destruct (x =? c); [|discriminate]. injection H as <-. exact Hl.
Qed.

Lemma baseName_Forall (P : Z -> Prop) nm :
  Forall P (c_str nm) -> Forall P (baseName nm).
Proof.
  intros H. unfold baseName.
  destruct (strrchr_after chr_slash (c_str nm)) eqn:E; [|exact H].
  eapply strrchr_after_Forall; eauto.
Qed.

Lemma strlen_app_nul body rest :
  Forall (fun c => c <> 0) body -> strlen (body ++ 0 :: rest) = length body.
Proof.
  induction 1 as [|c body Hc _ IH]; cbn; [reflexivity|].
  destruct (Z.eqb_spec c 0); [contradiction|]. rewrite IH. reflexivity.
Qed.

Lemma short_name_length nm : (length (short_name nm) <= 12)%nat.
Proof. unfold short_name. rewrite length_take. lia. Qed.

Lemma strncpy_zeroed_short nm :
  strncpy_zeroed 13 (baseName nm)
  = short_name nm ++ 0 :: replicate (12 - length (short_name nm)) 0.
Proof.
  unfold strncpy_zeroed. change (13 - 1)%nat with 12%nat. fold (short_name nm).
  pose proof (short_name_length nm).
  replace (13 - length (short_name nm))%nat
    with (S (12 - length (short_name nm))) by lia.
  reflexivity.
Qed.

Lemma short_name_nonzero nm : Forall (fun c => c <> 0) (short_name nm).
Proof. apply Forall_take, baseName_Forall, c_str_nonzero. Qed.

Lemma strlen_name_buffer nm :
  strlen (strncpy_zeroed 13 (baseName nm)) = length (short_name nm).
Proof. rewrite strncpy_zeroed_short. apply strlen_app_nul, short_name_nonzero. Qed.

Lemma arr_get_name_buffer nm (k : nat) :
  (k < length (short_name nm))%nat ->
  arr_get (strncpy_zeroed 13 (baseName nm)) (Z.of_nat k) = nth k (short_name nm) 0.
Proof.
  intros Hk. unfold arr_get. rewrite Nat2Z.id, strncpy_zeroed_short.
  rewrite lookup_app_l by exact Hk.
  destruct (lookup_lt_is_Some_2 (short_name nm) k Hk) as [x Hx].
  rewrite Hx. cbn. symmetry. apply nth_lookup_Some with (d := 0). exact Hx.
Qed.

Lemma short_name_bytes nm : byte_string nm -> byte_string (short_name nm).
Proof. intros H. apply Forall_take, baseName_Forall, c_str_Forall, H. Qed.



(** *** Read requests that the host keeps acknowledging *)

Lemma emits_nil s : emits s [] s.
Proof. reflexivity. Qed.

Lemma emits_app s b1 s1 b2 s2 :
  emits s b1 s1 -> emits s1 b2 s2 -> emits s (b1 ++ b2) s2.
Proof.
  unfold emits. intros H1 H2.
  rewrite length_app, replicate_add, run_app, H1, H2, map_app. reflexivity.
Qed.

Lemma emits_one s b s' :
  on_event (EvDataRead false) s = (s', Sent b) -> emits s [b] s'.
Proof. unfold emits. cbn [length replicate run map]. intros ->. reflexivity. Qed.

Lemma emits_cons s b s1 bs s2 :
  emits s [b] s1 -> emits s1 bs s2 -> emits s (b :: bs) s2.
Proof. apply (emits_app s [b]). Qed.

(** A read request of the listing command, in terms of the state machine
    of the listing. *)
Lemma on_event_L s :
  command s = chr_L ->
  exists led p,
    on_event (EvDataRead false) s
    = (set_checknack true
         (set_ptr p (LightLED led (write_SDATA (snd (dirList_switch s))
                                     (fst (dirList_switch s))))),
       Sent (u8 (snd (dirList_switch s)))).
Proof.
  intros H. rewrite on_event_read_dispatched by reflexivity.
  unfold DataHostRead. rewrite H. cbn.
  destruct (dirList_switch s) as [s1 b]. cbn.
  destruct (negb (DirStream_eqb (dirList_state s1) DIR_STREAM_IDLE));
    eexists _, _; reflexivity.
Qed.

(** *** The states of the listing *)

(** Transfer of a fact about the listing across the epilogue of
    [DataHostRead] and the flag update of the interrupt routine. *)
Ltac through_epilogue H E :=
  let led := fresh "led" in
  let p := fresh "p" in
  destruct (on_event_L _ H) as (led & p & E).

Lemma name_char e dir k s :
  byte_string (n_name e) ->
  at_name e dir k s -> (k < length (short_name (n_name e)))%nat ->
  exists s', emits s [nth k (short_name (n_name e)) 0] s' /\ at_name e dir (S k) s'.
Proof.
  intros Hb ((Hc & Hst & Hd & He & Ho) & Hbuf & Hk) Hlt.
  through_epilogue Hc E.
  assert (Hsw : dirList_switch s
                = (set_dirList_byteCounter (Z.of_nat (S k)) s,
                   nth k (short_name (n_name e)) 0)).
  { unfold dirList_switch. rewrite Hst, Hbuf, Hk, strlen_name_buffer.
    destruct (Z.ltb_spec (Z.of_nat k) (Z.of_nat (length (short_name (n_name e)))));
      [|lia].
    rewrite arr_get_name_buffer by exact Hlt.
    pose proof (short_name_length (n_name e)).
    rewrite u8_small by lia. do 2 f_equal. lia. }
  rewrite Hsw in E. cbn [fst snd] in E.
  assert (Hu : u8 (nth k (short_name (n_name e)) 0) = nth k (short_name (n_name e)) 0).
  { apply u8_small.
    pose proof (short_name_bytes _ Hb) as Hf.
    apply (Forall_nth (fun c => 0 <= c < 256) 0 (short_name (n_name e))); assumption. }
  eexists. split.
  - apply emits_one. rewrite E, Hu. reflexivity.
  - unfold at_name, streaming. cbn. auto 10.
Qed.

Lemma name_end e dir s :
  at_name e dir (length (short_name (n_name e))) s ->
  exists s', emits s [0] s' /\ at_size e dir 0 s'.
Proof.
  intros ((Hc & Hst & Hd & He & Ho) & Hbuf & Hk).
  through_epilogue Hc E.
  assert (Hsw : exists s1, dirList_switch s = (s1, 0) /\ at_size e dir 0 s1).
  { unfold dirList_switch. rewrite Hst, Hbuf, Hk, strlen_name_buffer, Z.ltb_irrefl.
    unfold do_isDirectory, do_size. rewrite He. cbn.
    destruct (n_isDir e) eqn:Hdir; cbn; eexists; (split; [reflexivity|]);
      unfold at_size, streaming, entry_size; cbn; rewrite ?He, ?Hdir; auto 10. }
  destruct Hsw as (s1 & Hsw & ((Hc1 & Hst1 & Hd1 & He1 & Ho1) & Hz1 & Hk1)).
  rewrite Hsw in E. cbn [fst snd] in E. eexists. split.
  - apply emits_one. rewrite E. reflexivity.
  - unfold at_size, streaming. cbn. auto 10.
Qed.

(** The name, from its [k]-th character on, and the terminating NUL. *)
Lemma name_phase e dir (m : nat) : forall k s,
  byte_string (n_name e) ->
  (k + m = length (short_name (n_name e)))%nat ->
  at_name e dir k s ->
  exists s', emits s (drop k (short_name (n_name e)) ++ [0]) s' /\ at_size e dir 0 s'.
Proof.
  induction m as [|m IH]; intros k s Hb Hlen Hn.
  - replace k with (length (short_name (n_name e))) in * by lia.
    rewrite drop_all. apply name_end. exact Hn.
  - destruct (name_char e dir k s Hb Hn) as (s1 & E1 & Hn1); [lia|].
    destruct (IH (S k) s1 Hb) as (s2 & E2 & Hz); [lia | exact Hn1 |].
    exists s2. split; [|exact Hz].
    rewrite (drop_S _ (nth k (short_name (n_name e)) 0) k).
    + eapply emits_cons; eauto.
    + destruct (nth_lookup_or_length (short_name (n_name e)) k 0); [assumption | lia].
Qed.



Lemma size_byte e dir (j : nat) s :
  at_size e dir j s -> (j < 3)%nat ->
  exists s', emits s [shr_byte (entry_size e) (Z.of_nat j)] s' /\ at_size e dir (S j) s'.
Proof.
  intros ((Hc & Hst & Hd & He & Ho) & Hz & Hk) Hlt.
  through_epilogue Hc E.
  assert (Hsw : dirList_switch s
                = (set_dirList_byteCounter (Z.of_nat (S j)) s,
                   shr_byte (entry_size e) (Z.of_nat j))).
  { unfold dirList_switch. rewrite Hst, Hz, Hk. cbn.
    rewrite u8_small by lia.
    destruct (Z.leb_spec 4 (Z.of_nat j + 1)); [lia|].
    do 2 f_equal. lia. }
  rewrite Hsw in E. cbn [fst snd] in E. rewrite u8_shr_byte in E.
  eexists. split; [apply emits_one; exact E|].
  unfold at_size, streaming. cbn. auto 10.
Qed.

Lemma advance_pending dir : n_pending (advance dir) = tail (n_pending dir).
Proof. destruct dir as [d m z u [|e p]]; reflexivity. Qed.

Lemma openNextFile_entry dir : snd (file_openNextFile dir) = head (n_pending dir).
Proof. destruct dir as [d m z u [|e p]]; reflexivity. Qed.

Lemma size_last e dir s :
  at_size e dir 3 s ->
  exists s', emits s [shr_byte (entry_size e) 3] s' /\ after_entry dir s'.
Proof.
  intros ((Hc & Hst & Hd & He & Ho) & Hz & Hk).
  through_epilogue Hc E.
  assert (Hsw : exists s1, dirList_switch s = (s1, shr_byte (entry_size e) 3)
                           /\ after_entry dir s1).
  { unfold dirList_switch. rewrite Hst, Hz, Hk. cbn.
    unfold do_openNextFile. cbn. rewrite Hd. cbn.
    unfold after_entry, streaming, released, advance.
    destruct dir as [d m z u [|e' pd]]; cbn; eexists; (split; [reflexivity|]);
      cbn; auto 10. }
  destruct Hsw as (s1 & Hsw & Ha).
  rewrite Hsw in E. cbn [fst snd] in E. rewrite u8_shr_byte in E.
  eexists. split; [apply emits_one; exact E|].
  unfold after_entry, streaming, released in *.
  destruct (n_pending dir); cbn; exact Ha.
Qed.

Lemma send_type st e dir s :
  st = DIR_STREAM_SEND_TYPE_NEXT ->
  streaming st e dir s ->
  exists s', emits s [entry_type e] s' /\ at_name e dir 0 s'.
Proof.
  intros -> (Hc & Hst & Hd & He & Ho).
  through_epilogue Hc E.
  assert (Hsw : exists s1, dirList_switch s = (s1, entry_type e) /\ at_name e dir 0 s1).
  { unfold dirList_switch. rewrite Hst.
    unfold dirList_send_type, do_isDirectory, do_name. cbn. rewrite He.
    eexists. split; [reflexivity|].
    unfold at_name, streaming. cbn. auto 10. }
  destruct Hsw as (s1 & Hsw & ((Hc1 & Hst1 & Hd1 & He1 & Ho1) & Hb1 & Hk1)).
  rewrite Hsw in E. cbn [fst snd] in E.
  assert (u8 (entry_type e) = entry_type e) as Hu
    by (unfold entry_type; destruct (n_isDir e); reflexivity).
  rewrite Hu in E.
  eexists. split; [apply emits_one; exact E|].
  unfold at_name, streaming. cbn. auto 10.
Qed.

Lemma send_end s :
  released DIR_STREAM_SEND_END s ->
  exists s', emits s [255] s' /\ released DIR_STREAM_IDLE s'.
Proof.
  intros (Hc & Hst & Hd & He & Ho).
  through_epilogue Hc E.
  assert (Hsw : dirList_switch s = (set_dirList_state DIR_STREAM_IDLE s, 255)).
  { unfold dirList_switch. rewrite Hst. reflexivity. }
  rewrite Hsw in E. cbn [fst snd] in E.
  eexists. split; [apply emits_one; exact E|].
  unfold released. cbn. auto 10.
Qed.

(** One entry, after its type byte. *)
Lemma entry_after_type e dir s :
  byte_string (n_name e) ->
  at_name e dir 0 s ->
  exists s', emits s (short_name (n_name e) ++ 0 :: le32 (entry_size e)) s'
             /\ after_entry dir s'.
Proof.
  intros Hb Hn.
  destruct (name_phase e dir (length (short_name (n_name e))) 0%nat s Hb)
    as (s1 & E1 & H1); [lia | exact Hn |].
  destruct (size_byte e dir 0 s1 H1) as (s2 & E2 & H2); [lia|].
  destruct (size_byte e dir 1 s2 H2) as (s3 & E3 & H3); [lia|].
  destruct (size_byte e dir 2 s3 H3) as (s4 & E4 & H4); [lia|].
  destruct (size_last e dir s4 H4) as (s5 & E5 & H5).
  exists s5. split; [|exact H5].
  rewrite drop_0 in E1.
  replace (short_name (n_name e) ++ 0 :: le32 (entry_size e))
    with ((short_name (n_name e) ++ [0])
          ++ [shr_byte (entry_size e) (Z.of_nat 0)]
          ++ [shr_byte (entry_size e) (Z.of_nat 1)]
          ++ [shr_byte (entry_size e) (Z.of_nat 2)]
          ++ [shr_byte (entry_size e) 3])
    by (rewrite <- app_assoc; reflexivity).
  repeat (eapply emits_app; [eassumption|]). exact E5.
Qed.

(** All remaining entries and the end marker. *)
Lemma entries_after_type rest : forall e dir s,
  n_pending dir = rest ->
  Forall (fun x => byte_string (n_name x)) (e :: rest) ->
  at_name e dir 0 s ->
  exists s', emits s (short_name (n_name e) ++ 0 :: le32 (entry_size e) ++ listing rest) s'
             /\ released DIR_STREAM_IDLE s'.
Proof.
  induction rest as [|e' rest IH]; intros e dir s Hp Hb Hn;
    apply Forall_cons in Hb as [Hbe Hb];
    destruct (entry_after_type e dir s Hbe Hn) as (s1 & E1 & H1);
    unfold after_entry in H1; rewrite Hp in H1.
  - destruct (send_end s1 H1) as (s2 & E2 & H2).
    exists s2. split; [|exact H2].
    replace (short_name (n_name e) ++ 0 :: le32 (entry_size e) ++ listing [])
      with ((short_name (n_name e) ++ 0 :: le32 (entry_size e)) ++ [255])
      by (rewrite <- app_assoc; reflexivity).
    eapply emits_app; eassumption.
  - destruct (send_type _ e' (advance dir) s1 eq_refl H1) as (s2 & E2 & H2).
    destruct (IH e' (advance dir) s2) as (s3 & E3 & H3);
      [rewrite advance_pending, Hp; reflexivity | exact Hb | exact H2 |].
    exists s3. split; [|exact H3].
    replace (short_name (n_name e) ++ 0 :: le32 (entry_size e) ++ listing (e' :: rest))
      with ((short_name (n_name e) ++ 0 :: le32 (entry_size e))
            ++ [entry_type e']
            ++ (short_name (n_name e') ++ 0 :: le32 (entry_size e') ++ listing rest)).
    + eapply emits_app; [eassumption|]. eapply emits_app; eassumption.
    + unfold listing. cbn [map concat entry_bytes].
      rewrite <- !app_assoc. cbn. rewrite <- !app_assoc. reflexivity.
Qed.


Lemma listing_cons e rest :
  listing (e :: rest)
  = entry_type e :: short_name (n_name e) ++ 0 :: le32 (entry_size e) ++ listing rest.
Proof.
  unfold listing. cbn [map concat entry_bytes].
  rewrite <- !app_assoc. cbn. rewrite <- !app_assoc. reflexivity.
Qed.

(** The first read request of a listing. *)
Lemma listing_first s :
  command s = chr_L ->
  dirList_state s = DIR_STREAM_IDLE ->
  dirList_currentEntry s = None ->
  match entries_of (snd (sd_open (disk s) (c_str (Filename s)) O_READ_mode)) with
  | [] => exists s', emits s [255] s' /\ released DIR_STREAM_IDLE s'
  | e :: rest =>
      exists s' dir, emits s [entry_type e] s' /\ at_name e dir 0 s'
                     /\ n_pending dir = rest
  end.
Proof.
  intros Hc Hst He. through_epilogue Hc E.
  set (opened := snd (sd_open (disk s) (c_str (Filename s)) O_READ_mode)).
  assert (Hsw : exists s1 b, dirList_switch s = (s1, b) /\ u8 b = b /\
            match entries_of opened with
            | [] => b = 255 /\ released DIR_STREAM_IDLE s1
            | e :: rest =>
                b = entry_type e
                /\ exists dir, at_name e dir 0 s1 /\ n_pending dir = rest
            end).
  { subst opened. unfold dirList_switch. rewrite Hst. unfold do_open. cbn.
    destruct (sd_open (disk s) (c_str (Filename s)) O_READ_mode)
      as [d1 [[[] m z u pend]|]]; cbn.
    - unfold do_openNextFile. cbn. destruct pend as [|e rest]; cbn.
      + eexists _, _. split; [reflexivity|]. split; [reflexivity|].
        unfold released. cbn. auto 10.
      + unfold dirList_send_type, do_isDirectory, do_name. cbn.
        eexists _, _. split; [reflexivity|].
        split; [destruct (n_isDir e); reflexivity|].
        split; [reflexivity|]. exists (MkNode true m z u rest).
        unfold at_name, streaming. cbn. auto 10.
    - eexists _, _. split; [reflexivity|]. split; [reflexivity|].
      unfold released. cbn. auto 10.
    - eexists _, _. split; [reflexivity|]. split; [reflexivity|].
      unfold released. cbn. auto 10. }
  destruct Hsw as (s1 & b & Hsw & Hu & Hcase).
  rewrite Hsw in E. cbn [fst snd] in E. rewrite Hu in E.
  destruct (entries_of opened) as [|e rest].
  - destruct Hcase as (-> & (Hc1 & Hst1 & Hd1 & He1 & Ho1)).
    eexists. split; [apply emits_one; exact E|].
    unfold released. cbn. auto 10.
  - destruct Hcase as (-> & dir & ((Hc1 & Hst1 & Hd1 & He1 & Ho1) & Hb1 & Hk1) & Hp).
    eexists _, dir. split; [apply emits_one; exact E|].
    unfold at_name, streaming. cbn. auto 10.
Qed.

(** C6. A listing started with the cursor idle sends, for every entry of the
    directory in the order of iteration, the type byte (['D'] or ['F']), the
    base name cut to 12 characters, a zero byte and the size in four bytes,
    least significant first (0 for a directory), and then 0xFF.  When the
    path cannot be opened, is not a directory or has no entry, the first
    byte is 0xFF.  In all cases the cursor is idle again afterwards and no
    directory or entry handle is open. *)
Theorem directory_listing_stream s :
  command s = chr_L ->
  dirList_state s = DIR_STREAM_IDLE ->
  dirList_currentEntry s = None ->
  let es := entries_of (snd (sd_open (disk s) (c_str (Filename s)) O_READ_mode)) in
  Forall (fun x => byte_string (n_name x)) es ->
  let r := run (replicate (length (listing es)) (EvDataRead false)) s in
  snd r = map Sent (listing es)
  /\ dirList_state (fst r) = DIR_STREAM_IDLE
  /\ dirList_currentDir (fst r) = None
  /\ dirList_currentEntry (fst r) = None
  /\ dirList_dirOpen (fst r) = false.
Proof.
  intros Hc Hst He es Hb r.
  assert (H : exists s', emits s (listing es) s' /\ released DIR_STREAM_IDLE s').
  { pose proof (listing_first s Hc Hst He) as Hfirst. fold es in Hfirst.
    destruct es as [|e rest].
    - exact Hfirst.
    - destruct Hfirst as (s1 & dir & E1 & Hn & Hp).
      destruct (entries_after_type rest e dir s1 Hp Hb Hn) as (s2 & E2 & H2).
      exists s2. split; [|exact H2].
      rewrite listing_cons. eapply emits_cons; eassumption. }
  destruct H as (s' & E & (_ & H1 & H2 & H3 & H4)).
  subst r. unfold emits in E. rewrite E. cbn. auto.
Qed.



(** ** Handles across transaction boundaries *)


(** [Stop] closes [myFile] only under one of the four file commands. *)
Lemma Stop_myFile_kept s :
((command s =? chr_W) || (command s =? chr_R)
   || (command s =? chr_A) || (command s =? chr_S)) = false ->
  myFile (Stop s) = myFile s.
Proof.
  intros H. unfold Stop, dirList_cleanup. cbn.
  destruct ((command s =? chr_C) && (rtc_buffer_ptr s =? 6)),
           (rtc_valid (rtc_buffer s)); cbn; rewrite H, andb_false_r;
    repeat (case_match; cbn); reflexivity.
Qed.

(** The clean-up shared by both handlers releases the listing handles
    whenever [dirList_dirOpen] is set. *)
Lemma dirList_cleanup_released s :
  (dirList_dirOpen s = false ->
   dirList_currentDir s = None /\ dirList_currentEntry s = None) ->
  dirList_currentDir (dirList_cleanup s) = None
  /\ dirList_currentEntry (dirList_cleanup s) = None
  /\ dirList_dirOpen (dirList_cleanup s) = false.
Proof.
  intros H. unfold dirList_cleanup.
  destruct (dirList_dirOpen s) eqn:Ho.
  - destruct (isOpen (dirList_currentEntry s)) eqn:He; cbn; auto.
    destruct (dirList_currentEntry s); [discriminate | auto].
  - destruct (H eq_refl) as [-> ->]. auto.
Qed.



(** *** An invariant of the listing handles *)

Lemma DataHostWrite_cursor s : cursor (fst (DataHostWrite s)) = cursor s.
Proof.
  unfold DataHostWrite, open_myFile, do_open, Filename_store, cursor. cbn.
  repeat (case_match; simplify_eq; cbn in * ); reflexivity.
Qed.

Lemma DataHostRead_cursor s :
  (command s =? chr_L) = false -> cursor (DataHostRead s) = cursor s.
Proof.
  intros H. unfold DataHostRead, do_path_op, do_open, do_isDirectory, do_size, cursor.
  rewrite H. cbn.
  repeat (case_match; simplify_eq; cbn in * ); reflexivity.
Qed.

Lemma dirList_switch_inv s : handles_inv s -> handles_inv (fst (dirList_switch s)).
Proof.
  unfold handles_inv, cursor, cursor_ok. intros [H1 H2].
  unfold dirList_switch.
  destruct (dirList_state s) eqn:Hst.
  - destruct (H1 (H2 (or_introl eq_refl))) as [Hd He].
    unfold do_open, do_openNextFile, dirList_send_type, do_isDirectory, do_name. cbn.
    destruct (sd_open (disk s) (c_str (Filename s)) O_READ_mode)
      as [d1 [[[] m z u [|e rest]]|]]; cbn; rewrite ?He;
      (split; [intros; auto; discriminate | intros [|]; auto; discriminate]).
  - unfold do_isDirectory, do_size. cbn.
    destruct (dirList_byteCounter s <? Z.of_nat (strlen (dirList_filenameBuffer s)));
      cbn; [rewrite Hst; split; [exact H1 | intros [|]; discriminate]|].
    destruct (match dirList_currentEntry s with
              | Some n => n_isDir n
              | None => false
              end); cbn; (split; [exact H1 | intros [|]; discriminate]).
  - unfold do_openNextFile. cbn.
    destruct (4 <=? u8 (dirList_byteCounter s + 1)); cbn.
    + destruct (dirList_currentDir s) as [[d m z u [|e rest]]|] eqn:Hd; cbn;
        (split; [intros; auto; try discriminate | intros [|]; auto; discriminate]).
      destruct (dirList_dirOpen s) eqn:Ho; [discriminate|].
      destruct (H1 eq_refl) as [? _]. discriminate.
    + rewrite Hst. split; [exact H1 | intros [|]; discriminate].
  - unfold dirList_send_type, do_isDirectory, do_name. cbn.
    split; [exact H1 | intros [|]; discriminate].
  - cbn. split; [exact H1 | intros _; apply H2; auto].
Qed.

Lemma DataHostRead_inv s : handles_inv s -> handles_inv (DataHostRead s).
Proof.
  intros H. destruct (command s =? chr_L) eqn:Hc.
  - apply Z.eqb_eq in Hc. apply dirList_switch_inv in H.
    unfold DataHostRead. rewrite Hc. cbn.
    destruct (dirList_switch s) as [s1 b]. cbn in H.
    unfold handles_inv, cursor in *.
    destruct (negb (DirStream_eqb (dirList_state s1) DIR_STREAM_IDLE)); exact H.
  - unfold handles_inv. rewrite DataHostRead_cursor by exact Hc. exact H.
Qed.

Lemma no_listing_handle_inv s : no_listing_handle s -> handles_inv s.
Proof.
  unfold no_listing_handle, handles_inv. intros ->. cbn. auto.
Qed.

(** Assignments that leave the listing handles alone. *)
Lemma cursor_set_dirList_byteCounter v s : cursor (set_dirList_byteCounter v s) = cursor s.
Proof. reflexivity. Qed.
Lemma cursor_set_rtc_buffer_ptr v s : cursor (set_rtc_buffer_ptr v s) = cursor s.
Proof. reflexivity. Qed.
Lemma cursor_set_ptr v s : cursor (set_ptr v s) = cursor s.
Proof. reflexivity. Qed.
Lemma cursor_set_ch v s : cursor (set_ch v s) = cursor s.
Proof. reflexivity. Qed.
Lemma cursor_set_command v s : cursor (set_command v s) = cursor s.
Proof. reflexivity. Qed.
Lemma cursor_set_dirList_state v s :
  cursor (set_dirList_state v s)
  = (dirList_currentDir s, dirList_currentEntry s, v, dirList_dirOpen s).
Proof. reflexivity. Qed.

Lemma cleanup_of_cursor s s0 :
  cursor s0 = cursor s -> handles_inv s ->
  dirList_currentDir (dirList_cleanup s0) = None
  /\ dirList_currentEntry (dirList_cleanup s0) = None
  /\ dirList_dirOpen (dirList_cleanup s0) = false.
Proof.
  intros Hc H. apply dirList_cleanup_released.
  unfold handles_inv in H. rewrite <- Hc in H. apply H.
Qed.

Lemma AddressHostWrite_split s :
  fst (AddressHostWrite s)
  = set_dirList_byteCounter 0
      (set_dirList_state DIR_STREAM_IDLE
         (dirList_cleanup (before_cleanup_AddressHostWrite s))).
Proof. reflexivity. Qed.

Lemma Stop_split s :
  Stop s
  = set_rtc_buffer_ptr 0
      (set_ptr 0
         (set_ch 0
            (set_command 0
               (set_dirList_byteCounter 0
                  (set_dirList_state DIR_STREAM_IDLE
                     (dirList_cleanup (before_cleanup_Stop s))))))).
Proof. reflexivity. Qed.

Lemma before_cleanup_Stop_cursor s : cursor (before_cleanup_Stop s) = cursor s.
Proof.
  unfold before_cleanup_Stop, cursor. cbn.
  destruct ((command s =? chr_C) && (rtc_buffer_ptr s =? 6)),
           (rtc_valid (rtc_buffer s)); cbn;
    repeat (case_match; cbn); reflexivity.
Qed.

Lemma before_cleanup_AddressHostWrite_cursor s :
  cursor (before_cleanup_AddressHostWrite s) = cursor s.
Proof. unfold before_cleanup_AddressHostWrite, cursor. cbn. reflexivity. Qed.

Lemma AddressHostWrite_releases_listing s :
  handles_inv s -> no_listing_handle (fst (AddressHostWrite s)).
Proof.
  intros H. rewrite AddressHostWrite_split.
  destruct (cleanup_of_cursor s _ (before_cleanup_AddressHostWrite_cursor s) H)
    as (H1 & H2 & H3).
  unfold no_listing_handle.
  rewrite cursor_set_dirList_byteCounter, cursor_set_dirList_state, H1, H2, H3.
  reflexivity.
Qed.

Lemma Stop_releases_listing s : handles_inv s -> no_listing_handle (Stop s).
Proof.
  intros H. rewrite Stop_split.
  destruct (cleanup_of_cursor s _ (before_cleanup_Stop_cursor s) H)
    as (H1 & H2 & H3).
  unfold no_listing_handle.
  rewrite cursor_set_rtc_buffer_ptr, cursor_set_ptr, cursor_set_ch, cursor_set_command,
    cursor_set_dirList_byteCounter, cursor_set_dirList_state, H1, H2, H3.
  reflexivity.
Qed.

Lemma on_event_DataWrite b s :
  on_event (EvDataWrite b) s
  = (fst (DataHostWrite (set_SDATA (u8 b) s)),
     if snd (DataHostWrite (set_SDATA (u8 b) s)) then Acked else Nacked).
Proof.
  unfold on_event, ISR. cbn.
  destruct (DataHostWrite (set_SDATA (u8 b) s)) as [s1 []]; reflexivity.
Qed.

(** Every handler preserves the invariant. *)
Lemma handles_inv_step e s : handles_inv s -> handles_inv (fst (on_event e s)).
Proof.
  intros H. destruct e as [| |b|rx|].
  - apply no_listing_handle_inv, AddressHostWrite_releases_listing, H.
  - rewrite on_event_AddrRead. cbn. destruct (_ || _); exact H.
  - rewrite on_event_DataWrite. cbn [fst].
    unfold handles_inv. rewrite DataHostWrite_cursor. exact H.
  - unfold on_event. pose proof (ISR_data_read s rx) as Hs.
    destruct (ISR (status_of (EvDataRead rx)) s) as [s1 c]. cbn in Hs. subst s1.
    destruct c as [[]|]; cbn;
      (destruct (rx && checknack s); [exact H | apply DataHostRead_inv, H]).
  - apply no_listing_handle_inv, Stop_releases_listing, H.
Qed.

Lemma handles_inv_run es : forall s, handles_inv s -> handles_inv (fst (run es s)).
Proof.
  induction es as [|e es IH]; intros s H; cbn [run]; [exact H|].
  pose proof (handles_inv_step e s H) as H1.
  destruct (on_event e s) as [s1 r]. specialize (IH s1 H1).
  destruct (run es s1). exact IH.
Qed.

Lemma handles_inv_boot (d : Disk) fat blocks clusters :
  handles_inv (boot d fat blocks clusters).
Proof. unfold handles_inv. cbn. auto. Qed.

(** Whatever the host has sent since power-up, a stop and a new write
    address match both leave the listing idle without any open handle. *)
Lemma listing_handles_released_at_boundaries es (d : Disk) fat blocks clusters :
  let s := fst (run es (boot d fat blocks clusters)) in
  no_listing_handle (fst (on_event EvStop s))
  /\ no_listing_handle (fst (on_event EvAddrWrite s)).
Proof.
  intros s.
  assert (handles_inv s) by apply handles_inv_run, handles_inv_boot.
  split; [apply Stop_releases_listing | apply AddressHostWrite_releases_listing];
    assumption.
Qed.

(** A listing transaction starts with the cursor idle and no entry handle,
    whatever the host has sent before. *)
Lemma listing_starts_idle s0 :
  handles_inv s0 ->
  let s := fst (run [EvAddrWrite; EvDataWrite chr_L; EvAddrRead] s0) in
  command s = chr_L
  /\ dirList_state s = DIR_STREAM_IDLE
  /\ dirList_currentEntry s = None.
Proof.
  intros H. cbn [run].
  pose proof (AddressHostWrite_releases_listing s0 H) as Hn.
  pose proof (AddressHostWrite_command s0) as Hc.
  rewrite on_event_AddrWrite.
  revert Hn Hc. generalize (fst (AddressHostWrite s0)). intros s1 Hn Hc.
  rewrite on_event_command_byte by (auto; unfold chr_L; lia).
  rewrite on_event_AddrRead. cbn.
  unfold no_listing_handle, cursor in Hn. injection Hn as Hd He Hst Ho.
  auto.
Qed.

(** *** The filename buffer *)

(** With 63 characters stored the next byte is still accepted, and its
    terminator is stored one past the end of the array. *)
Lemma filename_last_byte_accepted s b :
  command s = chr_F -> ch s = 63 ->
  snd (on_event (EvDataWrite b) s) = Acked
  /\ Filename_oob (fst (on_event (EvDataWrite b) s)) = Filename_oob s ++ [(64, 0)]
  /\ Filename (fst (on_event (EvDataWrite b) s)) = <[63%nat := u8 b]> (Filename s)
  /\ ch (fst (on_event (EvDataWrite b) s)) = 64.
Proof.
  intros Hc Hch. rewrite on_event_DataWrite.
  unfold DataHostWrite, Filename_store. cbn. rewrite Hc, Hch. cbn.
  rewrite !Hch. cbn. auto.
Qed.

(** Only with 64 characters stored is a byte refused. *)
Lemma filename_byte_rejected s b :
  command s = chr_F -> ch s = 64 ->
  on_event (EvDataWrite b) s = (set_SDATA (u8 b) s, Nacked).
Proof.
  intros Hc Hch. rewrite on_event_DataWrite.
  unfold DataHostWrite. cbn. rewrite Hc, Hch. reflexivity.
Qed.

End Properties.


(** * Runs on the simulated card *)

(** ** File handle across a superseding write address match (C1) *)

(** C1. [AddressHostWrite] clears [command] but never closes [myFile]: after
    the superseding address match the file is still open, and the stop that
    follows does not close it either, its guard testing [command], now 0.
    No [close] has been issued at all. *)
Theorem file_handle_survives_superseding_write :
  let s := fst (run superseded_write boot_ok) in
  isOpen (myFile s) = true
  /\ command s = 0
  /\ isOpen (myFile (fst (on_event EvStop s))) = true
  /\ count_calls is_close (calls (fst (on_event EvStop s))) = 0%nat.
Proof. vm_compute. auto. Qed.

(** ** The 64th filename byte (C3) *)

(** C3. With [ch = 63] the guard [ch < Namelength] still holds: the 64th
    byte is acknowledged and stored in the last element, and the
    terminating zero is stored at index 64, past the end of the array.  The
    array then holds 64 characters and no terminator. *)
Theorem filename_64th_byte_overflows :
  let r := run (EvAddrWrite :: EvDataWrite chr_F
                  :: map EvDataWrite (replicate 64 chr_A)) boot_ok in
  snd r = replicate 66 Acked
  /\ Filename (fst r) = replicate 64 chr_A
  /\ Filename_oob (fst r) = [(64, 0)]
  /\ strlen (Filename (fst r)) = 64%nat.
Proof. vm_compute. auto. Qed.

(** Up to 63 bytes the array stays terminated and no store leaves it. *)
Example filename_63_bytes_fit :
  let r := run (EvAddrWrite :: EvDataWrite chr_F
                  :: map EvDataWrite (replicate 63 chr_A)) boot_ok in
  Filename (fst r) = replicate 63 chr_A ++ [0] /\ Filename_oob (fst r) = [].
Proof. vm_compute. auto. Qed.

(** ** Card type when the probe fails (C9) *)

(** C9. When [card.init] fails the handler stores nothing in the data
    register: the byte offered to the host is the stale register content,
    here the command byte ['Q'] itself, not 0. *)
Theorem card_probe_failure_sends_stale_byte :
  snd (run [EvAddrWrite; EvDataWrite chr_Q; EvAddrRead; EvDataRead false] boot_failing)
  = [Acked; Acked; Acked; Sent chr_Q].
Proof. vm_compute. reflexivity. Qed.

Example card_probe_success_sends_3 :
  snd (run [EvAddrWrite; EvDataWrite chr_Q; EvAddrRead; EvDataRead false] boot_ok)
  = [Acked; Acked; Acked; Sent 3].
Proof. vm_compute. reflexivity. Qed.

(** ** One-shot commands (C4) *)

(** C4, as stated, fails: the second read request calls [SD.mkdir] again
    (and now reports failure, the directory existing already). *)
Lemma mkdir_repeated_on_second_read :
  count_calls is_mkdir (calls (fst (run mkdir_two_reads boot_ok))) <> 1%nat
  /\ calls (fst (run mkdir_two_reads boot_ok)) = [SD_mkdir name_NEW; SD_mkdir name_NEW]
  /\ snd (run mkdir_two_reads boot_ok)
     = replicate 5 Acked ++ [Completed; Acked; Acked; Acked; Sent 1; Sent 0].
Proof. vm_compute. repeat split; congruence. Qed.

(** ** Volume information after a failed mount (C8) *)

(** C8, as stated, fails: after the 0xFF status the nine remaining bytes are
    not the cached volume data (16, 64 and 70000 here) but zeros. *)
Lemma volume_failure_sends_zeros_not_cache :
  snd (run (volume_query 10) boot_failing)
  <> [Acked; Acked; Acked]
     ++ map Sent (255 :: volFatType boot_failing
                      :: le32 (volBlocks boot_failing)
                      ++ le32 (volClusters boot_failing))
  /\ snd (run (volume_query 10) boot_failing)
     = [Acked; Acked; Acked] ++ map Sent (255 :: replicate 9 0).
Proof. vm_compute. split; congruence. Qed.



(** ** The general statements at work *)

Lemma Stop_commits_clock_iff_witness :
  clock (Stop clock_ready) = MkClock 2024 7 26 10 30 0
  /\ clock (Stop clock_short) = MkClock 2025 1 1 0 0 0.
Proof.
  split.
  - assert (Hc : clock_commit_condition clock_ready)
      by (vm_compute; repeat split; discriminate || reflexivity).
    pose proof (proj1 (Stop_commits_clock_iff clock_ready) Hc) as H.
    vm_compute in H |- *. exact H.
  - assert (Hc : ~ clock_commit_condition clock_short)
      by (intros (_ & Hp & _); vm_compute in Hp; discriminate).
    pose proof (proj2 (Stop_commits_clock_iff clock_short) Hc) as H.
    vm_compute in H |- *. exact H.
Defined.

Lemma clock_extra_bytes_rejected_witness :
  clock (fst (run (clock_set ([24; 7; 26; 10; 30; 0] ++ [99; 98]) ++ [EvStop]) boot_ok))
  = clock (fst (run (clock_set [24; 7; 26; 10; 30; 0] ++ [EvStop]) boot_ok)).
Proof.
  destruct (clock_extra_bytes_rejected boot_ok [24; 7; 26; 10; 30; 0] [99; 98] eq_refl)
    as (_ & _ & _ & _ & _ & H).
  exact H.
Defined.

Lemma phantom_read_absorbed_once_witness :
  checknack (fst (on_event (EvDataRead false) exists_probe)) = true
  /\ snd (on_event (EvDataRead true) (fst (on_event (EvDataRead false) exists_probe)))
     = Absorbed.
Proof.
  assert (H : on_event (EvDataRead false) exists_probe
              = (fst (on_event (EvDataRead false) exists_probe), Sent 1))
    by (vm_compute; reflexivity).
  destruct (phantom_read_absorbed_once exists_probe false _ 1 H) as (H1 & H2 & _).
  split; [exact H1 | rewrite H2; reflexivity].
Defined.

Lemma one_shot_called_per_read_request_witness :
  calls (fst (run [EvDataRead false; EvDataRead true] mkdir_probe))
  = [SD_mkdir name_NEW].
Proof.
  assert (Hc : one_shot_call (command mkdir_probe) = Some SD_mkdir)
    by (vm_compute; reflexivity).
  destruct (one_shot_called_per_read_request mkdir_probe SD_mkdir Hc) as [_ H].
  vm_compute in H |- *. exact H.
Defined.

Lemma file_size_response_witness :
  snd (run (EvAddrRead :: replicate 6 (EvDataRead false)) size_probe)
  = [Acked; Sent 0; Sent 0; Sent 1; Sent 7; Sent 0; Sent 0].
Proof.
  assert (Hc : command size_probe = chr_S) by (vm_compute; reflexivity).
  destruct (file_size_response size_probe 5 Hc) as [H _].
  vm_compute in H |- *. exact H.
Defined.

Lemma volume_info_response_witness :
  snd (run (EvAddrRead :: replicate 12 (EvDataRead false)) volume_probe)
  = Acked :: map Sent [1; 16; 64; 0; 0; 0; 112; 17; 1; 0; 0; 0].
Proof.
  assert (Hc : command volume_probe = chr_V) by (vm_compute; reflexivity).
  pose proof (volume_info_response volume_probe 11 Hc) as H.
  vm_compute in H |- *. exact H.
Defined.

Lemma directory_listing_stream_witness :
  snd (run (replicate 22 (EvDataRead false)) listing_probe)
  = map Sent [68; 76; 79; 71; 83; 0; 0; 0; 0; 0;
              70; 65; 46; 84; 88; 84; 0; 7; 1; 0; 0;
              255]
  /\ dirList_currentDir (fst (run (replicate 22 (EvDataRead false)) listing_probe)) = None.
Proof.
  assert (H1 : command listing_probe = chr_L) by (vm_compute; reflexivity).
  assert (H2 : dirList_state listing_probe = DIR_STREAM_IDLE) by (vm_compute; reflexivity).
  assert (H3 : dirList_currentEntry listing_probe = None) by (vm_compute; reflexivity).
  assert (H4 : Forall (fun x => byte_string (n_name x))
                 (entries_of (snd (sd_open (disk listing_probe)
                                     (c_str (Filename listing_probe)) O_READ_mode)))).
  { apply (bool_decide_unpack _). vm_compute. exact I. }
  destruct (directory_listing_stream listing_probe H1 H2 H3 H4) as (Ha & _ & Hb & _).
  vm_compute in Ha, Hb |- *. split; [exact Ha | exact Hb].
Defined.


(** * Further properties of the engine *)

Section EngineInvariantProofs.
Context {Disk : Type} {gw : SdGateway Disk}.
Implicit Types s : State Disk.




(** Case analysis on the branches of a handler. *)
Ltac branches :=
  repeat (case_match; simplify_eq; cbn in * ).

(** Comparisons in the hypotheses, as propositions. *)
Ltac cmp_props :=
  unfold Namelength in *;
  repeat match goal with
  | H : (_ && _) = true |- _ => apply andb_true_iff in H as [? ?]
  | H : (_ <? _) = true |- _ => apply Z.ltb_lt in H
  | H : (_ <? _) = false |- _ => apply Z.ltb_ge in H
  | H : (_ <=? _) = true |- _ => apply Z.leb_le in H
  | H : (_ <=? _) = false |- _ => apply Z.leb_gt in H
  | H : (_ =? _) = true |- _ => apply Z.eqb_eq in H
  | H : (_ =? _) = false |- _ => apply Z.eqb_neq in H
  end.

(** Case analysis on a state, field by field. *)
Ltac fields s :=
  destruct s as [cmd chv ptrv cnk fname oob fsz vblk vclu vfat clk rbuf rptr
                 mf dcd dce dst dbc dfb des ddo sdata pb2 pb3 dsk cls].









Lemma bounded_fields_dirList_cleanup s :
  bounded_fields (dirList_cleanup s) = bounded_fields s.
Proof.
  unfold dirList_cleanup.
  destruct (dirList_dirOpen s); [|reflexivity].
  destruct (isOpen (dirList_currentEntry s)); unfold bounded_fields; cbn; reflexivity.
Qed.













(** ** The filename buffer *)

Lemma name_fields_eq s s' :
  name_fields s = name_fields s' ->
  Filename s = Filename s' /\ Filename_oob s = Filename_oob s'.
Proof.
  intros H. split; [exact (f_equal fst H) | exact (f_equal snd H)].
Qed.

Lemma name_fields_of_bounded s s' :
  bounded_fields s = bounded_fields s' -> name_fields s = name_fields s'.
Proof.
  unfold bounded_fields, name_fields. intros [= E1 _ _ _ _ _ _ _ _ _ E11].
  rewrite E1, E11. reflexivity.
Qed.

Lemma name_fields_set_dirList_byteCounter v s :
  name_fields (set_dirList_byteCounter v s) = name_fields s.
Proof. reflexivity. Qed.
Lemma name_fields_set_dirList_state v s :
  name_fields (set_dirList_state v s) = name_fields s.
Proof. reflexivity. Qed.
Lemma name_fields_set_rtc_buffer_ptr v s :
  name_fields (set_rtc_buffer_ptr v s) = name_fields s.
Proof. reflexivity. Qed.
Lemma name_fields_set_ptr v s : name_fields (set_ptr v s) = name_fields s.
Proof. reflexivity. Qed.
Lemma name_fields_set_ch v s : name_fields (set_ch v s) = name_fields s.
Proof. reflexivity. Qed.
Lemma name_fields_set_command v s : name_fields (set_command v s) = name_fields s.
Proof. reflexivity. Qed.
Lemma name_fields_set_checknack v s : name_fields (set_checknack v s) = name_fields s.
Proof. reflexivity. Qed.
Lemma name_fields_set_SDATA v s : name_fields (set_SDATA v s) = name_fields s.
Proof. reflexivity. Qed.

Lemma name_fields_before_cleanup_AddressHostWrite s :
  name_fields (before_cleanup_AddressHostWrite s) = name_fields s.
Proof. fields s. reflexivity. Qed.

Lemma name_fields_AddressHostWrite s :
  name_fields (fst (AddressHostWrite s)) = name_fields s.
Proof.
  rewrite AddressHostWrite_split.
  rewrite name_fields_set_dirList_byteCounter, name_fields_set_dirList_state.
  rewrite (name_fields_of_bounded _ _ (bounded_fields_dirList_cleanup _)).
  apply name_fields_before_cleanup_AddressHostWrite.
Qed.

Lemma name_fields_before_cleanup_Stop s :
  name_fields (before_cleanup_Stop s) = name_fields s.
Proof.
  fields s. unfold before_cleanup_Stop, name_fields. cbn. branches; reflexivity.
Qed.

Lemma name_fields_Stop s : name_fields (Stop s) = name_fields s.
Proof.
  rewrite Stop_split.
  rewrite name_fields_set_rtc_buffer_ptr, name_fields_set_ptr, name_fields_set_ch,
    name_fields_set_command, name_fields_set_dirList_byteCounter,
    name_fields_set_dirList_state.
  rewrite (name_fields_of_bounded _ _ (bounded_fields_dirList_cleanup _)).
  apply name_fields_before_cleanup_Stop.
Qed.

Lemma name_fields_DataHostRead s : name_fields (DataHostRead s) = name_fields s.
Proof.
  fields s.
  unfold DataHostRead, dirList_switch, dirList_send_type, do_openNextFile, do_open,
    do_path_op, do_isDirectory, do_size, do_name, name_fields. cbn.
  branches; reflexivity.
Qed.

Lemma name_fields_DataHostWrite s :
  command s <> chr_F ->
  name_fields (fst (DataHostWrite s)) = name_fields s.
Proof.
  intros H. fields s. cbn in *.
  unfold DataHostWrite, open_myFile, do_open, name_fields. cbn.
  branches; cmp_props; auto; contradiction.
Qed.

(** X5. The filename persists: no event changes the filename array, or
    stores outside it, except a data byte written under the ['F'] command. *)
Theorem filename_persists e s :
  (forall b, e = EvDataWrite b -> command s <> chr_F) ->
  Filename (fst (on_event e s)) = Filename s
  /\ Filename_oob (fst (on_event e s)) = Filename_oob s.
Proof.
  intros H.
  assert (E : name_fields (fst (on_event e s)) = name_fields s).
  { destruct e as [| |b|rx|].
    - rewrite on_event_AddrWrite. apply name_fields_AddressHostWrite.
    - rewrite on_event_AddrRead. cbn [fst].
      destruct (_ || _); [apply name_fields_set_ptr | reflexivity].
    - rewrite on_event_DataWrite. cbn [fst].
      rewrite name_fields_DataHostWrite by apply (H b eq_refl).
      apply name_fields_set_SDATA.
    - pose proof (ISR_data_read s rx) as Hs. unfold on_event.
      destruct (ISR (status_of (EvDataRead rx)) s) as [s1 c]. cbn [fst] in Hs. subst s1.
      assert (name_fields (if rx && checknack s then set_checknack false s
                           else set_checknack true (DataHostRead s)) = name_fields s).
      { destruct (rx && checknack s); rewrite name_fields_set_checknack;
          [reflexivity | apply name_fields_DataHostRead]. }
      destruct c as [[]|]; assumption.
    - apply name_fields_Stop. }
  apply name_fields_eq. exact E.
Qed.

(** A filename byte while two elements are still free. *)
Lemma filename_byte_stored s b :
  command s = chr_F -> 0 <= ch s < 63 ->
  snd (on_event (EvDataWrite b) s) = Acked
  /\ command (fst (on_event (EvDataWrite b) s)) = chr_F
  /\ ch (fst (on_event (EvDataWrite b) s)) = ch s + 1
  /\ Filename (fst (on_event (EvDataWrite b) s))
     = <[Z.to_nat (ch s + 1) := 0]> (<[Z.to_nat (ch s) := u8 b]> (Filename s))
  /\ Filename_oob (fst (on_event (EvDataWrite b) s)) = Filename_oob s.
Proof.
  intros Hc Hch. rewrite on_event_DataWrite.
  fields s. cbn in *. subst cmd.
  unfold DataHostWrite, Filename_store, Namelength. cbn.
  replace (chv <? 64) with true by (symmetry; apply Z.ltb_lt; lia).
  replace (0 <=? chv) with true by (symmetry; apply Z.leb_le; lia).
  cbn.
  replace (chv <? 64) with true by (symmetry; apply Z.ltb_lt; lia).
  replace (0 <=? chv + 1) with true by (symmetry; apply Z.leb_le; lia).
  replace (chv + 1 <? 64) with true by (symmetry; apply Z.ltb_lt; lia).
  cbn. auto.
Qed.

Lemma filename_bytes_stored bs : forall s pre,
  command s = chr_F ->
  ch s = Z.of_nat (length pre) ->
  length (Filename s) = 64%nat ->
  take (length pre) (Filename s) = pre ->
  (bs = [] -> Filename s !! length pre = Some 0) ->
  (length pre + length bs <= 63)%nat ->
  let r := run (map EvDataWrite bs) s in
  snd r = replicate (length bs) Acked
  /\ command (fst r) = chr_F
  /\ length (Filename (fst r)) = 64%nat
  /\ take (length pre + length bs) (Filename (fst r)) = pre ++ map u8 bs
  /\ Filename (fst r) !! (length pre + length bs)%nat = Some 0
  /\ Filename_oob (fst r) = Filename_oob s.
Proof.
  induction bs as [|b bs IH]; intros s pre Hc Hch Hlen Hpre Hnul Hfit;
    cbn [map run length].
  - cbn. rewrite Nat.add_0_r, app_nil_r. auto 10.
  - cbn [length] in Hfit.
    destruct (filename_byte_stored s b Hc) as (R & C1 & Ch1 & F1 & O1); [lia|].
    destruct (on_event (EvDataWrite b) s) as [s1 r1]. cbn [fst snd] in *.
    rewrite Hch in F1.
    replace (Z.to_nat (Z.of_nat (length pre) + 1)) with (S (length pre)) in F1 by lia.
    rewrite Nat2Z.id in F1.
    assert (Hlen1 : length (Filename s1) = 64%nat)
      by (rewrite F1, !length_insert; exact Hlen).
    assert (Hk : Filename s1 !! length pre = Some (u8 b)).
    { rewrite F1, list_lookup_insert_ne by lia.
      apply list_lookup_insert_eq. lia. }
    destruct (IH s1 (pre ++ [u8 b])) as (R2 & C2 & L2 & T2 & N2 & O2).
    + exact C1.
    + rewrite Ch1, Hch, length_app. cbn. lia.
    + exact Hlen1.
    + rewrite length_app. cbn [length]. rewrite Nat.add_1_r.
      rewrite (take_S_r _ _ _ Hk). f_equal.
      rewrite F1, !take_insert_ge by lia. exact Hpre.
    + intros _. rewrite length_app. cbn [length]. rewrite Nat.add_1_r, F1.
      apply list_lookup_insert_eq. rewrite length_insert. lia.
    + rewrite length_app. cbn [length]. lia.
    + destruct (run (map EvDataWrite bs) s1) as [s2 r2]. cbn [fst snd] in *.
      rewrite length_app in T2, N2. cbn [length] in T2, N2.
      replace (length pre + S (length bs))%nat
        with (length pre + 1 + length bs)%nat by lia.
      rewrite <- app_assoc in T2. cbn [app] in T2.
      rewrite R, R2, O2, O1. auto 10.
Qed.

Lemma map_u8_bytes l : Forall (fun c => 0 < c < 256) l -> map u8 l = l.
Proof.
  induction 1 as [|c l Hc _ IH]; cbn; [reflexivity|].
  rewrite IH, u8_small by lia. reflexivity.
Qed.

(** X4. Sending a non-empty name of at most 63 non-zero bytes under ['F'],
    closed by a stop, leaves exactly that name as the C string of the
    filename array, whatever the array held before; every byte is
    acknowledged and no store leaves the array. *)
Theorem filename_round_trip s name :
  length (Filename s) = 64%nat ->
  name <> [] -> (length name <= 63)%nat ->
  Forall (fun c => 0 < c < 256) name ->
  let r := run (set_filename name) s in
  c_str (Filename (fst r)) = name
  /\ Filename_oob (fst r) = Filename_oob s
  /\ snd r = replicate (2 + length name) Acked ++ [Completed].
Proof.
  intros Hlen Hne Hfit Hbytes. unfold set_filename.
  change (EvAddrWrite :: EvDataWrite chr_F :: map EvDataWrite name ++ [EvStop])
    with ([EvAddrWrite; EvDataWrite chr_F] ++ (map EvDataWrite name ++ [EvStop])).
  cbn zeta. rewrite run_app. cbn [run].
  rewrite on_event_AddrWrite.
  pose proof (name_fields_AddressHostWrite s) as E0.
  pose proof (AddressHostWrite_command s) as C0.
  revert E0 C0. generalize (fst (AddressHostWrite s)). intros s0 E0 C0.
  apply name_fields_eq in E0 as [F0 O0].
  rewrite on_event_command_byte by (auto; unfold chr_F; lia).
  set (s1 := set_rtc_buffer_ptr 0 _).
  destruct (filename_bytes_stored name s1 []) as (R & C & L & T & N & O);
    try (subst s1; cbn; auto; congruence).
  rewrite run_app.
  destruct (run (map EvDataWrite name) s1) as [s2 r2]. cbn [fst snd length] in *.
  cbn [run]. change (on_event EvStop s2) with (Stop s2, Completed).
  cbn [fst snd].
  destruct (name_fields_eq _ _ (name_fields_Stop s2)) as [F2 O2].
  rewrite F2, O2, O. split; [|split].
  - rewrite map_u8_bytes in T by exact Hbytes.
    change (0 + length name)%nat with (length name) in T, N.
    change ([] ++ name) with name in T.
    assert (HF : Filename s2 = name ++ 0 :: drop (S (length name)) (Filename s2)).
    { rewrite <- (take_drop (length name) (Filename s2)) at 1.
      rewrite T. f_equal. apply drop_S. exact N. }
    unfold c_str. rewrite HF at 1.
    rewrite strlen_app_nul.
    + rewrite <- T at 2. reflexivity.
    + eapply Forall_impl; [exact Hbytes|]. cbn. lia.
  - subst s1. cbn. exact O0.
  - rewrite R. reflexivity.
Qed.

End EngineInvariantProofs.

Section EngineTransactionProofs.
Context {Disk : Type} {gw : SdGateway Disk}.
Implicit Types s : State Disk.

Ltac fields s :=
  destruct s as [cmd chv ptrv cnk fname oob fsz vblk vclu vfat clk rbuf rptr
                 mf dcd dce dst dbc dfb des ddo sdata pb2 pb3 dsk cls].

Ltac branches :=
  repeat (case_match; simplify_eq; cbn in * ).


(** ** The file handle *)







End EngineTransactionProofs.

Section EngineDataPaths.
Context {Disk : Type} {gw : SdGateway Disk}.
Implicit Types s : State Disk.

Ltac fields s :=
  destruct s as [cmd chv ptrv cnk fname oob fsz vblk vclu vfat clk rbuf rptr
                 mf dcd dce dst dbc dfb des ddo sdata pb2 pb3 dsk cls].

Ltac branches :=
  repeat (case_match; simplify_eq; cbn in * ).

(** ** Writing and appending *)

Lemma write_byte s b nd :
  (command s = chr_W \/ command s = chr_A) -> myFile s = Some nd ->
  on_event (EvDataWrite b) s
  = (set_myFile (Some (snd (file_write (disk s) nd (u8 b))))
       (set_disk (fst (file_write (disk s) nd (u8 b)))
          (log (File_write (u8 b)) (set_SDATA (u8 b) s))),
     Acked).
Proof.
  intros Hc Hf. rewrite on_event_DataWrite. unfold DataHostWrite. cbn.
  rewrite Hf. destruct Hc as [-> | ->]; cbn;
    destruct (file_write (disk s) nd (u8 b)); reflexivity.
Qed.

(** X7. Under ['W'] or ['A'] with the file open, every data byte is
    acknowledged and handed to the library, in the order received; the
    file stays open and the command stays active. *)
Theorem write_bytes_reach_file bs : forall s,
  (command s = chr_W \/ command s = chr_A) -> isOpen (myFile s) = true ->
  let r := run (map EvDataWrite bs) s in
  snd r = replicate (length bs) Acked
  /\ calls (fst r) = calls s ++ map File_write (map u8 bs)
  /\ isOpen (myFile (fst r)) = true
  /\ command (fst r) = command s.
Proof.
  induction bs as [|b bs IH]; intros s Hc Hf; cbn [map run length].
  - cbn. rewrite app_nil_r. auto.
  - destruct (myFile s) as [nd|] eqn:E; [|discriminate].
    rewrite (write_byte s b nd Hc E).
    set (s1 := set_myFile _ _).
    destruct (IH s1) as (R & C & F & K);
      [subst s1; cbn; exact Hc | reflexivity |].
    destruct (run (map EvDataWrite bs) s1) as [s2 r2]. cbn [fst snd] in *.
    rewrite R, C, K. subst s1. cbn. rewrite <- app_assoc. auto.
Qed.

(** ** Reading *)

Lemma read_byte s nd :
  command s = chr_R -> myFile s = Some nd ->
  on_event (EvDataRead false) s
  = (set_checknack true
       (write_SDATA (snd (file_read nd))
          (set_myFile (Some (fst (file_read nd))) (log File_read s))),
     Sent (u8 (snd (file_read nd)))).
Proof.
  intros Hc Hf. rewrite on_event_read_dispatched by reflexivity.
  unfold DataHostRead. rewrite Hc. cbn. rewrite Hf.
  destruct (file_read nd). reflexivity.
Qed.

Lemma file_read_unread nd :
  n_unread (fst (file_read nd)) = tail (n_unread nd)
  /\ snd (file_read nd) = nth 0 (n_unread nd) (-1).
Proof. destruct nd as [d m z [|b u] p]; cbn; auto. Qed.

Lemma read_run n : forall s nd,
  command s = chr_R -> myFile s = Some nd ->
  let r := run (replicate n (EvDataRead false)) s in
  snd r = map (fun i => Sent (u8 (nth i (n_unread nd) (-1)))) (seq 0 n)
  /\ calls (fst r) = calls s ++ replicate n File_read
  /\ command (fst r) = chr_R
  /\ (exists nd', myFile (fst r) = Some nd'
                  /\ n_unread nd' = drop n (n_unread nd)).
Proof.
  induction n as [|n IH]; intros s nd Hc Hf; cbn [replicate run seq map].
  - cbn. rewrite app_nil_r, drop_0. eauto 10.
  - rewrite (read_byte s nd Hc Hf).
    destruct (file_read_unread nd) as [Hu Hb].
    set (s1 := set_checknack true _).
    destruct (IH s1 (fst (file_read nd))) as (R & C & K & nd' & F & U);
      [subst s1; cbn; exact Hc | reflexivity |].
    destruct (run (replicate n (EvDataRead false)) s1) as [s2 r2].
    cbn [fst snd] in *. rewrite R, C, Hb, Hu. subst s1. cbn.
    split; [|split; [|split; [exact K|]]].
    + f_equal. rewrite <- seq_shift, map_map.
      apply map_ext. intros i. destruct (n_unread nd); [destruct i|]; reflexivity.
    + rewrite <- app_assoc. reflexivity.
    + exists nd'. split; [exact F|]. rewrite U, Hu.
      destruct (n_unread nd); [cbn; rewrite !drop_nil|]; reflexivity.
Qed.


(** X8. Under ['R'] successive read requests return the unread bytes of the
    file in order and 0xFF once they are exhausted; each request is one
    [read] call, and the file is left open. *)
Theorem read_bytes_stream n : forall s nd,
  command s = chr_R -> myFile s = Some nd ->
  let r := run (replicate n (EvDataRead false)) s in
  snd r = map (fun i => Sent (u8 (nth i (n_unread nd) (-1)))) (seq 0 n)
  /\ calls (fst r) = calls s ++ replicate n File_read
  /\ (exists nd', myFile (fst r) = Some nd'
                  /\ n_unread nd' = drop n (n_unread nd)).
Proof.
  intros s nd Hc Hf. destruct (read_run n s nd Hc Hf) as (R & C & _ & F). auto.
Qed.

(** ** The is-directory probe *)

(** X9. A read request under ['K'] opens the path, answers 1 exactly when
    it is a directory, lights the green LED in that case and the red one
    otherwise, and closes the probe handle whenever the open succeeded;
    [myFile] and the listing handles are not touched. *)
Theorem directory_probe_closes_handle s :
  command s = chr_K ->
  let f := snd (sd_open (disk s) (c_str (Filename s)) O_READ_mode) in
  let r := on_event (EvDataRead false) s in
  snd r = Sent (Z_of_bool (is_directory f))
  /\ calls (fst r) = calls s ++ probe_calls (c_str (Filename s)) f
  /\ PB2 (fst r) = Z_of_bool (is_directory f)
  /\ PB3 (fst r) = Z_of_bool (negb (is_directory f))
  /\ myFile (fst r) = myFile s
  /\ cursor (fst r) = cursor s.
Proof.
  intros Hc. cbn zeta. rewrite on_event_read_dispatched by reflexivity.
  unfold DataHostRead, do_open, do_isDirectory, probe_calls, is_directory, cursor.
  rewrite Hc. cbn.
  destruct (sd_open (disk s) (c_str (Filename s)) O_READ_mode) as [d [[[] m z u p]|]];
    cbn; rewrite <- ?app_assoc; auto 10.
Qed.

End EngineDataPaths.

Section EngineFileOwnership.
Context {Disk : Type} {gw : SdGateway Disk}.
Implicit Types s : State Disk.

Ltac fields s :=
  destruct s as [cmd chv ptrv cnk fname oob fsz vblk vclu vfat clk rbuf rptr
                 mf dcd dce dst dbc dfb des ddo sdata pb2 pb3 dsk cls].

Ltac branches :=
  repeat (case_match; simplify_eq; cbn in * ).


(** ** Who owns [myFile] *)










End EngineFileOwnership.

Section EngineRepeatedRequests.
Context {Disk : Type} {gw : SdGateway Disk}.
Implicit Types s : State Disk.

Ltac fields s :=
  destruct s as [cmd chv ptrv cnk fname oob fsz vblk vclu vfat clk rbuf rptr
                 mf dcd dce dst dbc dfb des ddo sdata pb2 pb3 dsk cls].

Ltac branches :=
  repeat (case_match; simplify_eq; cbn in * ).

(** ** One read request per byte *)

(** No response depends on [checknack]. *)
Lemma DataHostRead_checknack c s :
  DataHostRead (set_checknack c s) = set_checknack c (DataHostRead s).
Proof.
  fields s.
  unfold DataHostRead, dirList_switch, dirList_send_type, do_openNextFile, do_open,
    do_path_op, do_isDirectory, do_size, do_name. cbn.
  branches; reflexivity.
Qed.

Lemma set_checknack_twice a b s : set_checknack a (set_checknack b s) = set_checknack a s.
Proof. fields s. reflexivity. Qed.

Lemma command_DataHostRead s : command (DataHostRead s) = command s.
Proof.
  fields s.
  unfold DataHostRead, dirList_switch, dirList_send_type, do_openNextFile, do_open,
    do_path_op, do_isDirectory, do_size, do_name. cbn.
  branches; reflexivity.
Qed.

Lemma read_after_absorbed s c :
  on_event (EvDataRead false) (set_checknack c s) = on_event (EvDataRead false) s.
Proof.
  rewrite !on_event_read_dispatched by reflexivity.
  rewrite DataHostRead_checknack, set_checknack_twice.
  generalize (DataHostRead s). intros x. fields x. reflexivity.
Qed.

Lemma poll_step s :
  command s <> chr_V -> command s <> chr_S ->
  run poll s
  = (set_checknack false (fst (on_event (EvDataRead false) s)),
     [Acked; snd (on_event (EvDataRead false) s); Absorbed]).
Proof.
  intros HV HS. unfold poll. cbn [run]. rewrite on_event_AddrRead.
  apply Z.eqb_neq in HV, HS. rewrite HV, HS. cbn [orb].
  rewrite on_event_read_dispatched by reflexivity.
  rewrite on_event_read_absorbed by reflexivity.
  cbn [fst snd]. reflexivity.
Qed.

Lemma emits_inv s b bs s' :
  emits s (b :: bs) s' ->
  snd (on_event (EvDataRead false) s) = Sent b
  /\ emits (fst (on_event (EvDataRead false) s)) bs s'.
Proof.
  unfold emits. cbn [length replicate run map].
  destruct (on_event (EvDataRead false) s) as [s1 r]. cbn [fst snd].
  destruct (run (replicate (length bs) (EvDataRead false)) s1) as [s2 rs].
  intros [= -> -> ->]. auto.
Qed.

Lemma emits_after_absorbed s c bs s' :
  bs <> [] -> emits s bs s' -> emits (set_checknack c s) bs s'.
Proof.
  destruct bs as [|b bs]; [congruence|]. intros _.
  unfold emits. cbn [length replicate run map].
  rewrite read_after_absorbed. auto.
Qed.

Lemma command_after_read s :
  command (set_checknack false (fst (on_event (EvDataRead false) s))) = command s.
Proof.
  rewrite on_event_read_dispatched by reflexivity. cbn [fst].
  rewrite <- (command_DataHostRead s).
  generalize (DataHostRead s). intros x. fields x. reflexivity.
Qed.

(** X11. Outside ['V'] and ['S'] a response can be fetched one read
    request at a time: what a single request of [n] bytes would return is
    returned byte for byte by [n] requests of one byte, each with its own
    read address match and closing NACK. *)
Theorem response_survives_single_byte_requests bytes : forall s s',
  command s <> chr_V -> command s <> chr_S ->
  emits s bytes s' ->
  run (polls (length bytes)) s
  = (match bytes with [] => s' | _ => set_checknack false s' end,
     concat (map polled bytes)).
Proof.
  induction bytes as [|b bs IH]; intros s s' HV HS He.
  - unfold emits in He. cbn in He. injection He as <-. reflexivity.
  - apply emits_inv in He. destruct He as [Hb He].
    change (polls (length (b :: bs))) with (poll ++ polls (length bs)).
    rewrite run_app, (poll_step s HV HS), Hb.
    set (s1 := set_checknack false (fst (on_event (EvDataRead false) s))).
    assert (C : command s1 = command s) by apply command_after_read.
    destruct bs as [|b' bs'].
    + unfold emits in He. cbn in He. injection He as <-. reflexivity.
    + apply (emits_after_absorbed _ false) in He; [|discriminate].
      fold s1 in He.
      rewrite (IH s1 s') by (rewrite ?C; assumption). reflexivity.
Qed.

(** ** The file size under single-byte requests *)

Lemma size_poll s :
  command s = chr_S ->
  exists s', run poll s = (s', polled (nth 0 (be32 (myFile_size s)) 0))
             /\ command s' = chr_S /\ myFile s' = myFile s
             /\ calls s' = calls s ++ [File_size].
Proof.
  intros Hc. unfold poll. cbn [run]. rewrite on_event_AddrRead, Hc. cbn [orb Z.eqb].
  replace ((chr_S =? chr_V) || (chr_S =? chr_S)) with true by reflexivity.
  rewrite on_event_read_dispatched by reflexivity. cbv beta iota.
  rewrite on_event_read_absorbed by reflexivity. cbv beta iota.
  rewrite (DataHostRead_S (set_ptr 0 s)) by exact Hc.
  fields s. cbn in Hc. subst cmd. unfold do_size, Filebytes, myFile_size, log, write_SDATA.
  cbn. eexists. split.
  - unfold polled, be32. cbn [nth]. rewrite u8_shr_byte. reflexivity.
  - repeat split; reflexivity.
Qed.

(** X12. Under ['S'] every read address match restarts the response:
    [n] single-byte requests all return the most significant byte of the
    size, and each of them asks the library for the size again. *)
Theorem size_restarts_at_each_read_address n : forall s,
  command s = chr_S ->
  let r := run (polls n) s in
  snd r = concat (replicate n (polled (nth 0 (be32 (myFile_size s)) 0)))
  /\ calls (fst r) = calls s ++ replicate n File_size.
Proof.
  induction n as [|n IH]; intros s Hc; cbn zeta.
  - cbn. rewrite app_nil_r. auto.
  - change (polls (S n)) with (poll ++ polls n). rewrite run_app.
    destruct (size_poll s Hc) as (s1 & -> & Hc1 & Hf & Hl).
    specialize (IH s1 Hc1). cbn zeta in IH.
    destruct (run (polls n) s1) as [s2 r2]. cbn [fst snd] in *.
    destruct IH as [-> ->]. unfold myFile_size. rewrite Hf, Hl, <- app_assoc.
    auto.
Qed.

End EngineRepeatedRequests.

(** * The demo host against the engine *)

Section HostProofs.
Context {Disk : Type} {gw : SdGateway Disk}.
Implicit Types s : State Disk.

Ltac fields s :=
  destruct s as [cmd chv ptrv cnk fname oob fsz vblk vclu vfat clk rbuf rptr
                 mf dcd dce dst dbc dfb des ddo sdata pb2 pb3 dsk cls].

Ltac branches :=
  repeat (case_match; simplify_eq; cbn in * ).

(** ** The bus *)

Lemma write_bytes_run buffer : forall s,
  snd (run (map EvDataWrite buffer) s) = replicate (length buffer) Acked ->
  Host.write_bytes buffer s = (fst (run (map EvDataWrite buffer) s), true).
Proof.
  induction buffer as [|b buffer IH]; intros s; cbn [map run Host.write_bytes length replicate].
  - reflexivity.
  - destruct (on_event (EvDataWrite b) s) as [s1 r].
    specialize (IH s1). destruct (run (map EvDataWrite buffer) s1) as [s2 rs].
    cbn [fst snd] in *. intros [= -> Hrs]. apply IH. exact Hrs.
Qed.

Lemma endTransmission_run buffer sendStop s :
  snd (run (map EvDataWrite buffer) (fst (AddressHostWrite s)))
  = replicate (length buffer) Acked ->
  Host.endTransmission buffer sendStop s
  = (fst (run (transmission buffer sendStop) s), 0).
Proof.
  intros H. unfold Host.endTransmission, transmission. cbn [run].
  rewrite on_event_AddrWrite. rewrite (write_bytes_run _ _ H).
  rewrite run_app.
  destruct (run (map EvDataWrite buffer) (fst (AddressHostWrite s))) as [s1 r1].
  cbn [fst snd]. destruct sendStop; cbn [run]; [|reflexivity].
  destruct (on_event EvStop s1). reflexivity.
Qed.

Lemma received_Sent bytes : Host.received (map Sent bytes) = bytes.
Proof.
  unfold Host.received. induction bytes as [|b bytes IH]; cbn; [reflexivity|].
  f_equal. exact IH.
Qed.

Lemma emits_checknack bytes : forall s s',
  bytes <> [] -> emits s bytes s' -> checknack s' = true.
Proof.
  induction bytes as [|b bytes IH]; intros s s' Hne He; [congruence|].
  unfold emits in He. cbn [length replicate run map] in He.
  rewrite on_event_read_dispatched in He by reflexivity.
  destruct bytes as [|b' bytes].
  - cbn in He. injection He as <- _. reflexivity.
  - set (s1 := set_checknack true (DataHostRead s)) in He.
    apply (IH s1 s'); [discriminate|]. unfold emits.
    destruct (run (replicate (length (b' :: bytes)) (EvDataRead false)) s1) as [s2 rs].
    injection He as -> _ ->. reflexivity.
Qed.

(** A request answered from a stream. *)
Lemma requestFrom_emits bytes sendStop s s' :
  bytes <> [] ->
  emits (fst (on_event EvAddrRead s)) bytes s' ->
  Host.requestFrom (length bytes) sendStop s
  = (if sendStop then Stop (set_checknack false s') else set_checknack false s', bytes).
Proof.
  intros Hne He. unfold Host.requestFrom.
  destruct (on_event EvAddrRead s) as [s0 r0]. cbn [fst] in He.
  pose proof (emits_checknack bytes s0 s' Hne He) as Hck.
  unfold emits in He. rewrite He. cbv beta iota.
  rewrite on_event_read_absorbed by exact Hck. cbv beta iota.
  rewrite received_Sent. destruct sendStop; reflexivity.
Qed.


(** ** Transactions on a quiet engine *)

Lemma dirList_cleanup_quiet s : dirList_dirOpen s = false -> dirList_cleanup s = s.
Proof. intros H. unfold dirList_cleanup. rewrite H. reflexivity. Qed.

Lemma AddressHostWrite_quiet s :
  dirList_dirOpen s = false ->
  fst (AddressHostWrite s)
  = set_dirList_byteCounter 0
      (set_dirList_state DIR_STREAM_IDLE (before_cleanup_AddressHostWrite s)).
Proof.
  intros H. rewrite AddressHostWrite_split, dirList_cleanup_quiet; [reflexivity|].
  pose proof (before_cleanup_AddressHostWrite_cursor s) as E.
  apply (f_equal snd) in E.
  change (dirList_dirOpen (before_cleanup_AddressHostWrite s) = dirList_dirOpen s) in E.
  rewrite E. exact H.
Qed.

Lemma Stop_quiet s :
  dirList_dirOpen s = false ->
  Stop s
  = set_rtc_buffer_ptr 0
      (set_ptr 0
         (set_ch 0
            (set_command 0
               (set_dirList_byteCounter 0
                  (set_dirList_state DIR_STREAM_IDLE (before_cleanup_Stop s)))))).
Proof.
  intros H. rewrite Stop_split, dirList_cleanup_quiet; [reflexivity|].
  pose proof (before_cleanup_Stop_cursor s) as E.
  apply (f_equal snd) in E.
  change (dirList_dirOpen (before_cleanup_Stop s) = dirList_dirOpen s) in E.
  rewrite E. exact H.
Qed.

(** ** Setting the clock *)

Lemma rtc_buffer_AddressHostWrite s :
  rtc_buffer (fst (AddressHostWrite s)) = rtc_buffer s.
Proof.
  rewrite AddressHostWrite_split.
  pose proof (bounded_fields_dirList_cleanup (before_cleanup_AddressHostWrite s)) as E.
  revert E. generalize (dirList_cleanup (before_cleanup_AddressHostWrite s)).
  intros x E. unfold bounded_fields in E.
  injection E as _ E _ _ _ _ _ _ _ _ _.
  transitivity (rtc_buffer x); [fields x; reflexivity|].
  rewrite E. fields s. reflexivity.
Qed.

Lemma clock_bytes_stored bs : forall s pre,
  command s = chr_C ->
  rtc_buffer_ptr s = Z.of_nat (length pre) ->
  length (rtc_buffer s) = 6%nat ->
  take (length pre) (rtc_buffer s) = pre ->
  (length pre + length bs <= 6)%nat ->
  let r := run (map EvDataWrite bs) s in
  snd r = replicate (length bs) Acked
  /\ command (fst r) = chr_C
  /\ rtc_buffer_ptr (fst r) = Z.of_nat (length pre + length bs)
  /\ length (rtc_buffer (fst r)) = 6%nat
  /\ take (length pre + length bs) (rtc_buffer (fst r)) = pre ++ map u8 bs.
Proof.
  induction bs as [|b bs IH]; intros s pre Hc Hp Hlen Hpre Hfit; cbn [map run length].
  - cbn. rewrite Nat.add_0_r, app_nil_r. auto.
  - cbn [length] in Hfit.
    rewrite clock_byte_accepted by (auto; lia).
    set (s1 := set_rtc_buffer_ptr _ _).
    assert (F1 : rtc_buffer s1 = <[length pre := u8 b]> (rtc_buffer s)).
    { subst s1. cbn. rewrite Hp, Nat2Z.id. reflexivity. }
    assert (Hk : rtc_buffer s1 !! length pre = Some (u8 b)).
    { rewrite F1. apply list_lookup_insert_eq. lia. }
    destruct (IH s1 (pre ++ [u8 b])) as (R2 & C2 & P2 & L2 & T2).
    + subst s1. cbn. exact Hc.
    + subst s1. cbn. rewrite Hp, length_app. cbn. lia.
    + rewrite F1, length_insert. exact Hlen.
    + rewrite length_app. cbn [length]. rewrite Nat.add_1_r.
      rewrite (take_S_r _ _ _ Hk). f_equal.
      rewrite F1, take_insert_ge by lia. exact Hpre.
    + rewrite length_app. cbn [length]. lia.
    + destruct (run (map EvDataWrite bs) s1) as [s2 r2]. cbn [fst snd] in *.
      rewrite length_app in P2, T2. cbn [length] in P2, T2.
      replace (length pre + S (length bs))%nat
        with (length pre + 1 + length bs)%nat by lia.
      rewrite <- app_assoc in T2. cbn [app] in T2.
      rewrite R2. auto 10.
Qed.

(** X13. [setBridgeTime] sends the year modulo 100 and the engine expands
    it around 1980..2079: with a month, day, hour, minute and second in
    range the clock is committed with the expanded year, which is the year
    given exactly when that lies in 1980..2079. *)
Theorem setBridgeTime_sets_clock year month day hour minute second s :
  length (rtc_buffer s) = 6%nat ->
  0 <= year < 65536 ->
  1 <= month <= 12 -> 1 <= day <= 31 ->
  0 <= hour <= 23 -> 0 <= minute <= 59 -> 0 <= second <= 59 ->
  let r := Host.setBridgeTime year month day hour minute second s in
  snd r = true
  /\ clock (fst r) = MkClock (expand_year (year mod 100)) month day hour minute second
  /\ (expand_year (year mod 100) = year <-> 1980 <= year <= 2079).
Proof.
  intros Hlen Hy Hmo Hd Hh Hmi Hs. cbn zeta. unfold Host.setBridgeTime.
  assert (Hyy : 0 <= year mod 100 < 100) by (apply Z.mod_pos_bound; lia).
  rewrite (u8_small (year mod 100)) by lia.
  set (bs := [year mod 100; month; day; hour; minute; second]).
  pose proof (rtc_buffer_AddressHostWrite s) as Hb0.
  pose proof (AddressHostWrite_command s) as Hc0.
  assert (Hrun : exists s2,
            run (map EvDataWrite (chr_C :: bs)) (fst (AddressHostWrite s))
            = (s2, replicate 7 Acked)
            /\ command s2 = chr_C /\ rtc_buffer_ptr s2 = 6 /\ rtc_buffer s2 = bs).
  { revert Hb0 Hc0. generalize (fst (AddressHostWrite s)). intros s0 Hb0 Hc0.
    cbn [map run].
    rewrite on_event_command_byte by (auto; unfold chr_C; lia).
    set (s1 := set_rtc_buffer_ptr 0 _).
    destruct (clock_bytes_stored bs s1 []) as (R & C & P & L & T);
      try (subst s1; cbn; auto; congruence).
    destruct (run (map EvDataWrite bs) s1) as [s2 r2]. cbn [fst snd] in *.
    exists s2. rewrite R. split; [reflexivity|]. split; [exact C|].
    split; [exact P|].
    rewrite <- (take_ge (rtc_buffer s2) 6) by lia.
    change (take 6 (rtc_buffer s2) = map u8 bs) in T. rewrite T.
    subst bs. cbn [map]. rewrite !u8_small by lia. reflexivity. }
  destruct Hrun as (s2 & Hrun & Hc2 & Hp2 & Hbuf).
  rewrite (endTransmission_run (chr_C :: bs) true s)
    by (rewrite Hrun; reflexivity).
  unfold transmission.
  change (EvAddrWrite :: map EvDataWrite (chr_C :: bs) ++ [EvStop])
    with ((EvAddrWrite :: map EvDataWrite (chr_C :: bs)) ++ [EvStop]).
  rewrite run_stop. cbn [run]. rewrite on_event_AddrWrite, Hrun. cbn [fst snd].
  split; [reflexivity|]. split.
  - rewrite Stop_clock, Hc2, Hp2, Hbuf.
    assert (A0 : arr_get bs 0 = year mod 100) by reflexivity.
    assert (A1 : arr_get bs 1 = month) by reflexivity.
    assert (A2 : arr_get bs 2 = day) by reflexivity.
    assert (A3 : arr_get bs 3 = hour) by reflexivity.
    assert (A4 : arr_get bs 4 = minute) by reflexivity.
    assert (A5 : arr_get bs 5 = second) by reflexivity.
    assert (Hv : rtc_valid bs = true).
    { apply rtc_valid_spec. unfold clock_bytes_in_range.
      rewrite A0, A1, A2, A3, A4, A5.
      pose proof (expand_year_ge_1980 (year mod 100)). lia. }
    fold bs. rewrite Hv, rtc_year_expand, A0, A1, A2, A3, A4, A5. reflexivity.
  - unfold expand_year. destruct (Z_lt_dec (year mod 100) 80); split; intros; try lia.
    + assert (year = 100 * (year / 100) + year mod 100) by (apply Z.div_mod; lia). lia.
    + assert (year = 100 * (year / 100) + year mod 100) by (apply Z.div_mod; lia). lia.
Qed.


(** ** Sending the filename *)

Lemma kept_fields_AddressHostWrite s :
  dirList_dirOpen s = false ->
  kept s (fst (AddressHostWrite s))
  /\ dirList_state (fst (AddressHostWrite s)) = DIR_STREAM_IDLE
  /\ checknack (fst (AddressHostWrite s)) = checknack s.
Proof.
  intros H. rewrite (AddressHostWrite_quiet s H). fields s. unfold kept. cbn. auto 20.
Qed.

Lemma kept_fields_Stop s :
  dirList_dirOpen s = false ->
  isOpen (myFile s) && file_command (command s) = false ->
  command s <> chr_C ->
  kept s (Stop s)
  /\ dirList_state (Stop s) = DIR_STREAM_IDLE
  /\ checknack (Stop s) = false
  /\ command (Stop s) = 0.
Proof.
  intros H Hf Hc. rewrite (Stop_quiet s H). fields s. cbn in *.
  apply Z.eqb_neq in Hc. unfold kept, before_cleanup_Stop, file_command in *. cbn.
  rewrite Hc. cbn. rewrite Hf. cbn. auto 20.
Qed.

Lemma filename_byte_frame s b :
  command s = chr_F ->
  let s' := fst (on_event (EvDataWrite b) s) in
  command s' = chr_F
  /\ disk s' = disk s /\ calls s' = calls s /\ myFile s' = myFile s
  /\ clock s' = clock s /\ cursor s' = cursor s /\ checknack s' = checknack s.
Proof.
  intros Hc. cbn zeta. rewrite on_event_DataWrite. fields s. cbn in *. subst cmd.
  unfold DataHostWrite, Filename_store. cbn. branches; auto 10.
Qed.

Lemma filename_bytes_frame bs : forall s,
  command s = chr_F ->
  let s' := fst (run (map EvDataWrite bs) s) in
  command s' = chr_F
  /\ disk s' = disk s /\ calls s' = calls s /\ myFile s' = myFile s
  /\ clock s' = clock s /\ cursor s' = cursor s /\ checknack s' = checknack s.
Proof.
  induction bs as [|b bs IH]; intros s Hc; cbn [map run]; [cbn; auto 10|].
  destruct (filename_byte_frame s b Hc) as (C1 & A1 & A2 & A3 & A4 & A5 & A6).
  destruct (on_event (EvDataWrite b) s) as [s1 r1]. cbn [fst] in *.
  destruct (IH s1 C1) as (C2 & B1 & B2 & B3 & B4 & B5 & B6).
  destruct (run (map EvDataWrite bs) s1) as [s2 r2]. cbn [fst] in *.
  rewrite B1, B2, B3, B4, B5, B6. auto 10.
Qed.

(** The filename transaction on a quiet engine. *)
Lemma sendFilename_ok s name :
  quiet s -> sendable name ->
  exists s', Host.sendFilename name s = (s', true)
    /\ c_str (Filename s') = name
    /\ quiet s'
    /\ command s' = 0
    /\ checknack s' = false
    /\ (disk s', calls s', myFile s', clock s') = (disk s, calls s, myFile s, clock s).
Proof.
  intros [Hlen Hq] (Hne & Hfit & Hbytes).
  assert (Ho : dirList_dirOpen s = false).
  { unfold no_listing_handle, cursor in Hq. congruence. }
  destruct (kept_fields_AddressHostWrite s Ho) as (K0 & St0 & Ck0).
  pose proof (AddressHostWrite_command s) as C0.
  unfold Host.sendFilename.
  assert (Hrun : exists s2,
            run (map EvDataWrite (chr_F :: name)) (fst (AddressHostWrite s))
            = (s2, replicate (length (chr_F :: name)) Acked)
            /\ command s2 = chr_F
            /\ c_str (Filename s2) = name
            /\ length (Filename s2) = 64%nat
            /\ (disk s2, calls s2, myFile s2, clock s2)
               = (disk s, calls s, myFile s, clock s)
            /\ dirList_currentDir s2 = None /\ dirList_currentEntry s2 = None
            /\ dirList_dirOpen s2 = false).
  { revert K0 St0 Ck0 C0. generalize (fst (AddressHostWrite s)).
    intros s0 K0 St0 Ck0 C0.
    destruct K0 as (D0 & L0 & M0 & T0 & F0 & O0 & Cd0 & Ce0 & Do0).
    cbn [map run].
    rewrite on_event_command_byte by (auto; unfold chr_F; lia).
    set (s1 := set_rtc_buffer_ptr 0 _).
    destruct (filename_bytes_stored name s1 []) as (R & C & L & T & N & O);
      try (subst s1; cbn; auto; congruence).
    { cbn. lia. }
    destruct (filename_bytes_frame name s1) as (_ & E1 & E2 & E3 & E4 & E5 & _);
      [reflexivity|].
    destruct (run (map EvDataWrite name) s1) as [s2 r2]. cbn [fst snd length] in *.
    exists s2. rewrite R. split; [reflexivity|]. split; [exact C|].
    split; [|split; [exact L|]].
    - rewrite map_u8_bytes in T by exact Hbytes.
      change (0 + length name)%nat with (length name) in T, N.
      change ([] ++ name) with name in T.
      assert (HF : Filename s2 = name ++ 0 :: drop (S (length name)) (Filename s2)).
      { rewrite <- (take_drop (length name) (Filename s2)) at 1.
        rewrite T. f_equal. apply drop_S. exact N. }
      unfold c_str. rewrite HF at 1.
      rewrite strlen_app_nul.
      + rewrite <- T at 2. reflexivity.
      + eapply Forall_impl; [exact Hbytes|]. cbn. lia.
    - unfold no_listing_handle, cursor in Hq. injection Hq as Q1 Q2 Q3 Q4.
      apply (f_equal (fun c => (fst (fst (fst c)), snd (fst (fst c)), snd c))) in E5.
      unfold cursor in E5. subst s1. cbn in E1, E2, E3, E4, E5.
      injection E5 as E5 E6 E7.
      rewrite E1, E2, E3, E4, E5, E6, E7, D0, L0, M0, T0, Cd0, Ce0, Do0. auto. }
  destruct Hrun as (s2 & Hrun & C2 & N2 & L2 & E2 & Cd2 & Ce2 & Ho2).
  rewrite (endTransmission_run (chr_F :: name) true s) by (rewrite Hrun; reflexivity).
  unfold transmission.
  change (EvAddrWrite :: map EvDataWrite (chr_F :: name) ++ [EvStop])
    with ((EvAddrWrite :: map EvDataWrite (chr_F :: name)) ++ [EvStop]).
  rewrite run_stop. cbn [run]. rewrite on_event_AddrWrite, Hrun. cbn [fst snd].
  injection E2 as D2 Lg2 M2 T2.
  destruct (kept_fields_Stop s2 Ho2) as (K3 & St3 & Ck3 & C3).
  { rewrite C2. apply andb_false_r. }
  { rewrite C2. discriminate. }
  destruct K3 as (D3 & L3 & M3 & T3 & F3 & O3 & Cd3 & Ce3 & Do3).
  exists (Stop s2). split; [reflexivity|].
  split; [rewrite F3; exact N2|]. split.
  { split; [rewrite F3; exact L2|]. unfold no_listing_handle, cursor.
    rewrite Cd3, Ce3, Do3, St3.
    rewrite Cd2, Ce2, Ho2. reflexivity. }
  split; [exact C3|]. split; [exact Ck3|].
  rewrite D3, L3, M3, T3, D2, Lg2, M2, T2. reflexivity.
Qed.


(** ** A command and its single-byte answer *)

Lemma kept_refl s : kept s s.
Proof. unfold kept. auto 20. Qed.

Lemma kept_trans s1 s2 s3 : kept s1 s2 -> kept s2 s3 -> kept s1 s3.
Proof.
  unfold kept.
  intros (A1 & A2 & A3 & A4 & A5 & A6 & A7 & A8 & A9)
         (B1 & B2 & B3 & B4 & B5 & B6 & B7 & B8 & B9).
  rewrite B1, B2, B3, B4, B5, B6, B7, B8, B9. auto 20.
Qed.

(** The command byte of a command that opens no file. *)
Lemma command_sent s c :
  dirList_dirOpen s = false ->
  no_file_command c = true -> 0 <= c < 256 ->
  exists s', Host.endTransmission [c] false s = (s', 0)
    /\ command s' = c /\ ptr s' = 0 /\ kept s s'
    /\ dirList_state s' = DIR_STREAM_IDLE
    /\ checknack s' = checknack s.
Proof.
  intros Ho Hn Hc.
  destruct (kept_fields_AddressHostWrite s Ho) as (K0 & St0 & Ck0).
  pose proof (AddressHostWrite_command s) as C0.
  assert (Hrun : run (map EvDataWrite [c]) (fst (AddressHostWrite s))
                 = (set_rtc_buffer_ptr 0 (set_ch 0 (set_ptr 0 (set_command c
                      (set_SDATA c (fst (AddressHostWrite s)))))), [Acked])).
  { cbn [map run]. rewrite on_event_command_byte by auto. reflexivity. }
  rewrite (endTransmission_run [c] false s) by (rewrite Hrun; reflexivity).
  unfold transmission. cbn [app map]. 
  change [EvAddrWrite; EvDataWrite c] with ([EvAddrWrite] ++ map EvDataWrite [c]).
  rewrite run_app. cbn [run]. rewrite on_event_AddrWrite. cbv beta iota.
  rewrite Hrun. cbn [fst].
  revert K0 St0 Ck0 C0. generalize (fst (AddressHostWrite s)).
  intros s0 K0 St0 Ck0 C0. eexists. split; [reflexivity|].
  fields s0. unfold kept in *. cbn in *. auto 20.
Qed.

(** One byte requested from a command other than ['V'] and ['S']. *)
Lemma request_one s sendStop :
  command s <> chr_V -> command s <> chr_S ->
  Host.requestFrom 1 sendStop s
  = (let s1 := set_checknack false (DataHostRead s) in
     if sendStop then Stop s1 else s1, [SDATA (DataHostRead s)]).
Proof.
  intros HV HS. unfold Host.requestFrom. rewrite on_event_AddrRead.
  apply Z.eqb_neq in HV, HS. rewrite HV, HS. cbn [orb replicate run].
  rewrite on_event_read_dispatched by reflexivity. cbv beta iota.
  rewrite on_event_read_absorbed by reflexivity.
  rewrite set_checknack_twice. cbn [Host.received omap]. destruct sendStop; reflexivity.
Qed.

Lemma empty_transmission s :
  dirList_dirOpen s = false ->
  kept s (fst (Host.endTransmission [] true s))
  /\ dirList_state (fst (Host.endTransmission [] true s)) = DIR_STREAM_IDLE.
Proof.
  intros Ho. unfold Host.endTransmission. rewrite on_event_AddrWrite.
  cbn [Host.write_bytes fst snd].
  change (fst (on_event EvStop (fst (AddressHostWrite s))))
    with (Stop (fst (AddressHostWrite s))).
  destruct (kept_fields_AddressHostWrite s Ho) as (K0 & St0 & Ck0).
  pose proof (AddressHostWrite_command s) as C0.
  revert K0 St0 Ck0 C0. generalize (fst (AddressHostWrite s)).
  intros s0 K0 St0 Ck0 C0.
  destruct (kept_fields_Stop s0) as (K1 & St1 & _).
  - destruct K0 as (_ & _ & _ & _ & _ & _ & _ & _ & ->). exact Ho.
  - rewrite C0. apply andb_false_r.
  - rewrite C0. discriminate.
  - split; [exact (kept_trans _ _ _ K0 K1) | exact St1].
Qed.

Lemma DataHostRead_E s :
  command s = chr_E ->
  DataHostRead s
  = write_SDATA (Z_of_bool (snd (sd_exists (disk s) (c_str (Filename s)))))
      (set_disk (fst (sd_exists (disk s) (c_str (Filename s))))
         (log (SD_exists (c_str (Filename s))) s)).
Proof.
  intros H. unfold DataHostRead, do_path_op. rewrite H. cbn.
  destruct (sd_exists (disk s) (c_str (Filename s))). reflexivity.
Qed.


Lemma read_E_facts s :
  command s = chr_E ->
  let s' := DataHostRead s in
  let r := sd_exists (disk s) (c_str (Filename s)) in
  SDATA s' = Z_of_bool (snd r)
  /\ calls s' = calls s ++ [SD_exists (c_str (Filename s))]
  /\ disk s' = fst r
  /\ command s' = chr_E
  /\ dirList_dirOpen s' = dirList_dirOpen s
  /\ myFile s' = myFile s.
Proof.
  intros H. cbn zeta. rewrite (DataHostRead_E s H). fields s. cbn in *.
  rewrite u8_Z_of_bool. auto 10.
Qed.

Lemma read_K_facts s :
  command s = chr_K ->
  let s' := DataHostRead s in
  let f := snd (sd_open (disk s) (c_str (Filename s)) O_READ_mode) in
  SDATA s' = Z_of_bool (is_directory f)
  /\ calls s' = calls s ++ probe_calls (c_str (Filename s)) f
  /\ command s' = chr_K
  /\ dirList_dirOpen s' = dirList_dirOpen s
  /\ myFile s' = myFile s.
Proof.
  intros Hc. cbn zeta.
  unfold DataHostRead, do_open, do_isDirectory, probe_calls, is_directory.
  rewrite Hc. cbn.
  destruct (sd_open (disk s) (c_str (Filename s)) O_READ_mode) as [d [[[] m z u p]|]];
    cbn; rewrite <- ?app_assoc; auto 10.
Qed.

(** What a stop, and the empty transmission some functions add, keep of the
    state a query has left. *)
Lemma query_closed x (extra : bool) :
  dirList_dirOpen x = false ->
  file_command (command x) = false -> command x <> chr_C ->
  let fin := if extra then fst (Host.endTransmission [] true (Stop x)) else Stop x in
  kept x fin.
Proof.
  intros Ho Hf Hc. cbn zeta.
  destruct (kept_fields_Stop x Ho) as (K1 & St1 & Ck1 & C1);
    [rewrite Hf; apply andb_false_r | exact Hc |].
  destruct extra; [|exact K1].
  destruct (empty_transmission (Stop x)) as [K2 _].
  - destruct K1 as (_ & _ & _ & _ & _ & _ & _ & _ & ->). exact Ho.
  - exact (kept_trans _ _ _ K1 K2).
Qed.

(** X14. [checkExists] returns what the library answers for the path sent:
    [SD.exists] for a file query, and for a directory query whether the
    path opens as a directory.  The library is consulted once, and a
    handle opened for the probe is closed again. *)
Theorem checkExists_answer path (isDirectory : bool) s :
  quiet s -> sendable path ->
  let r := Host.checkExists path isDirectory s in
  let f := snd (sd_open (disk s) path O_READ_mode) in
  snd r = (if isDirectory then is_directory f else snd (sd_exists (disk s) path))
  /\ calls (fst r)
     = calls s ++ (if isDirectory then probe_calls path f else [SD_exists path]).
Proof.
  intros Hq Hs. cbn zeta. unfold Host.checkExists.
  destruct (sendFilename_ok s path Hq Hs) as (s1 & -> & N1 & [L1 Q1] & C1 & Ck1 & E1).
  cbn [negb]. injection E1 as D1 Lg1 M1 T1.
  assert (Ho1 : dirList_dirOpen s1 = false).
  { unfold no_listing_handle, cursor in Q1. congruence. }
  set (c := if isDirectory then chr_K else chr_E).
  destruct (command_sent s1 c Ho1) as (s4 & -> & C4 & P4 & K4 & St4 & Ck4);
    [subst c; destruct isDirectory; reflexivity
    |subst c; destruct isDirectory; unfold chr_K, chr_E; lia |].
  cbn [Z.eqb negb].
  destruct K4 as (D4 & Lg4 & M4 & T4 & F4 & O4 & Cd4 & Ce4 & Do4).
  rewrite request_one by (rewrite C4; destruct isDirectory; discriminate).
  cbn zeta.
  assert (Hfin : forall x,
            dirList_dirOpen x = false -> command x = c ->
            calls (fst (Host.endTransmission [] true (Stop (set_checknack false x))))
            = calls x).
  { intros x Hox Hcx.
    destruct (query_closed (set_checknack false x) true) as (_ & -> & _).
    - fields x. exact Hox.
    - replace (command (set_checknack false x)) with c by (fields x; symmetry; exact Hcx).
      destruct isDirectory; reflexivity.
    - replace (command (set_checknack false x)) with c by (fields x; symmetry; exact Hcx).
      destruct isDirectory; discriminate.
    - fields x. reflexivity. }
  destruct isDirectory; subst c.
  - destruct (read_K_facts s4 C4) as (S5 & Lg5 & C5 & Do5 & M5).
    rewrite S5, F4, N1, D4, D1 in *. cbn [fst snd].
    rewrite (Hfin (DataHostRead s4)) by (congruence).
    rewrite Lg5, Lg4, Lg1. split; [|reflexivity].
    destruct (is_directory _); reflexivity.
  - destruct (read_E_facts s4 C4) as (S5 & Lg5 & D5 & C5 & Do5 & M5).
    rewrite S5, F4, N1, D4, D1 in *. cbn [fst snd].
    rewrite (Hfin (DataHostRead s4)) by (congruence).
    rewrite Lg5, Lg4, Lg1. split; [|reflexivity].
    destruct (snd (sd_exists _ _)); reflexivity.
Qed.


(** ** Creating and removing *)

Lemma one_shot_facts s f :
  one_shot_call (command s) = Some f ->
  let s' := DataHostRead s in
  let r := one_shot_op (command s) (disk s) (c_str (Filename s)) in
  SDATA s' = Z_of_bool (snd r)
  /\ calls s' = calls s ++ [f (c_str (Filename s))]
  /\ disk s' = fst r
  /\ command s' = command s
  /\ dirList_dirOpen s' = dirList_dirOpen s.
Proof.
  intros H. cbn zeta. rewrite (DataHostRead_one_shot s f H).
  generalize (one_shot_op (command s) (disk s) (c_str (Filename s))). intros r.
  fields s. cbn. rewrite u8_Z_of_bool. auto 10.
Qed.

Lemma one_shot_query c f name s (sendStop extra : bool) :
  quiet s -> sendable name ->
  one_shot_call c = Some f ->
  exists s1 s4,
    Host.sendFilename name s = (s1, true)
    /\ Host.endTransmission [c] false s1 = (s4, 0)
    /\ command s4 = c
    /\ SDATA (DataHostRead s4) = Z_of_bool (snd (one_shot_op c (disk s) name))
    /\ forall x, x = set_checknack false (DataHostRead s4) ->
         let y := if sendStop then Stop x else x in
         let fin := if extra then fst (Host.endTransmission [] true y) else y in
         calls fin = calls s ++ [f name]
         /\ disk fin = fst (one_shot_op c (disk s) name).
Proof.
  intros Hq Hs Hf.
  destruct (sendFilename_ok s name Hq Hs) as (s1 & E1 & N1 & [L1 Q1] & C1 & Ck1 & V1).
  injection V1 as D1 Lg1 M1 T1.
  assert (Ho1 : dirList_dirOpen s1 = false).
  { unfold no_listing_handle, cursor in Q1. congruence. }
  pose proof (one_shot_cases c f Hf) as Hcases.
  destruct (command_sent s1 c Ho1) as (s4 & E4 & C4 & P4 & K4 & St4 & Ck4);
    [destruct Hcases as [[-> _]|[[-> _]|[-> _]]]; reflexivity
    |destruct Hcases as [[-> _]|[[-> _]|[-> _]]]; unfold chr_M, chr_D, chr_X; lia |].
  destruct K4 as (D4 & Lg4 & M4 & T4 & F4 & O4 & Cd4 & Ce4 & Do4).
  exists s1, s4. split; [exact E1|]. split; [exact E4|]. split; [exact C4|].
  rewrite <- C4 in Hf.
  destruct (one_shot_facts s4 f Hf) as (S5 & Lg5 & D5 & C5 & Do5).
  rewrite C4, F4, N1, D4, D1 in *.
  split; [exact S5|]. intros x ->. cbn zeta.
  assert (Hx : calls (set_checknack false (DataHostRead s4)) = calls s ++ [f name]
               /\ disk (set_checknack false (DataHostRead s4))
                  = fst (one_shot_op c (disk s) name)
               /\ dirList_dirOpen (set_checknack false (DataHostRead s4)) = false
               /\ command (set_checknack false (DataHostRead s4)) = c).
  { rewrite <- Lg1, <- Lg4, <- Lg5, <- D5, <- C5, <- Ho1, <- Do4, <- Do5.
    generalize (DataHostRead s4). intros y. fields y. cbn. auto. }
  destruct Hx as (X1 & X2 & X3 & X4).
  set (x := set_checknack false (DataHostRead s4)) in *.
  assert (Hy : kept x (if sendStop then Stop x else x)).
  { destruct sendStop; [|apply kept_refl].
    apply (query_closed x false X3).
    - rewrite X4. destruct Hcases as [[-> _]|[[-> _]|[-> _]]]; reflexivity.
    - rewrite X4. destruct Hcases as [[-> _]|[[-> _]|[-> _]]]; discriminate. }
  revert Hy. generalize (if sendStop then Stop x else x). intros y Hy.
  assert (Hfin : kept x (if extra then fst (Host.endTransmission [] true y) else y)).
  { destruct extra; [|exact Hy].
    destruct (empty_transmission y) as [K2 _].
    - destruct Hy as (_ & _ & _ & _ & _ & _ & _ & _ & ->). exact X3.
    - exact (kept_trans _ _ _ Hy K2). }
  destruct Hfin as (-> & -> & _). auto.
Qed.

(** X15. [makeDirectory], [removeFile] and [removeDirectory] return what
    [SD.mkdir], [SD.remove] and [SD.rmdir] answer for the name sent, and
    the library operation is carried out exactly once. *)
Theorem create_and_remove_once name s :
  quiet s -> sendable name ->
  (let r := Host.makeDirectory name s in
   snd r = snd (sd_mkdir (disk s) name)
   /\ calls (fst r) = calls s ++ [SD_mkdir name]
   /\ disk (fst r) = fst (sd_mkdir (disk s) name))
  /\ (let r := Host.removeFile name s in
      snd r = snd (sd_remove (disk s) name)
      /\ calls (fst r) = calls s ++ [SD_remove name]
      /\ disk (fst r) = fst (sd_remove (disk s) name))
  /\ (let r := Host.removeDirectory name s in
      snd r = snd (sd_rmdir (disk s) name)
      /\ calls (fst r) = calls s ++ [SD_rmdir name]
      /\ disk (fst r) = fst (sd_rmdir (disk s) name)).
Proof.
  intros Hq Hs. cbn zeta. split; [|split].
  - destruct (one_shot_query chr_M SD_mkdir name s true false Hq Hs eq_refl)
      as (s1 & s4 & E1 & E4 & C4 & S5 & Hfin).
    unfold Host.makeDirectory, Host.one_byte_query. rewrite E1. cbn [negb].
    rewrite E4. cbn [Z.eqb negb].
    rewrite request_one by (rewrite C4; discriminate). cbn zeta.
    rewrite S5. cbn [fst snd].
    destruct (Hfin _ eq_refl) as [-> ->].
    change (one_shot_op chr_M) with sd_mkdir.
    destruct (snd (sd_mkdir (disk s) name)); auto.
  - destruct (one_shot_query chr_X SD_remove name s true false Hq Hs eq_refl)
      as (s1 & s4 & E1 & E4 & C4 & S5 & Hfin).
    unfold Host.removeFile, Host.one_byte_query. rewrite E1. cbn [negb].
    rewrite E4. cbn [Z.eqb negb].
    rewrite request_one by (rewrite C4; discriminate). cbn zeta.
    rewrite S5. cbn [fst snd].
    destruct (Hfin _ eq_refl) as [-> ->].
    change (one_shot_op chr_X) with sd_remove.
    destruct (snd (sd_remove (disk s) name)); auto.
  - unfold Host.removeDirectory.
    destruct (snd (sd_rmdir (disk s) name)) eqn:R.
    + destruct (one_shot_query chr_D SD_rmdir name s false true Hq Hs eq_refl)
        as (s1 & s4 & E1 & E4 & C4 & S5 & Hfin).
      rewrite E1. cbn [negb]. rewrite E4. cbn [Z.eqb negb].
      rewrite request_one by (rewrite C4; discriminate). cbn zeta.
      rewrite S5. change (one_shot_op chr_D) with sd_rmdir in *. rewrite R.
      cbn [Z_of_bool Z.eqb fst snd].
      destruct (Hfin _ eq_refl) as [H1 H2]. auto.
    + destruct (one_shot_query chr_D SD_rmdir name s false false Hq Hs eq_refl)
        as (s1 & s4 & E1 & E4 & C4 & S5 & Hfin).
      rewrite E1. cbn [negb]. rewrite E4. cbn [Z.eqb negb].
      rewrite request_one by (rewrite C4; discriminate). cbn zeta.
      rewrite S5. change (one_shot_op chr_D) with sd_rmdir in *. rewrite R.
      cbn [Z_of_bool Z.eqb fst snd].
      destruct (Hfin _ eq_refl) as [H1 H2]. auto.
Qed.


(** ** File commands *)

(** The command byte of a command that opens [Filename]. *)
Lemma file_command_byte s c :
  command s = 0 -> file_command c = true ->
  let path := c_str (Filename s) in
  let o := sd_open (disk s) path (open_mode c) in
  let s' := fst (on_event (EvDataWrite c) s) in
  snd (on_event (EvDataWrite c) s) = (if isOpen (snd o) then Acked else Nacked)
  /\ command s' = (if isOpen (snd o) then c else 0)
  /\ myFile s' = snd o
  /\ disk s' = fst o
  /\ calls s' = calls s ++ [SD_open path (open_mode c)]
  /\ ptr s' = 0
  /\ checknack s' = checknack s
  /\ Filename s' = Filename s
  /\ clock s' = clock s
  /\ cursor s' = cursor s.
Proof.
  intros H0 Hf. cbn zeta. rewrite on_event_DataWrite.
  assert (Hc : c = chr_W \/ c = chr_R \/ c = chr_A \/ c = chr_S).
  { unfold file_command in Hf. rewrite !orb_true_iff, !Z.eqb_eq in Hf. tauto. }
  fields s. cbn in H0. subst cmd.
  destruct Hc as [-> | [-> | [-> | ->]]];
    unfold open_mode, DataHostWrite, open_myFile, do_open; cbn;
    rewrite u8_small by (unfold chr_W, chr_R, chr_A, chr_S; lia); cbn;
    match goal with |- context [sd_open ?d ?p ?m] => destruct (sd_open d p m) as [d1 [nd|]] end;
    cbn; auto 20.
Qed.

Lemma file_command_sent s c :
  dirList_dirOpen s = false -> file_command c = true ->
  let path := c_str (Filename s) in
  let o := sd_open (disk s) path (open_mode c) in
  exists s',
    run [EvAddrWrite; EvDataWrite c] s
    = (s', [Acked; if isOpen (snd o) then Acked else Nacked])
    /\ command s' = (if isOpen (snd o) then c else 0)
    /\ myFile s' = snd o
    /\ disk s' = fst o
    /\ calls s' = calls s ++ [SD_open path (open_mode c)]
    /\ ptr s' = 0
    /\ checknack s' = checknack s
    /\ Filename s' = Filename s
    /\ clock s' = clock s
    /\ dirList_currentDir s' = dirList_currentDir s
    /\ dirList_currentEntry s' = dirList_currentEntry s
    /\ dirList_dirOpen s' = false.
Proof.
  intros Ho Hf. cbn zeta. cbn [run]. rewrite on_event_AddrWrite.
  destruct (kept_fields_AddressHostWrite s Ho) as (K0 & St0 & Ck0).
  pose proof (AddressHostWrite_command s) as C0.
  revert K0 St0 Ck0 C0. generalize (fst (AddressHostWrite s)).
  intros s0 (D0 & L0 & M0 & T0 & F0 & O0 & Cd0 & Ce0 & Do0) St0 Ck0 C0.
  destruct (file_command_byte s0 c C0 Hf)
    as (R & C1 & M1 & D1 & L1 & P1 & Ck1 & F1 & T1 & Cu1).
  destruct (on_event (EvDataWrite c) s0) as [s1 r]. cbn [fst snd] in *.
  exists s1. rewrite F0, D0, L0 in *. subst r.
  apply (f_equal (fun c => (fst (fst (fst c)), snd (fst (fst c)), snd c))) in Cu1.
  unfold cursor in Cu1. cbn in Cu1. injection Cu1 as Cu1 Cu2 Cu3.
  rewrite Cu1, Cu2, Cu3, Cd0, Ce0, Do0, Ck1, Ck0, T1, T0. auto 20.
Qed.

End HostProofs.

Section HostDecoding.
Context {Disk : Type} {gw : SdGateway Disk}.
Implicit Types s : State Disk.

Ltac fields s :=
  destruct s as [cmd chv ptrv cnk fname oob fsz vblk vclu vfat clk rbuf rptr
                 mf dcd dce dst dbc dfb des ddo sdata pb2 pb3 dsk cls].

(** ** The integers the host puts together *)

Lemma small_bits_above b n i : 0 <= b < 2 ^ n -> 0 <= n <= i -> Z.testbit b i = false.
Proof.
  intros Hb Hi. apply Z.testbit_false; [lia|].
  rewrite Z.div_small; [reflexivity|].
  split; [lia|]. apply Z.lt_le_trans with (2 ^ n); [lia|].
  apply Z.pow_le_mono_r; lia.
Qed.

Lemma lor_shiftl_add a b n :
  0 <= n -> 0 <= b < 2 ^ n -> Z.lor (Z.shiftl a n) b = a * 2 ^ n + b.
Proof.
  intros Hn Hb.
  assert (H0 : Z.land (Z.shiftl a n) b = 0).
  { apply Z.bits_inj'. intros i Hi. rewrite Z.land_spec, Z.bits_0.
    destruct (Z.lt_ge_cases i n).
    - rewrite Z.shiftl_spec_low by lia. reflexivity.
    - rewrite (small_bits_above b n i) by lia. apply andb_false_r. }
  rewrite <- Z.lxor_lor by exact H0.
  rewrite <- Z.add_nocarry_lxor by exact H0.
  rewrite Z.shiftl_mul_pow2 by lia. reflexivity.
Qed.

Lemma lor_comm_shiftl_add a b n :
  0 <= n -> 0 <= b < 2 ^ n -> Z.lor b (Z.shiftl a n) = a * 2 ^ n + b.
Proof. intros. rewrite Z.lor_comm. apply lor_shiftl_add; assumption. Qed.

Lemma read_be32_value b3 b2 b1 b0 :
  0 <= b3 < 256 -> 0 <= b2 < 256 -> 0 <= b1 < 256 -> 0 <= b0 < 256 ->
  Host.read_be32 b3 b2 b1 b0 = be_value [b3; b2; b1; b0].
Proof.
  intros H3 H2 H1 H0. unfold Host.read_be32, be_value, le_value, u32. cbn.
  rewrite !Z.shiftl_mul_pow2 by lia.
  rewrite !Z.mod_small by lia.
  rewrite <- !Z.shiftl_mul_pow2 by lia.
  rewrite (lor_shiftl_add b3 (Z.shiftl b2 16) 24)
    by (rewrite ?Z.shiftl_mul_pow2; lia).
  rewrite (Z.shiftl_mul_pow2 b2) by lia.
  replace (b3 * 2 ^ 24 + b2 * 2 ^ 16) with ((b3 * 256 + b2) * 2 ^ 16) by lia.
  rewrite <- (Z.shiftl_mul_pow2 (b3 * 256 + b2)) by lia.
  rewrite (lor_shiftl_add _ (Z.shiftl b1 8)) by (rewrite ?Z.shiftl_mul_pow2; lia).
  rewrite (Z.shiftl_mul_pow2 b1) by lia.
  replace ((b3 * 256 + b2) * 2 ^ 16 + b1 * 2 ^ 8)
    with (((b3 * 256 + b2) * 256 + b1) * 2 ^ 8) by lia.
  rewrite <- (Z.shiftl_mul_pow2 ((b3 * 256 + b2) * 256 + b1)) by lia.
  rewrite lor_shiftl_add by lia. lia.
Qed.

Lemma read_le32_value b0 b1 b2 b3 :
  0 <= b0 < 256 -> 0 <= b1 < 256 -> 0 <= b2 < 256 -> 0 <= b3 < 256 ->
  Host.read_le32 [b0; b1; b2; b3] = le_value [b0; b1; b2; b3].
Proof.
  intros H0 H1 H2 H3. unfold Host.read_le32, le_value, u32. cbn.
  rewrite Z.shiftl_0_r.
  rewrite !Z.shiftl_mul_pow2 by lia.
  rewrite !Z.mod_small by lia.
  rewrite <- !Z.shiftl_mul_pow2 by lia.
  change (8 * Z.of_nat 1) with 8. change (8 * Z.of_nat 2) with 16.
  change (8 * Z.of_nat 3) with 24. rewrite Z.lor_0_l.
  rewrite (lor_comm_shiftl_add b1 b0 8) by lia.
  replace (b1 * 2 ^ 8 + b0) with (b0 + 256 * b1) by lia.
  rewrite (lor_comm_shiftl_add b2 _ 16) by lia.
  rewrite (lor_comm_shiftl_add b3 _ 24) by lia. lia.
Qed.

Lemma shr_byte_range v i : 0 <= shr_byte v i < 256.
Proof. unfold shr_byte, u8. apply Z.mod_pos_bound. lia. Qed.

Lemma read_be32_be32 z :
  0 <= z < 4294967296 ->
  Host.read_be32 (shr_byte z 3) (shr_byte z 2) (shr_byte z 1) (shr_byte z 0) = z.
Proof.
  intros Hz. rewrite read_be32_value by apply shr_byte_range.
  exact (be32_value z Hz).
Qed.

Lemma read_le32_le32 z :
  0 <= z < 4294967296 -> Host.read_le32 (le32 z) = z.
Proof.
  intros Hz. unfold le32. rewrite read_le32_value by apply shr_byte_range.
  exact (le32_value z Hz).
Qed.


(** ** The size of a file *)

Lemma endTransmission_command c s s' r :
  run [EvAddrWrite; EvDataWrite c] s = (s', [Acked; r]) ->
  Host.endTransmission [c] false s
  = (s', match r with Acked => 0 | _ => 3 end).
Proof.
  unfold Host.endTransmission. cbn [run Host.write_bytes].
  rewrite on_event_AddrWrite.
  destruct (on_event (EvDataWrite c) (fst (AddressHostWrite s))) as [s1 r1].
  intros [= -> ->]. destruct r; reflexivity.
Qed.

Lemma size_bytes_emitted s z :
  command s = chr_S -> ptr s = 0 -> myFile_size s = z ->
  exists s', emits s (be32 z) s'
    /\ calls s' = calls s ++ [File_size]
    /\ myFile s' = myFile s.
Proof.
  intros Hc Hp Hz.
  destruct (cursor_stream (fun k x => size_cursor z (calls s) k x /\ myFile x = myFile s)
              (be32 z)) with (n := 4%nat) (k := 0%nat) (s := s) as [Hr [Hi Hm]].
  - intros k x [Hx Hmx]. destruct (size_cursor_step z (calls s) k x Hx) as [A B].
    split; [exact A|]. split; [exact B|].
    rewrite on_event_read_dispatched by reflexivity. cbn [fst].
    destruct Hx as (Hcx & _). rewrite (DataHostRead_S x Hcx), <- Hmx.
    fields x. cbn. destruct (ptrv <? 4), (ptrv =? 0); reflexivity.
  - split; [|reflexivity]. unfold size_cursor. auto.
  - exists (fst (run (replicate 4 (EvDataRead false)) s)).
    destruct Hi as (_ & _ & _ & Hl). split; [|split; [exact Hl | exact Hm]].
    unfold emits. change (length (be32 z)) with 4%nat.
    destruct (run (replicate 4 (EvDataRead false)) s) as [s' rs]. cbn [fst snd] in *.
    rewrite Hr. reflexivity.
Qed.

(** X16. [getFileSize] returns the size of the file named, as [File::size]
    gives it, and 0xFFFFFFFF when the file cannot be opened for reading.
    The bridge opens the file and asks for its size once; nothing closes
    the file before the function returns. *)
Theorem getFileSize_result filename s :
  quiet s -> sendable filename ->
  let r := Host.getFileSize filename s in
  let f := snd (sd_open (disk s) filename O_READ_mode) in
  snd r = match f with Some nd => u32 (n_size nd) | None => Host.no_size end
  /\ calls (fst r)
     = calls s ++ SD_open filename O_READ_mode :: (if isOpen f then [File_size] else [])
  /\ myFile (fst r) = f.
Proof.
  intros Hq Hs. cbn zeta. unfold Host.getFileSize.
  destruct (sendFilename_ok s filename Hq Hs)
    as (s1 & -> & N1 & [L1 Q1] & C1 & Ck1 & E1).
  cbn [negb]. injection E1 as D1 Lg1 M1 T1.
  assert (Ho1 : dirList_dirOpen s1 = false).
  { unfold no_listing_handle, cursor in Q1. congruence. }
  destruct (file_command_sent s1 chr_S Ho1 eq_refl)
    as (s2 & Hrun & C2 & M2 & D2 & Lg2 & P2 & _).
  rewrite (endTransmission_command _ _ _ _ Hrun).
  rewrite N1, D1, Lg1 in *. change (open_mode chr_S) with O_READ_mode in *.
  destruct (sd_open (disk s) filename O_READ_mode) as [d [nd|]]; cbn [snd isOpen] in *.
  - cbn [Z.eqb negb].
    destruct (size_bytes_emitted (set_ptr 0 s2) (u32 (n_size nd)))
      as (s3 & He & Lg3 & M3).
    + fields s2. exact C2.
    + fields s2. reflexivity.
    + unfold myFile_size. replace (myFile (set_ptr 0 s2)) with (Some nd)
        by (rewrite <- M2; fields s2; reflexivity). reflexivity.
    + rewrite (requestFrom_emits (be32 (u32 (n_size nd))) false s2 s3);
        [| discriminate | rewrite on_event_AddrRead, C2; exact He].
      unfold be32. cbn [fst snd]. rewrite read_be32_be32 by apply u32_range.
      split; [reflexivity|].
      replace (calls (set_checknack false s3)) with (calls s3) by (fields s3; reflexivity).
      replace (myFile (set_checknack false s3)) with (myFile s3)
        by (fields s3; reflexivity).
      rewrite Lg3, M3.
      replace (calls (set_ptr 0 s2)) with (calls s2) by (fields s2; reflexivity).
      replace (myFile (set_ptr 0 s2)) with (myFile s2) by (fields s2; reflexivity).
      rewrite Lg2, M2, <- app_assoc. auto.
  - cbn [Z.eqb negb fst snd]. rewrite Lg2, M2. auto.
Qed.


(** ** The content of a file *)

Lemma stream_of_unread (l : list Z) (n : nat) :
  (n <= length l)%nat ->
  map (fun i => Sent (u8 (nth i l (-1)))) (seq 0 n) = map Sent (map u8 (take n l)).
Proof.
  revert l. induction n as [|n IH]; intros l Hn; [reflexivity|].
  destruct l as [|b l]; [cbn in Hn; lia|]. cbn [seq map take nth].
  f_equal. rewrite <- seq_shift, map_map. apply IH. cbn in Hn. lia.
Qed.

(** A read request of [n] bytes of the open file. *)
Lemma request_file_bytes n s nd :
  command s = chr_R -> myFile s = Some nd ->
  (0 < n <= length (n_unread nd))%nat ->
  exists s' nd',
    Host.requestFrom n false s = (s', map u8 (take n (n_unread nd)))
    /\ command s' = chr_R /\ myFile s' = Some nd'
    /\ n_unread nd' = drop n (n_unread nd)
    /\ calls s' = calls s ++ replicate n File_read.
Proof.
  intros Hc Hf Hn.
  destruct (read_run n s nd Hc Hf) as (R & C & K & nd' & F & U).
  rewrite stream_of_unread in R by lia.
  set (bytes := map u8 (take n (n_unread nd))) in *.
  assert (Hlen : length bytes = n).
  { subst bytes. rewrite length_map, length_take. lia. }
  assert (He : emits (fst (on_event EvAddrRead s)) bytes
                 (fst (run (replicate n (EvDataRead false)) s))).
  { rewrite on_event_AddrRead, Hc.
    change ((chr_R =? chr_V) || (chr_R =? chr_S)) with false.
    cbn [fst]. unfold emits. rewrite Hlen.
    destruct (run (replicate n (EvDataRead false)) s) as [s' rs]. cbn [fst snd] in *.
    rewrite R. reflexivity. }
  pose proof (requestFrom_emits bytes false s
                (fst (run (replicate n (EvDataRead false)) s))) as Hreq.
  rewrite Hlen in Hreq. rewrite Hreq; [| |exact He].
  - revert C K F. generalize (fst (run (replicate n (EvDataRead false)) s)).
    intros x C K F. exists (set_checknack false x), nd'.
    split; [reflexivity|]. fields x. cbn in *. auto.
  - intros E. rewrite E in Hlen. cbn in Hlen. lia.
Qed.

Lemma readFileContent_loop_reads fuel : forall content nd s,
  command s = chr_R -> myFile s = Some nd ->
  (length (n_unread nd) <= fuel)%nat ->
  exists s',
    Host.readFileContent_loop fuel
      (Z.of_nat (length content + length (n_unread nd)))
      (Z.of_nat (length content)) content s
    = Some (s', content ++ map u8 (n_unread nd))
    /\ calls s' = calls s ++ replicate (length (n_unread nd)) File_read.
Proof.
  induction fuel as [|fuel IH]; intros content nd s Hc Hf Hfuel.
  - assert (E : n_unread nd = []) by (destruct (n_unread nd); [reflexivity | cbn in Hfuel; lia]).
    rewrite E. cbn [length]. rewrite Nat.add_0_r. cbn.
    rewrite Z.ltb_irrefl, !app_nil_r. eauto.
  - cbn [Host.readFileContent_loop].
    destruct (n_unread nd) as [|b rest] eqn:E.
    { cbn [length]. rewrite Nat.add_0_r, Z.ltb_irrefl. cbn. rewrite !app_nil_r. eauto. }
    replace (Z.of_nat (length content) <? Z.of_nat (length content + length (b :: rest)))
      with true by (symmetry; apply Z.ltb_lt; cbn [length]; lia).
    set (rem := Z.of_nat (length content + length (b :: rest)) - Z.of_nat (length content)).
    assert (Hrem : rem = Z.of_nat (length (b :: rest))) by (subst rem; lia).
    set (n := Z.to_nat (Z.min rem Host.I2C_BUFFER_LIMIT)).
    assert (Hn : (0 < n <= length (n_unread nd))%nat).
    { subst n. rewrite Hrem, E. unfold Host.I2C_BUFFER_LIMIT. cbn [length]. lia. }
    replace (Z.min rem Host.I2C_BUFFER_LIMIT =? 0) with false
      by (symmetry; apply Z.eqb_neq; unfold Host.I2C_BUFFER_LIMIT; cbn [length] in Hrem; lia).
    destruct (request_file_bytes n s nd Hc Hf Hn) as (s1 & nd1 & -> & C1 & F1 & U1 & L1).
    rewrite E in *.
    set (bs := map u8 (take n (b :: rest))) in *.
    assert (Hbs : length bs = n).
    { subst bs. rewrite length_map, length_take. lia. }
    replace (length bs =? 0)%nat with false by (symmetry; apply Nat.eqb_neq; lia).
    destruct (IH (content ++ bs) nd1 s1 C1 F1) as (s2 & E2 & L2).
    { rewrite U1, length_drop. cbn [length] in *. lia. }
    rewrite U1 in E2, L2. rewrite length_app, length_drop, Hbs in E2.
    replace (length content + n + (length (b :: rest) - n))%nat
      with (length content + length (b :: rest))%nat in E2 by lia.
    replace (Z.of_nat (length content) + Z.of_nat (length bs))
      with (Z.of_nat (length content + n)) by lia.
    rewrite E2. exists s2. split.
    + f_equal. f_equal. rewrite <- app_assoc. f_equal. subst bs.
      rewrite <- map_app, take_drop. reflexivity.
    + rewrite L2, L1, <- app_assoc, <- replicate_add, length_drop. f_equal. f_equal. lia.
Qed.

(** X17. Once the read command is accepted, the read loop of
    [readFileContent] fetches the whole file in requests of at most 32
    bytes: for a file of [fileSize] unread bytes it delivers exactly these
    bytes, in order, with one library [read] per byte. *)
Theorem readFileContent_delivers_file fuel nd s :
  command s = chr_R -> myFile s = Some nd ->
  (length (n_unread nd) <= fuel)%nat ->
  exists s',
    Host.readFileContent_loop fuel (Z.of_nat (length (n_unread nd))) 0 [] s
    = Some (s', map u8 (n_unread nd))
    /\ calls s' = calls s ++ replicate (length (n_unread nd)) File_read.
Proof.
  intros Hc Hf Hfuel.
  exact (readFileContent_loop_reads fuel [] nd s Hc Hf Hfuel).
Qed.

End HostDecoding.

Section HostListing.
Context {Disk : Type} {gw : SdGateway Disk}.
Implicit Types s : State Disk.

Ltac fields s :=
  destruct s as [cmd chv ptrv cnk fname oob fsz vblk vclu vfat clk rbuf rptr
                 mf dcd dce dst dbc dfb des ddo sdata pb2 pb3 dsk cls].

(** ** Reading a response piece by piece *)

Lemma run_length es : forall s, length (snd (run es s)) = length es.
Proof.
  induction es as [|e es IH]; intros s; [reflexivity|].
  cbn [run]. destruct (on_event e s) as [s1 r]. specialize (IH s1).
  destruct (run es s1). cbn in *. rewrite IH. reflexivity.
Qed.

Lemma emits_split pre post s s' :
  emits s (pre ++ post) s' -> exists m, emits s pre m /\ emits m post s'.
Proof.
  unfold emits. rewrite length_app, replicate_add, run_app, map_app.
  destruct (run (replicate (length pre) (EvDataRead false)) s) as [m r1] eqn:E1.
  destruct (run (replicate (length post) (EvDataRead false)) m) as [s2 r2] eqn:E2.
  intros [= -> H]. exists m.
  assert (L1 : length r1 = length pre).
  { pose proof (run_length (replicate (length pre) (EvDataRead false)) s) as L.
    rewrite E1, length_replicate in L. exact L. }
  apply app_inj_1 in H; [|rewrite L1, length_map; reflexivity].
  destruct H as [-> ->]. auto.
Qed.

Lemma emits_command bytes : forall s s', emits s bytes s' -> command s' = command s.
Proof.
  induction bytes as [|b bytes IH]; intros s s' He.
  - unfold emits in He. cbn in He. injection He as <-. reflexivity.
  - apply emits_inv in He. destruct He as [_ He].
    rewrite (IH _ _ He). rewrite on_event_read_dispatched by reflexivity. cbn [fst].
    rewrite <- (command_DataHostRead s).
    generalize (DataHostRead s). intros x. fields x. reflexivity.
Qed.

(** A request served from the head of a response. *)
Lemma request_prefix pre post s s' :
  command s <> chr_V -> command s <> chr_S ->
  pre <> [] -> emits s (pre ++ post) s' ->
  exists s1,
    Host.requestFrom (length pre) false s = (s1, pre)
    /\ command s1 = command s
    /\ (post <> [] -> emits s1 post s').
Proof.
  intros HV HS Hne He. apply emits_split in He. destruct He as (m & H1 & H2).
  exists (set_checknack false m). split; [|split].
  - apply (requestFrom_emits pre false s m); [exact Hne|].
    rewrite on_event_AddrRead.
    apply Z.eqb_neq in HV, HS. rewrite HV, HS. exact H1.
  - rewrite <- (emits_command _ _ _ H1). fields m. reflexivity.
  - intros Hp. apply emits_after_absorbed; assumption.
Qed.

(** ** The listing *)

Lemma listing_emitted s :
  command s = chr_L ->
  dirList_state s = DIR_STREAM_IDLE ->
  dirList_currentEntry s = None ->
  let es := entries_of (snd (sd_open (disk s) (c_str (Filename s)) O_READ_mode)) in
  Forall (fun x => byte_string (n_name x)) es ->
  exists s', emits s (listing es) s' /\ released DIR_STREAM_IDLE s'.
Proof.
  intros Hc Hst He es Hb.
  pose proof (listing_first s Hc Hst He) as Hfirst. fold es in Hfirst.
  destruct es as [|e rest].
  - exact Hfirst.
  - destruct Hfirst as (s1 & dir & E1 & Hn & Hp).
    destruct (entries_after_type rest e dir s1 Hp Hb Hn) as (s2 & E2 & H2).
    exists s2. split; [|exact H2].
    rewrite listing_cons. eapply emits_cons; eassumption.
Qed.

Lemma listing_nonempty es : listing es <> [].
Proof. unfold listing. destruct (concat (map entry_bytes es)); discriminate. Qed.

Lemma read_name_reads nm : forall fuel entryName post s s',
  command s = chr_L ->
  Forall (fun c => c <> 0) nm -> post <> [] ->
  emits s (nm ++ 0 :: post) s' ->
  (length nm < fuel)%nat ->
  exists s1,
    Host.read_name fuel entryName s = Some (s1, Some (entryName ++ nm))
    /\ command s1 = chr_L
    /\ emits s1 post s'.
Proof.
  induction nm as [|c nm IH]; intros fuel entryName post s s' Hc Hnz Hp He Hfuel;
    (destruct fuel as [|fuel]; [cbn in Hfuel; lia|]); cbn [Host.read_name].
  - destruct (request_prefix [0] post s s') as (s1 & R1 & C1 & E1);
      try (rewrite Hc; discriminate); try discriminate; [exact He|].
    cbn [length] in R1. rewrite R1. cbn [Z.eqb]. rewrite app_nil_r. exists s1. split; [reflexivity|].
    split; [congruence | exact (E1 Hp)].
  - apply Forall_cons in Hnz as [Hc0 Hnz].
    destruct (request_prefix [c] (nm ++ 0 :: post) s s') as (s1 & R1 & C1 & E1);
      try (rewrite Hc; discriminate); try discriminate; [exact He|].
    cbn [length] in R1. rewrite R1.
    apply Z.eqb_neq in Hc0. rewrite Hc0.
    destruct (IH fuel (entryName ++ [c]) post s1 s') as (s2 & -> & C2 & E2);
      [congruence | exact Hnz | exact Hp | apply E1; destruct nm; discriminate
      | cbn in Hfuel; lia |].
    rewrite <- app_assoc. exists s2. auto.
Qed.

Lemma entry_size_range e : 0 <= entry_size e < 4294967296.
Proof. unfold entry_size. destruct (n_isDir e); [lia | apply u32_range]. Qed.

Lemma entry_type_not_end e : (entry_type e =? 255) = false.
Proof. unfold entry_type. destruct (n_isDir e); reflexivity. Qed.

Lemma listDirectory_loop_rows es : forall fuel rows s s',
  command s = chr_L ->
  emits s (listing es) s' ->
  (length (listing es) <= fuel)%nat ->
  exists fin,
    Host.listDirectory_loop fuel rows s = Some (fin, Some (rows ++ map row es)).
Proof.
  induction es as [|e rest IH]; intros fuel rows s s' Hc He Hfuel.
  - destruct fuel as [|fuel]; [cbn in Hfuel; lia|].
    cbn [Host.listDirectory_loop].
    destruct (request_prefix [255] [] s s') as (s1 & R1 & C1 & E1);
      try (rewrite Hc; discriminate); try discriminate; [exact He|].
    cbn [length] in R1. rewrite R1. cbn [Z.eqb map]. rewrite app_nil_r. eauto.
  - destruct fuel as [|fuel];
      [rewrite listing_cons in Hfuel; cbn in Hfuel; lia|].
    cbn [Host.listDirectory_loop].
    rewrite listing_cons in He, Hfuel.
    change (entry_type e :: short_name (n_name e) ++ 0 :: le32 (entry_size e) ++ listing rest)
      with ([entry_type e]
            ++ (short_name (n_name e) ++ 0 :: le32 (entry_size e) ++ listing rest)) in He.
    destruct (request_prefix [entry_type e]
                (short_name (n_name e) ++ 0 :: le32 (entry_size e) ++ listing rest) s s')
      as (s1 & R1 & C1 & E1);
      try (rewrite Hc; discriminate); try discriminate; [exact He|].
    cbn [length] in R1. rewrite R1.
    rewrite entry_type_not_end.
    specialize (E1 ltac:(destruct (short_name (n_name e)); discriminate)).
    destruct (read_name_reads (short_name (n_name e)) fuel []
                (le32 (entry_size e) ++ listing rest) s1 s')
      as (s2 & -> & C2 & E2);
      [congruence | apply short_name_nonzero | discriminate | exact E1
      | cbn [length] in Hfuel; rewrite length_app in Hfuel; cbn [length] in Hfuel; lia |].
    destruct (request_prefix (le32 (entry_size e)) (listing rest) s2 s')
      as (s3 & E3 & C3 & E4);
      try (rewrite C2; discriminate); try discriminate; [exact E2|].
    change (length (le32 (entry_size e))) with 4%nat in E3. rewrite E3.
    unfold le32 at 1.
    change [shr_byte (entry_size e) 0; shr_byte (entry_size e) 1;
            shr_byte (entry_size e) 2; shr_byte (entry_size e) 3]
      with (le32 (entry_size e)).
    rewrite read_le32_le32 by apply entry_size_range.
    destruct (IH fuel (rows ++ [(entry_type e, entry_size e, [] ++ short_name (n_name e))])
                s3 s') as (fin & ->);
      [congruence | apply E4, listing_nonempty
      | cbn [length] in Hfuel; rewrite !length_app in Hfuel; cbn [length] in Hfuel;
        rewrite length_app in Hfuel; lia |].
    exists fin. rewrite <- app_assoc. reflexivity.
Qed.

(** X18. [listDirectory] prints one row for every entry of the directory
    named, in the order of iteration: the type letter, the size (0 for a
    directory) and the base name cut to 12 characters; a path that cannot
    be opened or is not a directory gives no row. *)
Theorem listDirectory_rows fuel dirname s :
  quiet s -> sendable dirname ->
  let es := entries_of (snd (sd_open (disk s) dirname O_READ_mode)) in
  Forall (fun x => byte_string (n_name x)) es ->
  (length (listing es) <= fuel)%nat ->
  exists fin, Host.listDirectory fuel dirname s = Some (fin, Some (map row es)).
Proof.
  intros Hq Hs es Hb Hfuel. unfold Host.listDirectory.
  destruct (sendFilename_ok s dirname Hq Hs)
    as (s1 & -> & N1 & [L1 Q1] & C1 & Ck1 & E1).
  cbn [negb]. injection E1 as D1 Lg1 M1 T1.
  unfold no_listing_handle, cursor in Q1. injection Q1 as Q1 Q2 Q3 Q4.
  destruct (command_sent s1 chr_L Q4) as (s4 & -> & C4 & P4 & K4 & St4 & Ck4);
    [reflexivity | unfold chr_L; lia |].
  cbn [Z.eqb negb].
  destruct K4 as (D4 & Lg4 & M4 & T4 & F4 & O4 & Cd4 & Ce4 & Do4).
  destruct (listing_emitted s4 C4 St4) as (s5 & He & _).
  - rewrite Ce4. exact Q2.
  - rewrite D4, D1, F4, N1. exact Hb.
  - rewrite D4, D1, F4, N1 in He. fold es in He.
    exact (listDirectory_loop_rows es fuel [] s4 s5 C4 He Hfuel).
Qed.

End HostListing.

Section HostWriting.
Context {Disk : Type} {gw : SdGateway Disk}.
Implicit Types s : State Disk.

Ltac fields s :=
  destruct s as [cmd chv ptrv cnk fname oob fsz vblk vclu vfat clk rbuf rptr
                 mf dcd dce dst dbc dfb des ddo sdata pb2 pb3 dsk cls].

(** ** Write transactions *)

Lemma write_byte_frame s b nd :
  (command s = chr_W \/ command s = chr_A) -> myFile s = Some nd ->
  let s' := fst (on_event (EvDataWrite b) s) in
  snd (on_event (EvDataWrite b) s) = Acked
  /\ command s' = command s
  /\ myFile s' = Some (snd (file_write (disk s) nd (u8 b)))
  /\ disk s' = fst (file_write (disk s) nd (u8 b))
  /\ calls s' = calls s ++ [File_write (u8 b)]
  /\ Filename s' = Filename s
  /\ dirList_currentDir s' = dirList_currentDir s
  /\ dirList_currentEntry s' = dirList_currentEntry s
  /\ dirList_dirOpen s' = dirList_dirOpen s.
Proof.
  intros Hc Hf. cbn zeta. rewrite (write_byte s b nd Hc Hf).
  generalize (file_write (disk s) nd (u8 b)). intros p.
  fields s. cbn. auto 20.
Qed.

Lemma write_run_frame (I : Disk -> Prop) bs : forall s,
  (forall d nd b, I d -> I (fst (file_write d nd b))) ->
  (command s = chr_W \/ command s = chr_A) -> isOpen (myFile s) = true ->
  I (disk s) ->
  let s' := fst (run (map EvDataWrite bs) s) in
  snd (run (map EvDataWrite bs) s) = replicate (length bs) Acked
  /\ command s' = command s
  /\ isOpen (myFile s') = true
  /\ I (disk s')
  /\ calls s' = calls s ++ map File_write (map u8 bs)
  /\ Filename s' = Filename s
  /\ dirList_currentDir s' = dirList_currentDir s
  /\ dirList_currentEntry s' = dirList_currentEntry s
  /\ dirList_dirOpen s' = dirList_dirOpen s.
Proof.
  induction bs as [|b bs IH]; intros s HI Hc Hf Hd; cbn [map run length].
  - cbn. rewrite app_nil_r. auto 20.
  - destruct (myFile s) as [nd|] eqn:E; [|discriminate].
    destruct (write_byte_frame s b nd Hc E)
      as (R1 & C1 & M1 & D1 & L1 & F1 & A1 & B1 & O1).
    destruct (on_event (EvDataWrite b) s) as [s1 r1]. cbn [fst snd] in *.
    destruct (IH s1 HI) as (R2 & C2 & M2 & D2 & L2 & F2 & A2 & B2 & O2).
    + rewrite C1. exact Hc.
    + rewrite M1. reflexivity.
    + rewrite D1. apply HI. exact Hd.
    + destruct (run (map EvDataWrite bs) s1) as [s2 r2]. cbn [fst snd] in *.
      rewrite R1, R2, C2, C1, L2, L1, F2, F1, A2, A1, B2, B1, O2, O1, <- app_assoc.
      cbn. auto 20.
Qed.

(** The stop of a write transaction closes the file. *)
Lemma Stop_closes_file s nd :
  dirList_dirOpen s = false ->
  (command s = chr_W \/ command s = chr_A) -> myFile s = Some nd ->
  myFile (Stop s) = None
  /\ disk (Stop s) = file_close (disk s) nd
  /\ calls (Stop s) = calls s ++ [File_close]
  /\ Filename (Stop s) = Filename s
  /\ dirList_currentDir (Stop s) = dirList_currentDir s
  /\ dirList_currentEntry (Stop s) = dirList_currentEntry s
  /\ dirList_dirOpen (Stop s) = false
  /\ dirList_state (Stop s) = DIR_STREAM_IDLE.
Proof.
  intros Ho Hc Hf. rewrite (Stop_quiet s Ho). fields s. cbn in *. subst mf ddo.
  unfold before_cleanup_Stop, close_handle, log. cbn.
  destruct Hc as [-> | ->]; cbn; auto 20.
Qed.

Lemma on_event_Stop s : on_event EvStop s = (Stop s, Completed).
Proof. reflexivity. Qed.

Lemma endTransmission_payload c bytes s s1 :
  run [EvAddrWrite; EvDataWrite c] s = (s1, [Acked; Acked]) ->
  snd (run (map EvDataWrite bytes) s1) = replicate (length bytes) Acked ->
  Host.endTransmission (c :: bytes) true s
  = (Stop (fst (run (map EvDataWrite bytes) s1)), 0).
Proof.
  intros H1 H2. revert H1. unfold Host.endTransmission. cbn [run Host.write_bytes].
  rewrite on_event_AddrWrite.
  destruct (on_event (EvDataWrite c) (fst (AddressHostWrite s))) as [x r].
  intros [= -> ->]. rewrite (write_bytes_run bytes s1 H2).
  rewrite on_event_Stop. reflexivity.
Qed.

(** One write transaction on a quiet engine that holds [filename]. *)
Lemma write_transaction (I : Disk -> Prop) filename c bytes s :
  writable I filename ->
  quiet s -> c_str (Filename s) = filename -> I (disk s) ->
  (c = chr_W \/ c = chr_A) ->
  Forall (fun b => 0 <= b < 256) bytes ->
  exists s',
    Host.endTransmission (c :: bytes) true s = (s', 0)
    /\ quiet s' /\ c_str (Filename s') = filename /\ I (disk s')
    /\ myFile s' = None
    /\ calls s' = calls s ++ write_calls filename c bytes.
Proof.
  intros (Wo & Ww & Wc) [Hlen Hq] Hn Hd Hc Hb.
  unfold no_listing_handle, cursor in Hq. injection Hq as Q1 Q2 Q3 Q4.
  assert (Hf : file_command c = true) by (destruct Hc as [-> | ->]; reflexivity).
  assert (Hm : open_mode c <> O_READ_mode) by (destruct Hc as [-> | ->]; discriminate).
  destruct (file_command_sent s c Q4 Hf)
    as (s1 & Hrun & C1 & M1 & D1 & L1 & P1 & Ck1 & F1 & T1 & A1 & B1 & O1).
  rewrite Hn in *.
  destruct (Wo (disk s) (open_mode c) Hd Hm) as [Hopen Hd1].
  rewrite Hopen in *.
  destruct (write_run_frame I bytes s1 Ww) as (R2 & C2 & M2 & D2 & L2 & F2 & A2 & B2 & O2).
  { rewrite C1. exact Hc. }
  { rewrite M1. exact Hopen. }
  { rewrite D1. exact Hd1. }
  assert (Hu : map u8 bytes = bytes).
  { clear -Hb. induction Hb as [|b l Hb0 _ IH]; cbn; [reflexivity|].
    rewrite IH, u8_small by lia. reflexivity. }
  rewrite Hu in L2.
  rewrite (endTransmission_payload c bytes s s1 Hrun R2).
  revert R2 C2 M2 D2 L2 F2 A2 B2 O2.
  generalize (fst (run (map EvDataWrite bytes) s1)). intros s2 R2 C2 M2 D2 L2 F2 A2 B2 O2.
  destruct (myFile s2) as [nd|] eqn:E2; [|discriminate].
  destruct (Stop_closes_file s2 nd) as (M3 & D3 & L3 & F3 & A3 & B3 & O3 & St3).
  { rewrite O2. exact O1. }
  { rewrite C2, C1. exact Hc. }
  { exact E2. }
  exists (Stop s2). split; [reflexivity|].
  split; [|split; [|split; [|split]]].
  - split; [rewrite F3, F2, F1; exact Hlen|].
    unfold no_listing_handle, cursor.
    rewrite A3, B3, O3, St3, A2, B2, A1, B1, Q1, Q2. reflexivity.
  - rewrite F3, F2, F1. exact Hn.
  - rewrite D3. apply Wc. exact D2.
  - exact M3.
  - rewrite L3, L2, L1. unfold write_calls. rewrite <- !app_assoc. reflexivity.
Qed.


Lemma sendFilename_transmission filename s s' :
  Host.sendFilename filename s = (s', true) ->
  Host.endTransmission (chr_F :: filename) true s = (s', 0).
Proof.
  unfold Host.sendFilename.
  destruct (Host.endTransmission (chr_F :: filename) true s) as [x e].
  intros [= -> H]. apply Z.eqb_eq in H. rewrite H. reflexivity.
Qed.

Lemma written_write_calls filename c bytes :
  omap written (write_calls filename c bytes) = bytes
  /\ count_calls is_open (write_calls filename c bytes) = 1%nat
  /\ count_calls is_close (write_calls filename c bytes) = 1%nat.
Proof.
  unfold write_calls, count_calls. cbn.
  induction bytes as [|b bytes (IH1 & IH2 & IH3)]; cbn; [auto|].
  rewrite IH1. cbn in IH2, IH3. auto.
Qed.

Lemma count_calls_app p l1 l2 :
  count_calls p (l1 ++ l2) = (count_calls p l1 + count_calls p l2)%nat.
Proof. unfold count_calls. rewrite List.filter_app, length_app. reflexivity. Qed.

(** ** Writing a message in chunks *)

Lemma writeFile_rest_writes (I : Disk -> Prop) filename fuel : forall rest s,
  writable I filename ->
  quiet s -> c_str (Filename s) = filename -> I (disk s) -> myFile s = None ->
  Forall (fun b => 0 <= b < 256) rest ->
  (length rest <= fuel)%nat ->
  exists fin new,
    Host.writeFile_rest fuel rest s = Some (fin, true)
    /\ calls fin = calls s ++ new
    /\ omap written new = rest
    /\ count_calls is_open new = count_calls is_close new
    /\ myFile fin = None.
Proof.
  induction fuel as [|fuel IH]; intros rest s W Hq Hn Hd Hm Hb Hfuel.
  - destruct rest; [|cbn in Hfuel; lia]. exists s, []. cbn. rewrite app_nil_r. auto.
  - destruct rest as [|b rest]; [exists s, []; cbn; rewrite app_nil_r; auto|].
    cbn [Host.writeFile_rest].
    set (n := Nat.min Host.bufferSize (length (b :: rest))).
    assert (Hn1 : (0 < n <= length (b :: rest))%nat).
    { subst n. unfold Host.bufferSize. cbn [length]. lia. }
    destruct (write_transaction I filename chr_A (take n (b :: rest)) s W Hq Hn Hd)
      as (s1 & -> & Q1 & N1 & D1 & M1 & L1);
      [auto | apply Forall_take; exact Hb |].
    cbn [Z.eqb negb].
    destruct (IH (drop n (b :: rest)) s1 W Q1 N1 D1 M1) as (fin & new & -> & L2 & Wr & Cn & M2).
    { apply Forall_drop. exact Hb. }
    { rewrite length_drop. lia. }
    exists fin, (write_calls filename chr_A (take n (b :: rest)) ++ new).
    destruct (written_write_calls filename chr_A (take n (b :: rest))) as (W1 & W2 & W3).
    split; [reflexivity|]. split; [rewrite L2, L1, <- app_assoc; reflexivity|].
    split; [rewrite omap_app, W1, Wr; apply take_drop|].
    split; [rewrite !count_calls_app, W2, W3, Cn; reflexivity | exact M2].
Qed.

(** X19. [writeFile] hands the whole message to the library, byte for
    byte and in order, however many transactions it takes.  The file is
    first opened in the mode of the command given; every open is matched
    by a close, and no handle is left open when the function returns. *)
Theorem writeFile_writes_message (I : Disk -> Prop) filename msg command s :
  writable I filename ->
  quiet s -> sendable filename -> I (disk s) ->
  msg <> [] -> Forall (fun b => 0 <= b < 256) msg ->
  (command = chr_W \/ command = chr_A) ->
  exists fin new,
    Host.writeFile filename msg command s = Some (fin, true)
    /\ calls fin = calls s ++ new
    /\ omap written new = msg
    /\ head new = Some (SD_open filename (open_mode command))
    /\ count_calls is_open new = count_calls is_close new
    /\ myFile fin = None.
Proof.
  intros W Hq Hs Hd Hne Hb Hc. unfold Host.writeFile.
  destruct (sendFilename_ok s filename Hq Hs) as (s1 & E1 & N1 & Q1 & C1 & Ck1 & V1).
  rewrite (sendFilename_transmission _ _ _ E1). cbn [Z.eqb negb].
  injection V1 as D1 Lg1 M1 T1.
  destruct msg as [|b msg]; [congruence|].
  replace (length (b :: msg) =? 0)%nat with false by reflexivity.
  set (n := Nat.min Host.bufferSize (length (b :: msg))).
  assert (Hn1 : (0 < n <= length (b :: msg))%nat).
  { subst n. unfold Host.bufferSize. cbn [length]. lia. }
  destruct (write_transaction I filename command (take n (b :: msg)) s1 W Q1 N1)
    as (s2 & -> & Q2 & N2 & D2 & M2 & L2);
    [rewrite D1; exact Hd | exact Hc | apply Forall_take; exact Hb |].
  cbn [Z.eqb negb].
  destruct (writeFile_rest_writes I filename (length (b :: msg)) (drop n (b :: msg)) s2
              W Q2 N2 D2 M2) as (fin & new & -> & L3 & Wr & Cn & M3).
  { apply Forall_drop. exact Hb. }
  { rewrite length_drop. lia. }
  exists fin, (write_calls filename command (take n (b :: msg)) ++ new).
  destruct (written_write_calls filename command (take n (b :: msg))) as (W1 & W2 & W3).
  split; [reflexivity|]. split; [rewrite L3, L2, Lg1, <- app_assoc; reflexivity|].
  split; [rewrite omap_app, W1, Wr; apply take_drop|].
  split; [reflexivity|].
  split; [rewrite !count_calls_app, W2, W3, Cn; reflexivity | exact M3].
Qed.

(** ** Writing byte by byte *)

Lemma writeFile1_bytes_writes (I : Disk -> Prop) filename command data : forall s,
  writable I filename ->
  quiet s -> c_str (Filename s) = filename -> I (disk s) ->
  (command = chr_W \/ command = chr_A) ->
  Forall (fun b => 0 <= b < 256) data ->
  exists fin,
    Host.writeFile1_bytes data command s = (fin, true)
    /\ calls fin
       = calls s ++ concat (map (fun b => write_calls filename command [b]) data).
Proof.
  induction data as [|b data IH]; intros s W Hq Hn Hd Hc Hb.
  - exists s. cbn. rewrite app_nil_r. auto.
  - apply Forall_cons in Hb as [Hb0 Hb]. cbn [Host.writeFile1_bytes].
    destruct (write_transaction I filename command [b] s W Hq Hn Hd Hc)
      as (s1 & -> & Q1 & N1 & D1 & M1 & L1); [auto|].
    cbn [Z.eqb negb].
    destruct (IH s1 W Q1 N1 D1 Hc Hb) as (fin & -> & L2).
    exists fin. split; [reflexivity|].
    rewrite L2, L1. cbn [map concat]. rewrite <- app_assoc. reflexivity.
Qed.

(** X20. [writeFile1] sends every byte in a transaction of its own, under
    the command given: the bridge opens the file, writes the one byte and
    closes the file, once per byte.  Under ['W'] each of these opens
    truncates the file. *)
Theorem writeFile1_opens_per_byte (I : Disk -> Prop) filename data command s :
  writable I filename ->
  quiet s -> sendable filename -> I (disk s) ->
  data <> [] -> Forall (fun b => 0 <= b < 256) data ->
  (command = chr_W \/ command = chr_A) ->
  exists fin,
    Host.writeFile1 filename data command s = (fin, true)
    /\ calls fin
       = calls s
         ++ concat (map (fun b => [SD_open filename (open_mode command);
                                   File_write b; File_close]) data).
Proof.
  intros W Hq Hs Hd Hne Hb Hc. unfold Host.writeFile1.
  destruct (sendFilename_ok s filename Hq Hs) as (s1 & -> & N1 & Q1 & C1 & Ck1 & V1).
  cbn [negb]. injection V1 as D1 Lg1 M1 T1.
  destruct data as [|b data]; [congruence|].
  replace (length (b :: data) =? 0)%nat with false by reflexivity. cbn [andb].
  destruct (writeFile1_bytes_writes I filename command (b :: data) s1 W Q1 N1)
    as (fin & -> & L); [rewrite D1; exact Hd | exact Hc | exact Hb |].
  exists fin. split; [reflexivity|]. rewrite L, Lg1. reflexivity.
Qed.

End HostWriting.

Section HostCardQueries.
Context {Disk : Type} {gw : SdGateway Disk}.
Implicit Types s : State Disk.

Ltac fields s :=
  destruct s as [cmd chv ptrv cnk fname oob fsz vblk vclu vfat clk rbuf rptr
                 mf dcd dce dst dbc dfb des ddo sdata pb2 pb3 dsk cls].

(** ** Card type and volume information *)

(** The command byte is what the data register holds afterwards. *)
Lemma command_sent_register s c :
  dirList_dirOpen s = false ->
  no_file_command c = true -> 0 <= c < 256 ->
  exists s', Host.endTransmission [c] false s = (s', 0)
    /\ command s' = c /\ ptr s' = 0 /\ SDATA s' = c
    /\ disk s' = disk s /\ calls s' = calls s.
Proof.
  intros Ho Hn Hc.
  destruct (kept_fields_AddressHostWrite s Ho) as (K0 & St0 & Ck0).
  pose proof (AddressHostWrite_command s) as C0.
  assert (Hrun : run (map EvDataWrite [c]) (fst (AddressHostWrite s))
                 = (set_rtc_buffer_ptr 0 (set_ch 0 (set_ptr 0 (set_command c
                      (set_SDATA c (fst (AddressHostWrite s)))))), [Acked])).
  { cbn [map run]. rewrite on_event_command_byte by auto. reflexivity. }
  rewrite (endTransmission_run [c] false s) by (rewrite Hrun; reflexivity).
  unfold transmission. cbn [app map].
  change [EvAddrWrite; EvDataWrite c] with ([EvAddrWrite] ++ map EvDataWrite [c]).
  rewrite run_app. cbn [run]. rewrite on_event_AddrWrite. cbv beta iota.
  rewrite Hrun. cbn [fst].
  revert K0 St0 Ck0 C0. generalize (fst (AddressHostWrite s)).
  intros s0 (D0 & L0 & _) St0 Ck0 C0. eexists. split; [reflexivity|].
  fields s0. cbn in *. auto 20.
Qed.


Lemma volume_bytes_emitted s :
  command s = chr_V -> ptr s = 0 ->
  let r := volume_init (disk s) in
  exists s',
    emits s (if snd r then volume_bytes (fst r) else [255; 0; 0; 0; 0; 0; 0; 0; 0; 0]) s'.
Proof.
  intros Hc Hp. cbn zeta.
  destruct (volume_init (disk s)) as [d ok] eqn:Hinit. cbn [fst snd].
  exists (fst (run (replicate 10 (EvDataRead false)) s)).
  destruct ok.
  - destruct (cursor_stream (volume_cursor d) (volume_bytes d)
                (volume_cursor_step d) 10 0%nat s) as [Hs _].
    { repeat split; assumption. }
    unfold emits. change (length (volume_bytes d)) with 10%nat.
    destruct (run (replicate 10 (EvDataRead false)) s) as [s' rs]. cbn [fst snd] in *.
    rewrite Hs. reflexivity.
  - destruct (cursor_stream volume_error_cursor [255]
                volume_error_cursor_step 10 0%nat s) as [Hs _].
    { repeat split; try assumption. rewrite Hinit. reflexivity. }
    unfold emits. cbn [length].
    destruct (run (replicate 10 (EvDataRead false)) s) as [s' rs]. cbn [fst snd] in *.
    rewrite Hs. reflexivity.
Qed.

(** X22. [getVolumeInfo] prints the FAT type, the blocks per cluster and
    the cluster count the library reports after a successful
    [volume.init], as 8-bit and 32-bit values, and reports a failure when
    [volume.init] fails. *)
Theorem getVolumeInfo_result s :
  dirList_dirOpen s = false ->
  let r := volume_init (disk s) in
  snd (Host.getVolumeInfo s)
  = if snd r
    then Some (u8 (volume_fatType (fst r)),
               u32 (volume_blocksPerCluster (fst r)),
               u32 (volume_clusterCount (fst r)))
    else None.
Proof.
  intros Ho. cbn zeta. unfold Host.getVolumeInfo.
  destruct (command_sent_register s chr_V Ho eq_refl ltac:(unfold chr_V; lia))
    as (s1 & -> & C1 & P1 & S1 & D1 & L1).
  cbn [Z.eqb negb].
  destruct (volume_bytes_emitted (set_ptr 0 s1)) as (s2 & He).
  { fields s1. exact C1. }
  { fields s1. reflexivity. }
  replace (disk (set_ptr 0 s1)) with (disk s) in He by (rewrite <- D1; fields s1; reflexivity).
  destruct (volume_init (disk s)) as [d ok]. cbn [fst snd] in *.
  destruct ok.
  - pose proof (requestFrom_emits (volume_bytes d) true s1 s2) as Hr.
    change (length (volume_bytes d)) with 10%nat in Hr.
    rewrite Hr; [|discriminate | rewrite on_event_AddrRead, C1; exact He].
    unfold volume_bytes, le32. cbn [app Z.eqb snd].
    change [shr_byte (u32 (volume_blocksPerCluster d)) 0;
            shr_byte (u32 (volume_blocksPerCluster d)) 1;
            shr_byte (u32 (volume_blocksPerCluster d)) 2;
            shr_byte (u32 (volume_blocksPerCluster d)) 3]
      with (le32 (u32 (volume_blocksPerCluster d))).
    change [shr_byte (u32 (volume_clusterCount d)) 0;
            shr_byte (u32 (volume_clusterCount d)) 1;
            shr_byte (u32 (volume_clusterCount d)) 2;
            shr_byte (u32 (volume_clusterCount d)) 3]
      with (le32 (u32 (volume_clusterCount d))).
    rewrite !read_le32_le32 by apply u32_range. reflexivity.
  - pose proof (requestFrom_emits [255; 0; 0; 0; 0; 0; 0; 0; 0; 0] true s1 s2) as Hr.
    cbn [length] in Hr.
    rewrite Hr; [|discriminate | rewrite on_event_AddrRead, C1; exact He].
    reflexivity.
Qed.

End HostCardQueries.

(** * The earlier sketch *)

Section Slave6EProofs.
Context {Disk : Type} {gw : SdGateway Disk} {bw : Slave6E.SdBuffered Disk}.
Implicit Types s : Slave6E.Bridge Disk.

Ltac parts s :=
  destruct s as [cf dr ce cmd buf oob bp pt lg lr dsk cls].

Ltac branches :=
  repeat (case_match; simplify_eq; cbn in * ).

Ltac z_props :=
  unfold Slave6E.BUFFER_SIZE in *;
  repeat match goal with
  | H : (_ && _) = true |- _ => apply andb_true_iff in H; destruct H
  | H : (_ && _) = false |- _ => apply andb_false_iff in H
  | H : (_ <? _) = true |- _ => apply Z.ltb_lt in H
  | H : (_ <? _) = false |- _ => apply Z.ltb_ge in H
  | H : (_ <=? _) = true |- _ => apply Z.leb_le in H
  | H : (_ <=? _) = false |- _ => apply Z.leb_gt in H
  | H : (_ =? _) = true |- _ => apply Z.eqb_eq in H
  | H : (_ =? _) = false |- _ => apply Z.eqb_neq in H
  end.

(** ** The command buffer *)

Lemma buffer_inv_store i v s :
  Slave6E.buffer_inv s -> 0 <= i <= 63 ->
  Slave6E.buffer_inv (Slave6E.dataBuffer_store i v s)
  /\ Slave6E.bufferPos (Slave6E.dataBuffer_store i v s) = Slave6E.bufferPos s
  /\ Slave6E.cmdState (Slave6E.dataBuffer_store i v s) = Slave6E.cmdState s.
Proof.
  intros (L & B & O & D) Hi. parts s. cbn in *.
  unfold Slave6E.dataBuffer_store, Slave6E.buffer_inv, Slave6E.BUFFER_SIZE. cbn.
  replace ((0 <=? i) && (i <? 64)) with true
    by (symmetry; apply andb_true_iff; split; [apply Z.leb_le | apply Z.ltb_lt]; lia).
  cbn. rewrite length_insert. auto.
Qed.

Lemma buffer_inv_executeCommand s :
  Slave6E.buffer_inv s -> Slave6E.buffer_inv (Slave6E.executeCommand s).
Proof.
  intros H. unfold Slave6E.executeCommand.
  destruct (buffer_inv_store (Slave6E.bufferPos s) 0 s H) as (H1 & _ & _);
    [destruct H as (_ & B & _); exact B|].
  revert H1. generalize (Slave6E.dataBuffer_store (Slave6E.bufferPos s) 0 s).
  clear s H. intros s (L & B & O & D). parts s. cbn in *.
  unfold Slave6E.buffer_inv, Slave6E.do_open, Slave6E.do_close, Slave6E.log,
    Slave6E.LightLED. cbn.
  branches; cbn; repeat split; auto; lia.
Qed.

Lemma buffer_inv_processData data s :
  Slave6E.buffer_inv s -> Slave6E.buffer_inv (Slave6E.processData data s).
Proof.
  intros H. unfold Slave6E.processData.
  destruct (Slave6E.cmdState s =? Slave6E.CMD_NONE).
  { destruct H as (L & B & O & D). parts s. unfold Slave6E.buffer_inv. cbn in *.
    repeat split; auto; lia. }
  assert (H1 : Slave6E.buffer_inv
                 (if Slave6E.bufferPos s <? Slave6E.BUFFER_SIZE - 1
                  then Slave6E.set_bufferPos (u8 (Slave6E.bufferPos s + 1))
                         (Slave6E.dataBuffer_store (Slave6E.bufferPos s) data s)
                  else s)).
  { destruct (Z.ltb_spec (Slave6E.bufferPos s) (Slave6E.BUFFER_SIZE - 1)) as [Hlt|Hge];
      [|exact H].
    unfold Slave6E.BUFFER_SIZE in Hlt.
    destruct H as (L & B & O & D). parts s. cbn in *.
    unfold Slave6E.dataBuffer_store, Slave6E.buffer_inv, Slave6E.BUFFER_SIZE. cbn.
    replace ((0 <=? bp) && (bp <? 64)) with true
      by (symmetry; apply andb_true_iff; split; [apply Z.leb_le | apply Z.ltb_lt]; lia).
    cbn. rewrite length_insert, u8_small by lia. repeat split; auto; lia. }
  revert H1. generalize (if Slave6E.bufferPos s <? Slave6E.BUFFER_SIZE - 1
                         then Slave6E.set_bufferPos (u8 (Slave6E.bufferPos s + 1))
                                (Slave6E.dataBuffer_store (Slave6E.bufferPos s) data s)
                         else s).
  intros x Hx. destruct (data =? 0); [|exact Hx].
  apply buffer_inv_executeCommand.
  apply buffer_inv_store; [exact Hx|]. destruct Hx as (_ & B & _). exact B.
Qed.

Lemma handleListing_closed s :
  Slave6E.dir s = None -> Slave6E.handleListing s = (s, Slave6E.STATUS_ERROR).
Proof. intros H. unfold Slave6E.handleListing. rewrite H. reflexivity. Qed.

Lemma buffer_inv_handleReading s :
  Slave6E.buffer_inv s -> Slave6E.buffer_inv (fst (Slave6E.handleReading s)).
Proof.
  intros (L & B & O & D). parts s. cbn in *.
  unfold Slave6E.handleReading, Slave6E.buffer_inv, Slave6E.do_close, Slave6E.log. cbn.
  branches; cbn; auto.
Qed.

Lemma buffer_inv_ISR st sdata s :
  Slave6E.buffer_inv s -> Slave6E.buffer_inv (fst (Slave6E.ISR st sdata s)).
Proof.
  intros H. unfold Slave6E.ISR.
  destruct (TWI_DIF st); [|exact H].
  destruct (TWI_DIR st); [|apply buffer_inv_processData; exact H].
  destruct (Slave6E.cmdState s =? Slave6E.CMD_NONE); [exact H|].
  destruct ((Slave6E.cmdState s =? Slave6E.STATUS_OK)
            || (Slave6E.cmdState s =? Slave6E.STATUS_ERROR)).
  { destruct H as (L & B & O & D). parts s. unfold Slave6E.buffer_inv. cbn in *. auto. }
  destruct (Slave6E.cmdState s =? Slave6E.CMD_READ).
  { pose proof (buffer_inv_handleReading s H) as H1.
    destruct (Slave6E.handleReading s). exact H1. }
  destruct (Slave6E.cmdState s =? Slave6E.DIR_LIST); [|exact H].
  rewrite handleListing_closed; [exact H | apply H].
Qed.

Lemma buffer_inv_run h : forall s,
  Slave6E.buffer_inv s -> Slave6E.buffer_inv (fst (Slave6E.run h s)).
Proof.
  induction h as [|[st sdata] h IH]; intros s H; [exact H|].
  cbn [Slave6E.run]. pose proof (buffer_inv_ISR st sdata s H) as H1.
  destruct (Slave6E.ISR st sdata s) as [s1 r]. specialize (IH s1 H1).
  destruct (Slave6E.run h s1). exact IH.
Qed.

(** X23. Whatever the host sends, the earlier sketch keeps [bufferPos]
    within 0..63 and never stores outside [dataBuffer]; and since nothing
    ever opens [dir], no listing is ever available. *)
Theorem command_buffer_never_overflows h (d : Disk) green red :
  let s := fst (Slave6E.run h (Slave6E.boot d green red)) in
  length (Slave6E.dataBuffer s) = 64%nat
  /\ 0 <= Slave6E.bufferPos s <= 63
  /\ Slave6E.dataBuffer_oob s = []
  /\ Slave6E.dir s = None.
Proof.
  apply (buffer_inv_run h). unfold Slave6E.buffer_inv. cbn. repeat split; lia.
Qed.


(** ** Writing to the open file *)

Lemma write_interrupt b s :
  Slave6E.ISR (MkSStatus false false false true false) b s
  = (Slave6E.processData (u8 b) s, None).
Proof. reflexivity. Qed.

Lemma payload_byte b s :
  Slave6E.cmdState s <> Slave6E.CMD_NONE -> b <> 0 ->
  0 <= Slave6E.bufferPos s < 63 ->
  Slave6E.processData b s
  = Slave6E.set_bufferPos (Slave6E.bufferPos s + 1)
      (Slave6E.set_dataBuffer
         (<[Z.to_nat (Slave6E.bufferPos s) := b]> (Slave6E.dataBuffer s)) s).
Proof.
  intros Hc Hb Hp. unfold Slave6E.processData, Slave6E.dataBuffer_store, Slave6E.BUFFER_SIZE.
  apply Z.eqb_neq in Hc, Hb. rewrite Hc, Hb.
  replace (Slave6E.bufferPos s <? 64 - 1) with true by (symmetry; apply Z.ltb_lt; lia).
  replace ((0 <=? Slave6E.bufferPos s) && (Slave6E.bufferPos s <? 64)) with true
    by (symmetry; apply andb_true_iff; split; [apply Z.leb_le | apply Z.ltb_lt]; lia).
  rewrite u8_small by lia. reflexivity.
Qed.

Lemma payload_buffered payload : forall s pre,
  Slave6E.cmdState s <> Slave6E.CMD_NONE ->
  Forall (fun b => 0 < b < 256) payload ->
  Slave6E.bufferPos s = Z.of_nat (length pre) ->
  length (Slave6E.dataBuffer s) = 64%nat ->
  take (length pre) (Slave6E.dataBuffer s) = pre ->
  (length pre + length payload <= 63)%nat ->
  let s' := fst (Slave6E.run (master_writes payload) s) in
  Slave6E.bufferPos s' = Z.of_nat (length pre + length payload)
  /\ take (length pre + length payload) (Slave6E.dataBuffer s') = pre ++ payload
  /\ length (Slave6E.dataBuffer s') = 64%nat
  /\ (Slave6E.cmdState s', Slave6E.currentFile s', Slave6E.disk s', Slave6E.calls s',
      Slave6E.dataBuffer_oob s', Slave6E.dir s')
     = (Slave6E.cmdState s, Slave6E.currentFile s, Slave6E.disk s, Slave6E.calls s,
        Slave6E.dataBuffer_oob s, Slave6E.dir s).
Proof.
  induction payload as [|b payload IH]; intros s pre Hc Hb Hp Hl Ht Hfit;
    cbn [master_writes map Slave6E.run].
  - cbn. rewrite Nat.add_0_r, app_nil_r. auto.
  - apply Forall_cons in Hb as [Hb0 Hb]. cbn [length] in Hfit.
    rewrite write_interrupt, u8_small by lia.
    rewrite payload_byte by (auto; lia).
    set (s1 := Slave6E.set_bufferPos _ _).
    assert (F1 : Slave6E.dataBuffer s1 = <[length pre := b]> (Slave6E.dataBuffer s)).
    { subst s1. parts s. cbn in *. rewrite Hp, Nat2Z.id. reflexivity. }
    assert (Hk : Slave6E.dataBuffer s1 !! length pre = Some b).
    { rewrite F1. apply list_lookup_insert_eq. lia. }
    destruct (IH s1 (pre ++ [b])) as (P2 & T2 & L2 & E2).
    + subst s1. parts s. exact Hc.
    + exact Hb.
    + subst s1. parts s. cbn in *. rewrite Hp, length_app. cbn. lia.
    + rewrite F1, length_insert. exact Hl.
    + rewrite length_app. cbn [length]. rewrite Nat.add_1_r.
      rewrite (take_S_r _ _ _ Hk). f_equal.
      rewrite F1, take_insert_ge by lia. exact Ht.
    + rewrite length_app. cbn [length]. lia.
    + fold (master_writes payload).
      destruct (Slave6E.run (master_writes payload) s1) as [s2 r2]. cbn [fst snd] in *.
      rewrite length_app in P2, T2. cbn [length] in P2, T2 |- *.
      replace (length pre + S (length payload))%nat
        with (length pre + 1 + length payload)%nat by lia.
      rewrite <- app_assoc in T2. cbn [app] in T2.
      rewrite P2, T2, L2, E2. subst s1. parts s. cbn. auto.
Qed.

Lemma run_history_app (h1 h2 : list (SStatus * Z)) : forall s,
  fst (Slave6E.run (h1 ++ h2) s) = fst (Slave6E.run h2 (fst (Slave6E.run h1 s))).
Proof.
  induction h1 as [|[st b] h1 IH]; intros x; [reflexivity|].
  cbn [app Slave6E.run]. destruct (Slave6E.ISR st b x) as [x1 r1].
  specialize (IH x1). destruct (Slave6E.run (h1 ++ h2) x1).
  destruct (Slave6E.run h1 x1). cbn [fst] in *. exact IH.
Qed.

Lemma run_one_write b s :
  fst (Slave6E.run (master_writes [b]) s) = Slave6E.processData (u8 b) s.
Proof. reflexivity. Qed.

(** X24. A write command of the earlier sketch hands the buffered bytes to
    the library together with the zero byte that ends them, flushes, and
    leaves the file open: the branch that would close the file on an empty
    buffer is not taken. *)
Theorem file_write_includes_terminator payload nd s :
  Slave6E.buffer_inv s ->
  Slave6E.cmdState s = Slave6E.CMD_NONE ->
  Slave6E.currentFile s = Some nd ->
  Forall (fun b => 0 < b < 256) payload -> (length payload <= 62)%nat ->
  let r := fst (Slave6E.run
                  (master_writes (Slave6E.CMD_FILE_WRITE :: payload ++ [0])) s) in
  Slave6E.calls r
  = Slave6E.calls s ++ [Slave6E.Lib_write (payload ++ [0]); Slave6E.Lib_flush]
  /\ isOpen (Slave6E.currentFile r) = true
  /\ Slave6E.bufferPos r = 0.
Proof.
  intros (L & B & O & D) Hc Hf Hb Hfit. cbn zeta.
  assert (E : fst (Slave6E.run
                     (master_writes (Slave6E.CMD_FILE_WRITE :: payload ++ [0])) s)
              = Slave6E.processData (u8 0)
                  (fst (Slave6E.run (master_writes payload)
                          (Slave6E.processData (u8 Slave6E.CMD_FILE_WRITE) s)))).
  { change (master_writes (Slave6E.CMD_FILE_WRITE :: payload ++ [0]))
      with (master_writes [Slave6E.CMD_FILE_WRITE] ++ master_writes (payload ++ [0])).
    unfold master_writes at 2. rewrite map_app.
    fold (master_writes payload). fold (master_writes [0]).
    rewrite !run_history_app, !run_one_write. reflexivity. }
  rewrite E. clear E.
  assert (E0 : Slave6E.processData (u8 Slave6E.CMD_FILE_WRITE) s
               = Slave6E.set_bufferPos 0 (Slave6E.set_cmdState Slave6E.CMD_FILE_WRITE s)).
  { unfold Slave6E.processData. rewrite Hc. reflexivity. }
  rewrite E0. clear E0.
  assert (H0 : exists s0, s0 = Slave6E.set_bufferPos 0
                                 (Slave6E.set_cmdState Slave6E.CMD_FILE_WRITE s)
               /\ Slave6E.cmdState s0 = Slave6E.CMD_FILE_WRITE
               /\ Slave6E.currentFile s0 = Some nd
               /\ Slave6E.calls s0 = Slave6E.calls s
               /\ Slave6E.bufferPos s0 = 0
               /\ length (Slave6E.dataBuffer s0) = 64%nat).
  { eexists. split; [reflexivity|]. parts s. cbn in *. auto. }
  destruct H0 as (s0 & <- & C0 & F0 & Lg0 & P0 & L0).
  destruct (payload_buffered payload s0 []) as (P1 & T1 & L1 & E1);
    [rewrite C0; discriminate | exact Hb | exact P0 | exact L0 | reflexivity
    | cbn; lia |].
  revert P1 T1 L1 E1. generalize (fst (Slave6E.run (master_writes payload) s0)).
  intros s1 P1 T1 L1 E1. cbn [length Nat.add app] in P1, T1.
  injection E1 as C1 F1 D1 Lg1 O1 Dr1.
  rewrite C0 in C1. rewrite F0 in F1. rewrite Lg0 in Lg1.
  clear C0 F0 Lg0 P0 L0 D1 O1 Dr1 s0.
  change (u8 0) with 0.
  parts s1. cbn in P1, T1, L1, C1, F1, Lg1. subst cmd cf cls bp.
  unfold Slave6E.processData, Slave6E.dataBuffer_store, Slave6E.BUFFER_SIZE. cbn.
  replace (Z.of_nat (length payload) <? 64 - 1) with true by (symmetry; apply Z.ltb_lt; lia).
  replace ((0 <=? Z.of_nat (length payload)) && (Z.of_nat (length payload) <? 64))
    with true
    by (symmetry; apply andb_true_iff; split; [apply Z.leb_le | apply Z.ltb_lt]; lia).
  cbn. rewrite (u8_small (Z.of_nat (length payload) + 1)) by lia.
  replace ((0 <=? Z.of_nat (length payload) + 1)
           && (Z.of_nat (length payload) + 1 <? 64)) with true
    by (symmetry; apply andb_true_iff; split; [apply Z.leb_le | apply Z.ltb_lt]; lia).
  cbn. unfold Slave6E.executeCommand, Slave6E.dataBuffer_store, Slave6E.BUFFER_SIZE. cbn.
  replace ((0 <=? Z.of_nat (length payload) + 1)
           && (Z.of_nat (length payload) + 1 <? 64)) with true
    by (symmetry; apply andb_true_iff; split; [apply Z.leb_le | apply Z.ltb_lt]; lia).
  cbn.
  replace (0 <? Z.of_nat (length payload) + 1) with true by (symmetry; apply Z.ltb_lt; lia).
  set (buf' := <[Z.to_nat (Z.of_nat (length payload) + 1) := 0]>
                 (<[Z.to_nat (Z.of_nat (length payload) + 1) := 0]>
                    (<[Z.to_nat (Z.of_nat (length payload)) := 0]> buf))).
  assert (Hbuf : take (Z.to_nat (Z.of_nat (length payload) + 1)) buf' = payload ++ [0]).
  { subst buf'. replace (Z.to_nat (Z.of_nat (length payload) + 1))
      with (S (length payload)) by lia.
    rewrite Nat2Z.id, !take_insert_ge by lia.
    rewrite (take_S_r _ _ 0); [|apply list_lookup_insert_eq; lia].
    rewrite take_insert_ge by lia. rewrite T1. reflexivity. }
  unfold Slave6E.log. cbn. rewrite Hbuf.
  destruct (Slave6E.file_write_buffer dsk nd (payload ++ [0])) as [[d1 n1] w].
  cbn. destruct (w =? Z.of_nat (length payload) + 1); cbn;
    rewrite <- app_assoc; auto.
Qed.


(** ** Codes without a meaning *)

Lemma implemented_false c :
  Slave6E.implemented c = false ->
  (c =? Slave6E.CMD_NONE) = false /\ (c =? Slave6E.STATUS_OK) = false
  /\ (c =? Slave6E.STATUS_ERROR) = false /\ (c =? Slave6E.CMD_INIT) = false
  /\ (c =? Slave6E.CMD_FILE_CREATE) = false /\ (c =? Slave6E.CMD_FILE_WRITE) = false
  /\ (c =? Slave6E.CMD_READ) = false.
Proof.
  unfold Slave6E.implemented. rewrite !orb_false_iff.
  change Slave6E.STATUS_OK with Slave6E.CMD_NONE. tauto.
Qed.

Lemma stuck_executeCommand c s :
  inert c -> Slave6E.cmdState s = c ->
  let s' := Slave6E.executeCommand s in
  Slave6E.cmdState s' = c /\ Slave6E.calls s' = Slave6E.calls s
  /\ Slave6E.currentFile s' = Slave6E.currentFile s.
Proof.
  intros (E0 & E3 & E4 & E5 & E6) Hc.
  parts s. cbn in *. subst cmd.
  unfold Slave6E.executeCommand, Slave6E.dataBuffer_store. cbn.
  destruct ((0 <=? bp) && (bp <? Slave6E.BUFFER_SIZE)); cbn;
    rewrite E3, E4, E5, E6; cbn; auto.
Qed.

Lemma stuck_processData c data s :
  inert c -> Slave6E.cmdState s = c ->
  let s' := Slave6E.processData data s in
  Slave6E.cmdState s' = c /\ Slave6E.calls s' = Slave6E.calls s
  /\ Slave6E.currentFile s' = Slave6E.currentFile s.
Proof.
  intros Hi Hc. pose proof Hi as (E0 & _).
  cbn zeta. unfold Slave6E.processData. rewrite Hc, E0.
  set (s1 := if Slave6E.bufferPos s <? Slave6E.BUFFER_SIZE - 1 then _ else s).
  assert (H1 : Slave6E.cmdState s1 = c /\ Slave6E.calls s1 = Slave6E.calls s
               /\ Slave6E.currentFile s1 = Slave6E.currentFile s).
  { subst s1. destruct (Slave6E.bufferPos s <? Slave6E.BUFFER_SIZE - 1); [|auto].
    parts s. cbn in *. unfold Slave6E.dataBuffer_store. cbn.
    destruct ((0 <=? bp) && (bp <? Slave6E.BUFFER_SIZE)); cbn; auto. }
  clearbody s1. destruct H1 as (C1 & L1 & F1).
  destruct (data =? 0); [|auto].
  set (s2 := Slave6E.dataBuffer_store (Slave6E.bufferPos s1) 0 s1).
  assert (H2 : Slave6E.cmdState s2 = c /\ Slave6E.calls s2 = Slave6E.calls s
               /\ Slave6E.currentFile s2 = Slave6E.currentFile s).
  { subst s2. rewrite <- C1, <- L1, <- F1. parts s1. cbn in *.
    unfold Slave6E.dataBuffer_store. cbn.
    destruct ((0 <=? bp) && (bp <? Slave6E.BUFFER_SIZE)); cbn; auto. }
  clearbody s2. destruct H2 as (C2 & L2 & F2).
  destruct (stuck_executeCommand c s2 Hi C2) as (C3 & L3 & F3).
  rewrite C3, L3, F3. auto.
Qed.

Lemma stuck_ISR c st sdata s :
  Slave6E.implemented c = false ->
  Slave6E.dir s = None -> Slave6E.cmdState s = c ->
  let r := Slave6E.ISR st sdata s in
  Slave6E.cmdState (fst r) = c /\ Slave6E.calls (fst r) = Slave6E.calls s
  /\ Slave6E.currentFile (fst r) = Slave6E.currentFile s
  /\ (snd r = None \/ snd r = Some (stuck_answer c)).
Proof.
  intros Hi Hd Hc. destruct (implemented_false c Hi) as (E0 & E1 & E2 & E3 & E4 & E5 & E6).
  cbn zeta. unfold Slave6E.ISR.
  destruct (TWI_DIF st); [|cbn; auto].
  destruct (TWI_DIR st).
  - rewrite Hc, E0, E1, E2, E6. cbn [orb]. unfold stuck_answer.
    destruct (c =? Slave6E.DIR_LIST).
    + rewrite (handleListing_closed s Hd). cbn. auto.
    + cbn. auto.
  - cbn [fst snd].
    destruct (stuck_processData c (u8 sdata) s) as (A & B & C);
      [unfold inert; auto 10 | exact Hc | auto].
Qed.

(** X25. A command code the earlier sketch gives no meaning locks it up:
    once such a code is the command state, it stays the command state
    whatever the host writes or reads, no library call is made any more,
    and every byte read is that code (0xFF for the listing code, whose
    directory is never opened). *)
Theorem unimplemented_code_locks_bridge c h : forall s,
  Slave6E.implemented c = false ->
  Slave6E.buffer_inv s -> Slave6E.cmdState s = c ->
  let r := Slave6E.run h s in
  Slave6E.cmdState (fst r) = c
  /\ Slave6E.calls (fst r) = Slave6E.calls s
  /\ Slave6E.currentFile (fst r) = Slave6E.currentFile s
  /\ Forall (fun b => b = stuck_answer c) (snd r).
Proof.
  induction h as [|[st sdata] h IH]; intros s Hi Hb Hc; cbn zeta.
  - cbn. auto.
  - cbn [Slave6E.run].
    destruct (stuck_ISR c st sdata s Hi) as (C1 & L1 & F1 & R1); [apply Hb | exact Hc |].
    pose proof (buffer_inv_ISR st sdata s Hb) as B1.
    destruct (Slave6E.ISR st sdata s) as [s1 r1]. cbn [fst snd] in *.
    specialize (IH s1 Hi B1 C1). cbn zeta in IH.
    destruct (Slave6E.run h s1) as [s2 rs]. cbn [fst snd] in *.
    destruct IH as (C2 & L2 & F2 & R2).
    rewrite C2, L2, F2, L1, F1. repeat split; try reflexivity.
    destruct R1 as [-> | ->]; [exact R2 | constructor; [reflexivity | exact R2]].
Qed.

(** X26. After a failed command the error status stays until it is read:
    whatever the host writes meanwhile is buffered and dropped, with no
    library call; the first read returns 0xFF and clears the state for the
    next command. *)
Theorem error_status_holds_until_read bs s :
  Slave6E.buffer_inv s -> Slave6E.cmdState s = Slave6E.STATUS_ERROR ->
  let s1 := fst (Slave6E.run (master_writes bs) s) in
  Slave6E.cmdState s1 = Slave6E.STATUS_ERROR
  /\ Slave6E.calls s1 = Slave6E.calls s
  /\ Slave6E.currentFile s1 = Slave6E.currentFile s
  /\ snd (Slave6E.run (master_reads 1) s1) = [Slave6E.STATUS_ERROR]
  /\ Slave6E.cmdState (fst (Slave6E.run (master_reads 1) s1)) = Slave6E.CMD_NONE.
Proof.
  intros Hb Hc. cbn zeta.
  assert (G : forall bs s,
            Slave6E.cmdState s = Slave6E.STATUS_ERROR ->
            let s1 := fst (Slave6E.run (master_writes bs) s) in
            Slave6E.cmdState s1 = Slave6E.STATUS_ERROR
            /\ Slave6E.calls s1 = Slave6E.calls s
            /\ Slave6E.currentFile s1 = Slave6E.currentFile s).
  { clear. induction bs as [|b bs IH]; intros s Hc; cbn zeta; [cbn; auto|].
    cbn [master_writes map Slave6E.run]. rewrite write_interrupt.
    fold (master_writes bs).
    destruct (stuck_processData Slave6E.STATUS_ERROR (u8 b) s) as (C1 & L1 & F1);
      [unfold inert; auto 10 | exact Hc |].
    specialize (IH (Slave6E.processData (u8 b) s) C1). cbn zeta in IH.
    destruct (Slave6E.run (master_writes bs) (Slave6E.processData (u8 b) s)) as [s2 rs].
    cbn [fst] in *. destruct IH as (C2 & L2 & F2). rewrite C2, L2, F2. auto. }
  destruct (G bs s Hc) as (C1 & L1 & F1).
  revert C1 L1 F1. generalize (fst (Slave6E.run (master_writes bs) s)).
  intros s1 C1 L1 F1. split; [exact C1|]. split; [exact L1|]. split; [exact F1|].
  unfold master_reads. cbn [replicate Slave6E.run]. unfold Slave6E.ISR. cbn.
  rewrite C1. cbn. auto.
Qed.


(** ** Reading a file *)

Lemma read_interrupt s :
  Slave6E.cmdState s = Slave6E.CMD_READ ->
  Slave6E.ISR (MkSStatus false false true true false) 0 s
  = (fst (Slave6E.handleReading s), Some (snd (Slave6E.handleReading s))).
Proof.
  intros Hc. unfold Slave6E.ISR. cbn [TWI_DIF TWI_DIR]. rewrite Hc.
  change (Slave6E.CMD_READ =? Slave6E.CMD_NONE) with false.
  change ((Slave6E.CMD_READ =? Slave6E.STATUS_OK)
          || (Slave6E.CMD_READ =? Slave6E.STATUS_ERROR)) with false.
  change (Slave6E.CMD_READ =? Slave6E.CMD_READ) with true. cbn iota.
  destruct (Slave6E.handleReading s). reflexivity.
Qed.

Lemma reads_after_close k : forall s,
  Slave6E.cmdState s = Slave6E.CMD_READ -> Slave6E.currentFile s = None ->
  Slave6E.run (master_reads k) s = (s, replicate k Slave6E.STATUS_ERROR).
Proof.
  induction k as [|k IH]; intros s Hc Hf; [reflexivity|].
  cbn [master_reads replicate Slave6E.run]. rewrite (read_interrupt s Hc).
  unfold Slave6E.handleReading. rewrite Hf. cbn [isOpen negb fst snd].
  fold (master_reads k). rewrite (IH s Hc Hf). reflexivity.
Qed.

(** X27. Under the read command of the earlier sketch the host receives
    the unread bytes of the file in order, then STATUS_DONE once, then
    STATUS_ERROR on every further read; the file is closed when its end is
    found, and the command state stays CMD_READ throughout. *)
Theorem file_read_then_done k unread : forall isDir name size pending s,
  Slave6E.cmdState s = Slave6E.CMD_READ ->
  Slave6E.currentFile s = Some (MkNode isDir name size unread pending) ->
  let r := Slave6E.run (master_reads (length unread + 1 + k)) s in
  snd r = map u8 unread ++ Slave6E.STATUS_DONE :: replicate k Slave6E.STATUS_ERROR
  /\ Slave6E.cmdState (fst r) = Slave6E.CMD_READ
  /\ Slave6E.currentFile (fst r) = None
  /\ Slave6E.calls (fst r)
     = Slave6E.calls s
       ++ concat (map (fun _ => [Slave6E.Lib_available; Slave6E.Lib_read]) unread)
       ++ [Slave6E.Lib_available; Slave6E.Lib_close].
Proof.
  induction unread as [|b unread IH]; intros isDir name size pending s Hc Hf; cbn zeta.
  - cbn [length Nat.add master_reads replicate Slave6E.run].
    rewrite (read_interrupt s Hc).
    set (s1 := fst (Slave6E.handleReading s)).
    assert (H1 : Slave6E.cmdState s1 = Slave6E.CMD_READ /\ Slave6E.currentFile s1 = None
                 /\ Slave6E.calls s1
                    = Slave6E.calls s ++ [Slave6E.Lib_available; Slave6E.Lib_close]
                 /\ snd (Slave6E.handleReading s) = Slave6E.STATUS_DONE).
    { subst s1. parts s. cbn in Hc, Hf. subst cmd cf.
      unfold Slave6E.handleReading, Slave6E.do_close, Slave6E.log. cbn.
      rewrite <- app_assoc. auto. }
    destruct H1 as (C1 & F1 & L1 & R1). rewrite R1.
    fold (master_reads k). rewrite (reads_after_close k s1 C1 F1). cbn. auto.
  - cbn [length Nat.add master_reads replicate Slave6E.run].
    rewrite (read_interrupt s Hc).
    set (s1 := fst (Slave6E.handleReading s)).
    assert (H1 : Slave6E.cmdState s1 = Slave6E.CMD_READ
                 /\ Slave6E.currentFile s1 = Some (MkNode isDir name size unread pending)
                 /\ Slave6E.calls s1
                    = Slave6E.calls s ++ [Slave6E.Lib_available; Slave6E.Lib_read]
                 /\ snd (Slave6E.handleReading s) = u8 b).
    { subst s1. parts s. cbn in Hc, Hf. subst cmd cf.
      unfold Slave6E.handleReading, Slave6E.log. cbn.
      rewrite <- app_assoc. auto. }
    destruct H1 as (C1 & F1 & L1 & R1). rewrite R1.
    fold (master_reads (length unread + 1 + k)).
    specialize (IH isDir name size pending s1 C1 F1). cbn zeta in IH.
    destruct (Slave6E.run (master_reads (length unread + 1 + k)) s1) as [s2 rs].
    cbn [fst snd] in *. destruct IH as (R2 & C2 & F2 & L2).
    rewrite R2, C2, F2, L2, L1. cbn [map concat]. rewrite <- !app_assoc. auto.
Qed.

End Slave6EProofs.

Section EngineRefusals.
Context {Disk : Type} {gw : SdGateway Disk}.
Implicit Types s : State Disk.

Ltac fields s :=
  destruct s as [cmd chv ptrv cnk fname oob fsz vblk vclu vfat clk rbuf rptr
                 mf dcd dce dst dbc dfb des ddo sdata pb2 pb3 dsk cls].

Ltac branches :=
  repeat (case_match; simplify_eq; cbn in * ).

(** ** Bytes the engine refuses *)

(** X28. Once a command is active, a data byte is acknowledged only under
    ['F'], ['W'], ['A'] and ['C']; a byte that is refused changes nothing
    but the data register, and reaches neither the card nor a buffer. *)
Theorem refused_byte_changes_nothing b s :
  command s <> 0 -> file_command_has_file s ->
  let r := on_event (EvDataWrite b) s in
  (snd r = Nacked -> fst r = set_SDATA (u8 b) s)
  /\ (snd r = Acked ->
      command s = chr_F \/ command s = chr_W \/ command s = chr_A \/ command s = chr_C)
  /\ (snd r = Acked \/ snd r = Nacked).
Proof.
  intros Hc Hf. cbn zeta. rewrite on_event_DataWrite.
  unfold file_command_has_file, file_command in Hf.
  apply Z.eqb_neq in Hc. fields s. cbn in Hc, Hf.
  unfold DataHostWrite, Filename_store. cbn. rewrite Hc.
  destruct (Z.eqb_spec cmd chr_F) as [->|HF].
  { branches; repeat split; auto; discriminate. }
  destruct (Z.eqb_spec cmd chr_W) as [->|HW].
  { cbn. destruct mf as [nd|]; [|discriminate (Hf eq_refl)].
    destruct (file_write dsk nd (u8 b)). cbn. repeat split; auto; discriminate. }
  destruct (Z.eqb_spec cmd chr_A) as [->|HA].
  { cbn. destruct mf as [nd|]; [|discriminate (Hf eq_refl)].
    destruct (file_write dsk nd (u8 b)). cbn. repeat split; auto; discriminate. }
  cbn. destruct (Z.eqb_spec cmd chr_C) as [->|HC].
  { branches; repeat split; auto; discriminate. }
  cbn. repeat split; auto; discriminate.
Qed.

End EngineRefusals.

(** * The further properties at work *)

Lemma sendable_A_TXT : sendable name_A_TXT.
Proof.
  split; [discriminate|]. split; [vm_compute; lia|].
  apply (bool_decide_unpack _). vm_compute. exact I.
Qed.

Lemma quiet_boot_ok : quiet boot_ok.
Proof. split; reflexivity. Qed.

Lemma filename_round_trip_witness :
  c_str (Filename (fst (run (set_filename name_A_TXT) boot_ok))) = name_A_TXT
  /\ snd (run (set_filename name_A_TXT) boot_ok) = replicate 7 Acked ++ [Completed].
Proof.
  destruct (filename_round_trip boot_ok name_A_TXT) as (H1 & _ & H2).
  - reflexivity.
  - discriminate.
  - vm_compute. lia.
  - apply (bool_decide_unpack _). vm_compute. exact I.
  - split; [exact H1 | exact H2].
Defined.

Lemma filename_persists_witness :
  Filename (fst (on_event EvStop size_probe)) = Filename size_probe.
Proof.
  destruct (filename_persists EvStop size_probe) as [H _].
  - intros b Hb. discriminate Hb.
  - exact H.
Defined.

Lemma write_bytes_reach_file_witness :
  calls (fst (run (map EvDataWrite [72; 105]) write_probe))
  = calls write_probe ++ [File_write 72; File_write 105].
Proof.
  destruct (write_bytes_reach_file [72; 105] write_probe) as (_ & H & _).
  - left. reflexivity.
  - reflexivity.
  - vm_compute in H |- *. exact H.
Defined.

Lemma read_bytes_stream_witness :
  snd (run (replicate 3 (EvDataRead false)) read_probe) = [Sent 85; Sent 85; Sent 85].
Proof.
  destruct (read_bytes_stream 3 read_probe file_A_TXT) as (H & _).
  - reflexivity.
  - reflexivity.
  - vm_compute in H |- *. exact H.
Defined.

Lemma directory_probe_closes_handle_witness :
  snd (on_event (EvDataRead false) isdir_probe) = Sent 1
  /\ calls (fst (on_event (EvDataRead false) isdir_probe))
     = calls isdir_probe ++ [SD_open name_root O_READ_mode; File_isDirectory; File_close].
Proof.
  assert (Hc : command isdir_probe = chr_K) by (vm_compute; reflexivity).
  destruct (directory_probe_closes_handle isdir_probe Hc) as (H1 & H2 & _).
  vm_compute in H1, H2 |- *. split; [exact H1 | exact H2].
Defined.


Lemma response_survives_single_byte_requests_witness :
  snd (run (polls 3) listing_probe) = concat (map polled [68; 76; 79]).
Proof.
  assert (HV : command listing_probe <> chr_V) by (vm_compute; discriminate).
  assert (HS : command listing_probe <> chr_S) by (vm_compute; discriminate).
  assert (He : emits listing_probe [68; 76; 79]
                 (fst (run (replicate 3 (EvDataRead false)) listing_probe)))
    by (vm_compute; reflexivity).
  pose proof (response_survives_single_byte_requests [68; 76; 79] listing_probe _ HV HS He)
    as H.
  apply (f_equal snd) in H. exact H.
Defined.

Lemma size_restarts_at_each_read_address_witness :
  snd (run (polls 3) size_probe)
  = [Acked; Sent 0; Absorbed; Acked; Sent 0; Absorbed; Acked; Sent 0; Absorbed]
  /\ calls (fst (run (polls 3) size_probe))
     = calls size_probe ++ [File_size; File_size; File_size].
Proof.
  assert (Hc : command size_probe = chr_S) by (vm_compute; reflexivity).
  destruct (size_restarts_at_each_read_address 3 size_probe Hc) as [H1 H2].
  vm_compute in H1, H2 |- *. split; [exact H1 | exact H2].
Defined.

Lemma setBridgeTime_sets_clock_witness :
  clock (fst (Host.setBridgeTime 2024 7 26 10 30 0 boot_ok)) = MkClock 2024 7 26 10 30 0.
Proof.
  destruct (setBridgeTime_sets_clock 2024 7 26 10 30 0 boot_ok) as (_ & H & _);
    try lia; [reflexivity|].
  exact H.
Defined.

Lemma checkExists_answer_witness :
  snd (Host.checkExists name_A_TXT false boot_ok) = true
  /\ calls (fst (Host.checkExists name_A_TXT false boot_ok)) = [SD_exists name_A_TXT].
Proof.
  destruct (checkExists_answer name_A_TXT false boot_ok quiet_boot_ok sendable_A_TXT)
    as [H1 H2].
  split; [exact H1 | exact H2].
Defined.

Lemma create_and_remove_once_witness :
  snd (Host.makeDirectory name_A_TXT boot_ok) = false
  /\ calls (fst (Host.makeDirectory name_A_TXT boot_ok)) = [SD_mkdir name_A_TXT]
  /\ snd (Host.removeFile name_A_TXT boot_ok) = true.
Proof.
  destruct (create_and_remove_once name_A_TXT boot_ok quiet_boot_ok sendable_A_TXT)
    as ((H1 & H2 & _) & (H3 & _) & _).
  split; [exact H1 | split; [exact H2 | exact H3]].
Defined.

Lemma getFileSize_result_witness :
  snd (Host.getFileSize name_A_TXT boot_ok) = 263
  /\ calls (fst (Host.getFileSize name_A_TXT boot_ok))
     = [SD_open name_A_TXT O_READ_mode; File_size].
Proof.
  destruct (getFileSize_result name_A_TXT boot_ok quiet_boot_ok sendable_A_TXT)
    as (H1 & H2 & _).
  split; [exact H1 | exact H2].
Defined.

Lemma readFileContent_delivers_file_witness :
  exists s',
    Host.readFileContent_loop 263 263 0 [] read_probe = Some (s', replicate 263 85).
Proof.
  destruct (readFileContent_delivers_file 263 file_A_TXT read_probe) as (s' & H & _).
  - reflexivity.
  - reflexivity.
  - vm_compute. lia.
  - exists s'. exact H.
Defined.

Lemma listDirectory_rows_witness :
  exists fin,
    Host.listDirectory 22 name_root boot_ok
    = Some (fin, Some [(68, 0, [76; 79; 71; 83]); (70, 263, [65; 46; 84; 88; 84])]).
Proof.
  destruct (listDirectory_rows 22 name_root boot_ok quiet_boot_ok) as (fin & H).
  - split; [discriminate|]. split; [vm_compute; lia|].
    apply (bool_decide_unpack _). vm_compute. exact I.
  - apply (bool_decide_unpack _). vm_compute. exact I.
  - vm_compute. lia.
  - exists fin. exact H.
Defined.

Lemma writable_A_TXT : writable (holds_file name_A_TXT) name_A_TXT.
Proof.
  split; [|split].
  - intros d m (n & Hn & Hd) Hm. cbn. unfold sim_open. rewrite Hn.
    destruct m; [congruence | |].
    + rewrite Hd. cbn. split; [reflexivity|].
      eexists. cbn. rewrite bool_decide_eq_true_2 by reflexivity. split; reflexivity.
    + cbn. split; [reflexivity|]. exists n. auto.
  - intros d nd b H. exact H.
  - intros d nd H. exact H.
Qed.

Lemma holds_file_boot_ok : holds_file name_A_TXT (disk boot_ok).
Proof. exists file_A_TXT. split; reflexivity. Qed.

Lemma writeFile_writes_message_witness :
  exists fin new,
    Host.writeFile name_A_TXT message_40 chr_W boot_ok = Some (fin, true)
    /\ calls fin = new
    /\ omap written new = message_40
    /\ myFile fin = None.
Proof.
  destruct (writeFile_writes_message (holds_file name_A_TXT) name_A_TXT message_40 chr_W
              boot_ok writable_A_TXT quiet_boot_ok sendable_A_TXT holds_file_boot_ok)
    as (fin & new & H1 & H2 & H3 & _ & _ & H4).
  - discriminate.
  - apply (bool_decide_unpack _). vm_compute. exact I.
  - left. reflexivity.
  - exists fin, new. auto.
Defined.

Lemma writeFile1_opens_per_byte_witness :
  exists fin,
    Host.writeFile1 name_A_TXT [72; 105] chr_W boot_ok = (fin, true)
    /\ calls fin
       = [SD_open name_A_TXT O_TRUNC_mode; File_write 72; File_close;
          SD_open name_A_TXT O_TRUNC_mode; File_write 105; File_close].
Proof.
  destruct (writeFile1_opens_per_byte (holds_file name_A_TXT) name_A_TXT [72; 105] chr_W
              boot_ok writable_A_TXT quiet_boot_ok sendable_A_TXT holds_file_boot_ok)
    as (fin & H1 & H2).
  - discriminate.
  - apply (bool_decide_unpack _). vm_compute. exact I.
  - left. reflexivity.
  - exists fin. split; [exact H1 | exact H2].
Defined.


Lemma getVolumeInfo_result_witness :
  snd (Host.getVolumeInfo boot_ok) = Some (16, 64, 70000)
  /\ snd (Host.getVolumeInfo boot_failing) = None.
Proof.
  split.
  - exact (getVolumeInfo_result boot_ok eq_refl).
  - exact (getVolumeInfo_result boot_failing eq_refl).
Defined.

Lemma file_write_includes_terminator_witness :
  Slave6E.calls
    (fst (Slave6E.run (master_writes (Slave6E.CMD_FILE_WRITE :: [72; 105] ++ [0]))
            created_6E))
  = Slave6E.calls created_6E ++ [Slave6E.Lib_write [72; 105; 0]; Slave6E.Lib_flush].
Proof.
  destruct (file_write_includes_terminator [72; 105]
              (MkNode false name_A_TXT 263 (replicate 263 85) []) created_6E)
    as (H & _).
  - vm_compute. repeat split; discriminate || reflexivity.
  - reflexivity.
  - reflexivity.
  - repeat constructor; lia.
  - vm_compute. lia.
  - exact H.
Defined.

Lemma unimplemented_code_locks_bridge_witness :
  Slave6E.cmdState
    (fst (Slave6E.run (master_writes (Slave6E.CMD_READ :: name_A_TXT ++ [0])
                       ++ master_reads 2) deleting_6E))
  = Slave6E.CMD_FILE_DELETE
  /\ snd (Slave6E.run (master_writes (Slave6E.CMD_READ :: name_A_TXT ++ [0])
                       ++ master_reads 2) deleting_6E)
     = [Slave6E.CMD_FILE_DELETE; Slave6E.CMD_FILE_DELETE].
Proof.
  destruct (unimplemented_code_locks_bridge Slave6E.CMD_FILE_DELETE
              (master_writes (Slave6E.CMD_READ :: name_A_TXT ++ [0]) ++ master_reads 2)
              deleting_6E) as (H1 & _ & _ & _).
  - reflexivity.
  - vm_compute. repeat split; discriminate || reflexivity.
  - reflexivity.
  - split; [exact H1 | vm_compute; reflexivity].
Defined.

Lemma error_status_holds_until_read_witness :
  Slave6E.calls
    (fst (Slave6E.run (master_writes (Slave6E.CMD_FILE_CREATE :: name_NEW ++ [0]))
            failed_6E))
  = Slave6E.calls failed_6E.
Proof.
  destruct (error_status_holds_until_read
              (Slave6E.CMD_FILE_CREATE :: name_NEW ++ [0]) failed_6E) as (_ & H & _).
  - vm_compute. repeat split; discriminate || reflexivity.
  - reflexivity.
  - exact H.
Defined.

Lemma file_read_then_done_witness :
  snd (Slave6E.run (master_reads (263 + 1 + 2)) reading_6E)
  = replicate 263 85 ++ [Slave6E.STATUS_DONE; Slave6E.STATUS_ERROR; Slave6E.STATUS_ERROR].
Proof.
  destruct (file_read_then_done 2 (replicate 263 85) false name_A_TXT 263 [] reading_6E)
    as (H & _).
  - reflexivity.
  - reflexivity.
  - vm_compute in H |- *. exact H.
Defined.

Lemma refused_byte_changes_nothing_witness :
  fst (on_event (EvDataWrite 5) exists_probe) = set_SDATA 5 exists_probe.
Proof.
  destruct (refused_byte_changes_nothing 5 exists_probe) as (H & _).
  - vm_compute. discriminate.
  - unfold file_command_has_file. vm_compute. discriminate.
  - apply H. vm_compute. reflexivity.
Defined.
